(** * Socrates: the assessment engine of the adaptive tutor

    A shallow embedding of [assessment_engine.py], of the data model of
    [learner_model.py] and of the tool layer of [tutor_mcp_server.py].

    Conventions of the embedding:
    - Python [float]s are exact rationals ([Q]); two floats are compared
      with [==], [<] and [<=] of [Q].
    - Python [int]s are [Z]; [len] is [Z.of_nat (length _)].
    - [str] is [string], [Optional[str]] is [option string].
    - A function that can raise returns [Res]; [/] raises
      [ZeroDivisionError] on a zero divisor.
    - [datetime.now()] reads a clock that is threaded through the call. *)

From Stdlib Require Import ZArith QArith Lia Lqa Bool Ascii String DecimalString.
From stdpp Require Import base option list strings gmap.

Local Open Scope string_scope.
Local Open Scope Z_scope.

(** ** Exceptions *)

Inductive PyExc : Type :=
| ZeroDivisionError
| ValueError
| TypeError
| OverflowError.

Inductive Res (A : Type) : Type :=
| Ok (a : A)
| Raise (e : PyExc).
Arguments Ok {A} a.
Arguments Raise {A} e.

Definition res_bind {A B : Type} (m : Res A) (k : A -> Res B) : Res B :=
  match m with
  | Ok a => k a
  | Raise e => Raise e
  end.

Notation "'try!' x := m 'in' k" := (res_bind m (fun x => k))
  (at level 10, x name, m at level 100, k at level 200).

Definition returns {A : Type} (m : Res A) : Prop := exists a, m = Ok a.

(** Python's true division of two floats. *)
Definition truediv (a b : Q) : Res Q :=
  if Qeq_bool b 0 then Raise ZeroDivisionError else Ok (a / b)%Q.

(** ** Python containers *)

Definition len {A : Type} (l : list A) : Z := Z.of_nat (length l).

(** [l[start:]], with Python's adjustment of the start index. *)
Definition slice_from {A : Type} (l : list A) (start : Z) : list A :=
  let start' := if start <? 0 then Z.max (start + len l) 0
                else Z.min start (len l) in
  drop (Z.to_nat start') l.

(** [l[:stop]], with Python's adjustment of the stop index. *)
Definition slice_to {A : Type} (l : list A) (stop : Z) : list A :=
  let stop' := if stop <? 0 then Z.max (stop + len l) 0
               else Z.min stop (len l) in
  take (Z.to_nat stop') l.

(** A dict literal that is only read: its items in source order. *)
Fixpoint dict_get {K V : Type} `{EqDecision K} (d : list (K * V)) (k : K)
    (default : V) : V :=
  match d with
  | [] => default
  | (k', v) :: d' => if decide (k' = k) then v else dict_get d' k default
  end.

(** ** learner_model.py *)

Record Attempt : Type := mkAttempt {
  question_id : string;
  learner_answer : string;
  correct_answer : string;
  is_correct : bool;
  error_type : option string;
  error_step : option string;
  bloom_level : option string;
  timestamp : string
}.

Record BreakState : Type := mkBreakState {
  session_start_time : option string;
  last_break_suggestion : option string;
  last_break_taken : option string;
  breaks_taken : Z;
  break_cooldown_minutes : Z;
  consecutive_errors : Z;
  post_break_warmup : bool;
  error_severity_trend : list Z
}.

(** [BreakState()] *)
Definition BreakState_default : BreakState :=
  {| session_start_time := None;
     last_break_suggestion := None;
     last_break_taken := None;
     breaks_taken := 0;
     break_cooldown_minutes := 10;
     consecutive_errors := 0;
     post_break_warmup := false;
     error_severity_trend := [] |}.

Record Misconception : Type := mkMisconception {
  description : string;
  times_observed : Z;
  resolved : bool;
  first_seen : string;
  last_seen : string
}.

Record ZPD : Type := mkZPD {
  current_level : string;
  stretch_level : string;
  too_hard_level : string
}.

Definition ZPD_default : ZPD :=
  {| current_level := "remember";
     stretch_level := "understand";
     too_hard_level := "analyze" |}.

Record TopicState : Type := mkTopicState {
  mastery_level : Q;
  attempt_history : list Attempt;
  trajectory : string;
  misconceptions : list Misconception;
  zpd : ZPD;
  productive_failures : Z;
  break_state : BreakState
}.

(** [TopicState()] *)
Definition TopicState_default : TopicState :=
  {| mastery_level := 0;
     attempt_history := [];
     trajectory := "unknown";
     misconceptions := [];
     zpd := ZPD_default;
     productive_failures := 0;
     break_state := BreakState_default |}.

Record TopicGraph : Type := mkTopicGraph {
  prerequisites : gmap string (list string)
}.

(** ** assessment_engine.py: the error taxonomy *)

Definition ERROR_SEVERITY : list (option string * Z) :=
  [ (None, 0);
    (Some "correct", 0);
    (Some "computational", 1);
    (Some "structural", 2);
    (Some "conceptual", 3) ].

Definition accuracy_scores : list (option string * Q) :=
  [ (Some "correct", 1%Q);
    (Some "computational", (1 # 2)%Q);
    (Some "structural", (1 # 4)%Q);
    (Some "conceptual", 0%Q) ].

(** ** compute_trajectory *)

Definition severity_score (a : Attempt) : Z :=
  if is_correct a then 0 else dict_get ERROR_SEVERITY (error_type a) 2.

Definition sum_Z (l : list Z) : Z := fold_left Z.add l 0.

Definition avg_severity (atts : list Attempt) : Res Q :=
  let scores := map severity_score atts in
  match scores with
  | [] => Ok 0%Q
  | _ => truediv (inject_Z (sum_Z scores)) (inject_Z (len scores))
  end.

Definition compute_trajectory (attempts : list Attempt) (window : Z)
    : Res string :=
  if len attempts <? 3 then Ok "unknown"
  else
    let recent := slice_from attempts (- window) in
    if len recent <? 3 then Ok "unknown"
    else
      let mid := len recent / 2 in
      let first_half := slice_to recent mid in
      let second_half := slice_from recent mid in
      try! first_avg := avg_severity first_half in
      try! second_avg := avg_severity second_half in
      let delta := (first_avg - second_avg)%Q in
      if Qlt_le_dec (3 # 10) delta then Ok "improving"
      else if Qlt_le_dec delta (- (3 # 10)) then Ok "declining"
      else Ok "flat".

(** ** compute_mastery *)

Definition accuracy_score (attempt : Attempt) : Q :=
  if is_correct attempt then 1%Q
  else dict_get accuracy_scores (error_type attempt) (1 # 4)%Q.

(** The body of [for i, attempt in enumerate(recent)], from index [i] on;
    [n] is [len(recent)] and [acc] is [(weighted_sum, weight_total)]. *)
Fixpoint mastery_loop (n i : Z) (rest : list Attempt) (acc : Q * Q)
    : Res (Q * Q) :=
  match rest with
  | [] => Ok acc
  | attempt :: rest' =>
      try! recency_weight := truediv (inject_Z (i + 1)) (inject_Z n) in
      let score := accuracy_score attempt in
      mastery_loop n (i + 1) rest'
        ((fst acc + score * recency_weight)%Q, (snd acc + recency_weight)%Q)
  end.

Definition compute_mastery (topic_state : TopicState) (window : Z) : Res Q :=
  let attempts := attempt_history topic_state in
  match attempts with
  | [] => Ok 0%Q
  | _ =>
      let recent := slice_from attempts (- window) in
      try! sums := mastery_loop (len recent) 0 recent (0%Q, 0%Q) in
      let weighted_sum := fst sums in
      let weight_total := snd sums in
      try! raw := (if Qlt_le_dec 0 weight_total
                   then truediv weighted_sum weight_total
                   else Ok 0%Q) in
      let n := len recent in
      try! confidence := truediv (inject_Z n) (inject_Z (n + 5)) in
      Ok (raw * confidence)%Q
  end.

(** ** _dominant_error_type *)

(** A dict that is built: its items in insertion order. *)
Fixpoint odict_get {V : Type} (d : list (string * V)) (k : string)
    (default : V) : V :=
  match d with
  | [] => default
  | (k', v) :: d' => if String.eqb k' k then v else odict_get d' k default
  end.

(** [d[k] = v]: an existing key keeps its place, a new one goes last. *)
Fixpoint odict_set {V : Type} (d : list (string * V)) (k : string) (v : V)
    : list (string * V) :=
  match d with
  | [] => [(k, v)]
  | (k', v') :: d' =>
      if String.eqb k' k then (k', v) :: d' else (k', v') :: odict_set d' k v
  end.

(** [max(keys, key=f)] after its first item [best]: a later item replaces
    the running maximum only when its key is strictly greater. *)
Fixpoint max_from (f : string -> Z) (best : string) (keys : list string)
    : string :=
  match keys with
  | [] => best
  | k :: keys' => max_from f (if f best <? f k then k else best) keys'
  end.

Definition py_max (keys : list string) (f : string -> Z) : Res string :=
  match keys with
  | [] => Raise ValueError
  | k :: keys' => Ok (max_from f k keys')
  end.

(** [a.error_type or "structural"] *)
Definition error_type_or_structural (a : Attempt) : string :=
  match error_type a with
  | None => "structural"
  | Some EmptyString => "structural"
  | Some et => et
  end.

Definition tally (counts : list (string * Z)) (a : Attempt)
    : list (string * Z) :=
  let et := error_type_or_structural a in
  odict_set counts et (odict_get counts et 0 + 1).

Definition _dominant_error_type (attempts : list Attempt) (window : Z)
    : Res (option string) :=
  let recent_errors :=
    filter (fun a => is_correct a = false) (slice_from attempts (- window)) in
  match recent_errors with
  | [] => Ok None
  | _ =>
      let counts := fold_left tally recent_errors [] in
      try! best := py_max (map fst counts) (fun k => odict_get counts k 0) in
      Ok (Some best)
  end.

(** ** detect_productive_failure *)

Definition detect_productive_failure (attempt : Attempt) : bool :=
  negb (is_correct attempt)
  && bool_decide (error_type attempt = Some "computational").

(** Attempts as the tests build them ([make_attempt]). *)
Definition make_attempt (c : bool) (e : option string) : Attempt :=
  {| question_id := "q"; learner_answer := "a"; correct_answer := "a";
     is_correct := c; error_type := e; error_step := None;
     bloom_level := None; timestamp := "2024-01-01T00:00:00" |}.

Definition topic_of (h : list Attempt) : TopicState :=
  {| mastery_level := 0; attempt_history := h; trajectory := "unknown";
     misconceptions := []; zpd := ZPD_default; productive_failures := 0;
     break_state := BreakState_default |}.

(** ** Dates and the clock *)

(** A [datetime] is naive or carries a UTC offset; both count microseconds.
    A [timedelta] is a number of microseconds. *)
Inductive datetime : Type :=
| Naive (us : Z)
| Aware (us : Z).

(** [a - b]: Python refuses to subtract a naive and an aware datetime. *)
Definition dt_sub (a b : datetime) : Res Z :=
  match a, b with
  | Naive x, Naive y => Ok (x - y)
  | Aware x, Aware y => Ok (x - y)
  | _, _ => Raise TypeError
  end.

Definition us_per_minute : Z := 60000000.

(** [timedelta(minutes=m)]; the days of a timedelta stay within
    -999999999 and 999999999, [OverflowError] otherwise. *)
Definition timedelta_minutes (m : Z) : Res Z :=
  if (-999999999 * 1440 <=? m) && (m <? 1000000000 * 1440)
  then Ok (m * us_per_minute)
  else Raise OverflowError.

(** [td.total_seconds() / 60] *)
Definition total_minutes (td : Z) : Q := (td # 60000000)%Q.

(** [int(x)] of a float: truncation towards zero. *)
Definition int_of_float (x : Q) : Z := Z.quot (Qnum x) (Z.pos (Qden x)).

(** [str(n)] of an int. *)
Definition str_of_int (n : Z) : string := NilZero.string_of_int (Z.to_int n).

(** Truth value of an [Optional[str]]. *)
Definition truthy (s : option string) : bool :=
  match s with
  | None => false
  | Some EmptyString => false
  | Some _ => true
  end.

Definition str_of (s : option string) : string := default EmptyString s.

(** ** check_break_needed and compute_recommendation *)

Record BreakCheck : Type := mkBreakCheck {
  needed : bool;
  reason : string;
  urgency : string
}.

(** The dict [compute_recommendation] returns; a key a branch leaves out
    is [None]. *)
Record Recommendation : Type := mkRecommendation {
  action : string;
  detail : string;
  rec_urgency : option string;
  rec_post_break_warmup : option bool;
  prerequisite_topic : option string
}.

Section Engine.

(** [datetime.fromisoformat]: [Raise ValueError] on a string that is not
    in ISO format. *)
Variable fromisoformat : string -> Res datetime.

(** The readings of [datetime.now()], in call order, in microseconds. *)
Variable clock : nat -> Z.

(** A computation that reads the clock: from the number of readings made
    so far to a result and the number made afterwards. *)
Definition Clk (A : Type) : Type := nat -> Res (A * nat).

Definition clk_ret {A : Type} (a : A) : Clk A := fun k => Ok (a, k).

Definition clk_bind {A B : Type} (m : Clk A) (f : A -> Clk B) : Clk B :=
  fun k =>
    match m k with
    | Ok (a, k') => f a k'
    | Raise e => Raise e
    end.

Definition clk_lift {A : Type} (r : Res A) : Clk A :=
  fun k =>
    match r with
    | Ok a => Ok (a, k)
    | Raise e => Raise e
    end.

Definition datetime_now : Clk datetime :=
  fun k => Ok (Naive (clock k), S k).

(** The value a computation returns when started at reading [0]. *)
Definition run {A : Type} (m : Clk A) : Res A :=
  match m 0%nat with
  | Ok (a, _) => Ok a
  | Raise e => Raise e
  end.

Notation "'do!' x := m 'in' k" := (clk_bind m (fun x => k))
  (at level 10, x name, m at level 100, k at level 200).

(** The cooldown guard: whether the last suggestion is too recent. *)
Definition in_cooldown (break_state : BreakState) : Clk bool :=
  if truthy (last_break_suggestion break_state) then
    do! last_suggestion :=
      clk_lift (fromisoformat (str_of (last_break_suggestion break_state))) in
    do! cooldown :=
      clk_lift (timedelta_minutes (break_cooldown_minutes break_state)) in
    do! t := datetime_now in
    do! since := clk_lift (dt_sub t last_suggestion) in
    clk_ret (since <? cooldown)
  else clk_ret false.

(** Trigger 3: [Some minutes] when the session-length trigger fires. *)
Definition long_session (break_state : BreakState) : Clk (option Q) :=
  if truthy (session_start_time break_state) then
    do! session_start :=
      clk_lift (fromisoformat (str_of (session_start_time break_state))) in
    do! t := datetime_now in
    do! elapsed := clk_lift (dt_sub t session_start) in
    let effective_minutes := total_minutes elapsed in
    let last_break := last_break_taken break_state in
    do! effective_minutes :=
      (if truthy last_break then
         do! t' := datetime_now in
         do! d := clk_lift (fromisoformat (str_of last_break)) in
         do! since_break := clk_lift (dt_sub t' d) in
         clk_ret (total_minutes since_break)
       else clk_ret effective_minutes) in
    if Qle_bool 45 effective_minutes then clk_ret (Some effective_minutes)
    else clk_ret None
  else clk_ret None.

(** Trigger 4: the last three severities rise strictly, up to 2 or more. *)
Definition escalating (trend : list Z) : bool :=
  if 3 <=? len trend then
    match slice_from trend (-3) with
    | [x0; x1; x2] => (x0 <? x1) && (x1 <? x2) && (2 <=? x2)
    | _ => false
    end
  else false.

Definition check_break_needed (break_state : BreakState)
    (trajectory : string) : Clk BreakCheck :=
  let result :=
    {| needed := false; reason := EmptyString; urgency := "low" |} in
  do! cooling := in_cooldown break_state in
  if cooling then clk_ret result
  else if String.eqb trajectory "declining"
          && (3 <=? consecutive_errors break_state) then
    clk_ret
      {| needed := true;
         reason :=
           "Your trajectory is declining and you've had "
           ++ str_of_int (consecutive_errors break_state)
           ++ " consecutive errors. A short break can help reset your focus.";
         urgency := "high" |}
  else if 5 <=? consecutive_errors break_state then
    clk_ret
      {| needed := true;
         reason :=
           "You've had " ++ str_of_int (consecutive_errors break_state)
           ++ " consecutive errors. "
           ++ "Sometimes stepping away for a few minutes helps you see things fresh.";
         urgency := "high" |}
  else
    do! long := long_session break_state in
    match long with
    | Some effective_minutes =>
        clk_ret
          {| needed := true;
             reason :=
               "You've been working for about "
               ++ str_of_int (int_of_float effective_minutes)
               ++ " minutes without a break. "
               ++ "A 5-10 minute break can improve retention.";
             urgency := "medium" |}
    | None =>
        if escalating (error_severity_trend break_state) then
          clk_ret
            {| needed := true;
               reason :=
                 "Your errors are getting more fundamental over time. "
                 ++ "A break might help you approach the material with fresh eyes.";
               urgency := "medium" |}
        else clk_ret result
    end.

(** [prereqs[0]] when [topic_graph and topic in topic_graph.prerequisites]
    and [prereqs] is not empty. *)
Definition first_prerequisite (topic_graph : option TopicGraph)
    (topic : string) : option string :=
  match topic_graph with
  | None => None
  | Some g =>
      match prerequisites g !! topic with
      | None => None
      | Some prereqs => head prereqs
      end
  end.

Definition plain (a d : string) : Recommendation :=
  {| action := a; detail := d; rec_urgency := None;
     rec_post_break_warmup := None; prerequisite_topic := None |}.

Definition compute_recommendation (trajectory : string)
    (dominant_error : option string) (mastery : Q)
    (topic_graph : option TopicGraph) (topic : string)
    (break_state : option BreakState) : Clk Recommendation :=
  do! break_check :=
    match break_state with
    | Some bs =>
        do! c := check_break_needed bs trajectory in
        clk_ret (if needed c then Some c else None)
    | None => clk_ret None
    end in
  match break_check with
  | Some c =>
      clk_ret
        {| action := "take_break"; detail := reason c;
           rec_urgency := Some (urgency c);
           rec_post_break_warmup := Some true;
           prerequisite_topic := None |}
  | None =>
  if match break_state with
     | Some bs => post_break_warmup bs
     | None => false
     end then
    clk_ret
      (plain "warmup"
         "Welcome back! Let's start with a gentler question to ease back in.")
  else if bool_decide (dominant_error = None) && Qle_bool (85 # 100) mastery
  then
    clk_ret
      (plain "keep_grinding"
         ("Mastery is strong. Increase difficulty — move up Bloom's taxonomy "
          ++ "or introduce edge cases."))
  else if String.eqb trajectory "declining" then
    match first_prerequisite topic_graph topic with
    | Some p =>
        clk_ret
          {| action := "go_back";
             detail := "Trajectory declining. Revisit prerequisite material.";
             rec_urgency := None; rec_post_break_warmup := None;
             prerequisite_topic := Some p |}
    | None =>
        clk_ret
          {| action := "take_break";
             detail :=
               "Trajectory declining and no prerequisite to fall back to. "
               ++ "Suggest a short break before trying a different angle.";
             rec_urgency := Some "medium";
             rec_post_break_warmup := Some true;
             prerequisite_topic := None |}
    end
  else if bool_decide (dominant_error = Some "conceptual") then
    if String.eqb trajectory "improving" then
      clk_ret
        (plain "targeted_instruction"
           ("Conceptual gaps but improving. Provide a clear explanation "
            ++ "of the underlying concept with a worked example."))
    else
      match first_prerequisite topic_graph topic with
      | Some p =>
          clk_ret
            {| action := "go_back";
               detail :=
                 "Persistent conceptual errors. Go back to prerequisites.";
               rec_urgency := None; rec_post_break_warmup := None;
               prerequisite_topic := Some p |}
      | None =>
          clk_ret
            (plain "targeted_instruction"
               ("Conceptual errors without prerequisite to revisit. "
                ++ "Give a thorough explanation with multiple examples."))
      end
  else if bool_decide (dominant_error = Some "structural") then
    if String.eqb trajectory "improving" then
      clk_ret
        (plain "keep_grinding"
           ("Structural errors but improving. Continue with hints "
            ++ "about the correct method/approach."))
    else
      clk_ret
        (plain "targeted_instruction"
           ("Structural errors not improving. Teach the correct method "
            ++ "step-by-step with a worked example."))
  else if bool_decide (dominant_error = Some "computational") then
    if String.eqb trajectory "improving" then
      clk_ret
        (plain "keep_grinding"
           "Computational errors but improving. Keep practicing.")
    else
      clk_ret
        (plain "brief_tip"
           ("Computation errors. Give a quick tip about careful calculation "
            ++ "or common pitfalls, then continue."))
  else
    clk_ret
      (plain "keep_grinding" "Continue with appropriately leveled questions.")
  end.

End Engine.

(** ** The taxonomy of section 4.1, as the specification words it *)

Inductive Category : Type :=
| Correct
| Computational
| Structural
| Conceptual.

Definition severity (c : Category) : Z :=
  match c with
  | Correct => 0
  | Computational => 1
  | Structural => 2
  | Conceptual => 3
  end.

Definition accuracy (c : Category) : Q :=
  match c with
  | Correct => 1
  | Computational => 1 # 2
  | Structural => 1 # 4
  | Conceptual => 0
  end.

(** The category of an attempt whose category is recognized. *)
Definition category_of (a : Attempt) : option Category :=
  if is_correct a then Some Correct
  else if bool_decide (error_type a = Some "correct") then Some Correct
  else if bool_decide (error_type a = Some "computational")
  then Some Computational
  else if bool_decide (error_type a = Some "structural") then Some Structural
  else if bool_decide (error_type a = Some "conceptual") then Some Conceptual
  else None.

(** Unweighted mean of a list of severities. *)
Definition mean (l : list Z) : Q := (inject_Z (sum_Z l) / inject_Z (len l))%Q.

(** The last [n] items of a list. *)
Definition last_n {A : Type} (n : nat) (l : list A) : list A :=
  drop (length l - n) l.

(** ** Examples of histories *)

Definition declining_example : list Attempt :=
  [ make_attempt true None; make_attempt true None; make_attempt true None;
    make_attempt false (Some "structural");
    make_attempt false (Some "conceptual");
    make_attempt false (Some "conceptual") ].

Definition twenty_correct : list Attempt := repeat (make_attempt true None) 20.

(** ** The reference definition of mastery *)

(** The accuracy weight of section 4.1: 1.0 for a correct attempt, else the
    weight of the category, 0.25 when it is absent or not recognized. *)
Definition accuracy_weight (a : Attempt) : Q :=
  match category_of a with
  | Some c => accuracy c
  | None => 1 # 4
  end.

(** The reference definition of section 4.3: recency weight [(i+1)/n],
    weighted mean, confidence [n/(n+5)]. *)
Definition recency_weight (n i : Z) : Q := (inject_Z (i + 1) / inject_Z n)%Q.

Fixpoint weighted_sum (n i : Z) (l : list Attempt) : Q :=
  match l with
  | [] => 0
  | a :: l' =>
      (accuracy_weight a * recency_weight n i + weighted_sum n (i + 1) l')%Q
  end.

Fixpoint weight_total (n i : Z) (l : list Attempt) : Q :=
  match l with
  | [] => 0
  | _ :: l' => (recency_weight n i + weight_total n (i + 1) l')%Q
  end.

Definition mastery_reference (history : list Attempt) (window : Z) : Q :=
  match history with
  | [] => 0
  | _ =>
      let recent := last_n (Z.to_nat window) history in
      let n := len recent in
      (weighted_sum n 0 recent / weight_total n 0 recent
       * (inject_Z n / inject_Z (n + 5)))%Q
  end.

(** The loop of [compute_mastery] when no division fails. *)
Fixpoint loop_value (n i : Z) (rest : list Attempt) (acc : Q * Q) : Q * Q :=
  match rest with
  | [] => acc
  | attempt :: rest' =>
      let recency_weight := (inject_Z (i + 1) / inject_Z n)%Q in
      let score := accuracy_score attempt in
      loop_value n (i + 1) rest'
        ((fst acc + score * recency_weight)%Q, (snd acc + recency_weight)%Q)
  end.

(** The value [compute_mastery] returns for the slice [recent]. *)
Definition mastery_value (recent : list Attempt) : Q :=
  let sums := loop_value (len recent) 0 recent (0%Q, 0%Q) in
  let raw := if Qlt_le_dec 0 (snd sums) then (fst sums / snd sums)%Q
             else 0%Q in
  (raw * (inject_Z (len recent) / inject_Z (len recent + 5)))%Q.


(** The sums of the loop before the common factor [1/n]: accuracy times
    [i+1], and [i+1] alone. *)
Fixpoint usum (i : Z) (l : list Attempt) : Q :=
  match l with
  | [] => 0
  | a :: l' => (accuracy_score a * inject_Z (i + 1) + usum (i + 1) l')%Q
  end.

Fixpoint utot (i : Z) (l : list Attempt) : Q :=
  match l with
  | [] => 0
  | _ :: l' => (inject_Z (i + 1) + utot (i + 1) l')%Q
  end.

(** ** The rules of section 4.6, as the specification words them *)

(** The record of rule 3, the advancement rule. *)
Definition advance : Recommendation :=
  plain "keep_grinding"
    ("Mastery is strong. Increase difficulty — move up Bloom's taxonomy "
     ++ "or introduce edge cases.").

(** What the rules look at: the inputs of [compute_recommendation], the
    topic's prerequisite list (empty when there is none), the answer of the
    Break Monitor when a break state is supplied, and the warm-up flag of
    that break state. *)
Record Signals : Type := mkSignals {
  sig_trajectory : string;
  sig_dominant_error : option string;
  sig_mastery : Q;
  sig_prerequisites : list string;
  sig_break : option BreakCheck;
  sig_warmup : bool
}.

Definition Rule : Type := Signals -> option Recommendation.

Definition go_back (d p : string) : Recommendation :=
  {| action := "go_back"; detail := d; rec_urgency := None;
     rec_post_break_warmup := None; prerequisite_topic := Some p |}.

Definition rule_break : Rule := fun s =>
  match sig_break s with
  | Some c =>
      if needed c then
        Some {| action := "take_break"; detail := reason c;
                rec_urgency := Some (urgency c);
                rec_post_break_warmup := Some true;
                prerequisite_topic := None |}
      else None
  | None => None
  end.

Definition rule_warmup : Rule := fun s =>
  if sig_warmup s then
    Some (plain "warmup"
            "Welcome back! Let's start with a gentler question to ease back in.")
  else None.

Definition rule_advance : Rule := fun s =>
  if bool_decide (sig_dominant_error s = None)
     && Qle_bool (85 # 100) (sig_mastery s)
  then Some advance else None.

Definition rule_declining : Rule := fun s =>
  if String.eqb (sig_trajectory s) "declining" then
    match sig_prerequisites s with
    | p :: _ =>
        Some (go_back "Trajectory declining. Revisit prerequisite material." p)
    | [] =>
        Some {| action := "take_break";
                detail :=
                  "Trajectory declining and no prerequisite to fall back to. "
                  ++ "Suggest a short break before trying a different angle.";
                rec_urgency := Some "medium";
                rec_post_break_warmup := Some true;
                prerequisite_topic := None |}
    end
  else None.

Definition rule_conceptual : Rule := fun s =>
  if bool_decide (sig_dominant_error s = Some "conceptual") then
    if String.eqb (sig_trajectory s) "improving" then
      Some (plain "targeted_instruction"
              ("Conceptual gaps but improving. Provide a clear explanation "
               ++ "of the underlying concept with a worked example."))
    else
      match sig_prerequisites s with
      | p :: _ =>
          Some (go_back
                  "Persistent conceptual errors. Go back to prerequisites." p)
      | [] =>
          Some (plain "targeted_instruction"
                  ("Conceptual errors without prerequisite to revisit. "
                   ++ "Give a thorough explanation with multiple examples."))
      end
  else None.

Definition rule_structural : Rule := fun s =>
  if bool_decide (sig_dominant_error s = Some "structural") then
    if String.eqb (sig_trajectory s) "improving" then
      Some (plain "keep_grinding"
              ("Structural errors but improving. Continue with hints "
               ++ "about the correct method/approach."))
    else
      Some (plain "targeted_instruction"
              ("Structural errors not improving. Teach the correct method "
               ++ "step-by-step with a worked example."))
  else None.

Definition rule_computational : Rule := fun s =>
  if bool_decide (sig_dominant_error s = Some "computational") then
    if String.eqb (sig_trajectory s) "improving" then
      Some (plain "keep_grinding"
              "Computational errors but improving. Keep practicing.")
    else
      Some (plain "brief_tip"
              ("Computation errors. Give a quick tip about careful calculation "
               ++ "or common pitfalls, then continue."))
  else None.

Definition rule_default : Rule := fun _ =>
  Some (plain "keep_grinding" "Continue with appropriately leveled questions.").

Definition rules : list Rule :=
  [ rule_break; rule_warmup; rule_advance; rule_declining;
    rule_conceptual; rule_structural; rule_computational; rule_default ].

(** The first rule of the list that matches decides. *)
Fixpoint first_match (rs : list Rule) (s : Signals) : option Recommendation :=
  match rs with
  | [] => None
  | r :: rs' =>
      match r s with
      | Some x => Some x
      | None => first_match rs' s
      end
  end.

(** The prerequisite list of a topic; empty when the graph or the entry is
    absent. *)
Definition prerequisites_of (topic_graph : option TopicGraph) (topic : string)
    : list string :=
  match topic_graph with
  | Some g => default [] (prerequisites g !! topic)
  | None => []
  end.

Definition signals (trajectory : string) (dominant_error : option string)
    (mastery : Q) (topic_graph : option TopicGraph) (topic : string)
    (break_state : option BreakState) (check : option BreakCheck) : Signals :=
  {| sig_trajectory := trajectory;
     sig_dominant_error := dominant_error;
     sig_mastery := mastery;
     sig_prerequisites := prerequisites_of topic_graph topic;
     sig_break := check;
     sig_warmup := match break_state with
                   | Some bs => post_break_warmup bs
                   | None => false
                   end |}.

(** ** Examples for the recommendation engine *)

(** A parser for the examples: it knows no string. *)
Definition no_timestamps : string -> Res datetime := fun _ => Raise ValueError.

(** A clock that stands still. *)
Definition frozen (t : Z) : nat -> Z := fun _ => t.

Definition math_graph : TopicGraph :=
  {| prerequisites := {[ "math" := ["arithmetic"] ]} |}.

(** The answer of the Break Monitor inside [compute_recommendation]: none
    without a break state. *)
Definition monitor_answer (fromisoformat : string -> Res datetime)
    (clock : nat -> Z) (break_state : option BreakState) (trajectory : string)
    (k : nat) : Res (option BreakCheck * nat) :=
  match break_state with
  | None => Ok (None, k)
  | Some bs =>
      match check_break_needed fromisoformat clock bs trajectory k with
      | Ok (c, k') => Ok (Some c, k')
      | Raise e => Raise e
      end
  end.

(** ** The reference definition of the Break Monitor (section 4.5) *)

(** The instant a timestamp field holds, when the field exists. *)
Definition instant (fromisoformat : string -> Res datetime)
    (s : option string) : option Z :=
  if truthy s then
    match fromisoformat (str_of s) with
    | Ok (Naive t) => Some t
    | _ => None
    end
  else None.

(** Effective elapsed time: since the last break when a break has occurred
    this session, else since the session start. *)
Definition effective_elapsed (now : Z) (session_start last_break : option Z)
    : option Z :=
  match session_start with
  | None => None
  | Some s =>
      match last_break with
      | Some b => if s <=? b then Some (now - b) else Some (now - s)
      | None => Some (now - s)
      end
  end.

(** The last three entries rise strictly and the most recent is 2 or more. *)
Definition rising_last_three (trend : list Z) : bool :=
  match last_n 3 trend with
  | [x0; x1; x2] => (x0 <? x1) && (x1 <? x2) && (2 <=? x2)
  | _ => false
  end.

(** The answer as (needed, urgency). *)
Definition check_break_reference (fromisoformat : string -> Res datetime)
    (now : Z) (bs : BreakState) (trajectory : string) : bool * string :=
  if match instant fromisoformat (last_break_suggestion bs) with
     | Some t => now - t <? break_cooldown_minutes bs * us_per_minute
     | None => false
     end
  then (false, "low")
  else if String.eqb trajectory "declining" && (3 <=? consecutive_errors bs)
  then (true, "high")
  else if 5 <=? consecutive_errors bs then (true, "high")
  else if match effective_elapsed now
                   (instant fromisoformat (session_start_time bs))
                   (instant fromisoformat (last_break_taken bs)) with
          | Some e => 45 * us_per_minute <=? e
          | None => false
          end
  then (true, "medium")
  else if rising_last_three (error_severity_trend bs) then (true, "medium")
  else (false, "low").

(** A timestamp field that exists holds the ISO form of a naive datetime. *)
Definition parses_naive (fromisoformat : string -> Res datetime)
    (s : option string) : Prop :=
  truthy s = true -> exists t, fromisoformat (str_of s) = Ok (Naive t).

Definition cooldown_in_range (bs : BreakState) : Prop :=
  -999999999 * 1440 <= break_cooldown_minutes bs < 1000000000 * 1440.

Definition well_formed_times (fromisoformat : string -> Res datetime)
    (bs : BreakState) : Prop :=
  parses_naive fromisoformat (last_break_suggestion bs) /\
  parses_naive fromisoformat (session_start_time bs) /\
  parses_naive fromisoformat (last_break_taken bs) /\
  cooldown_in_range bs.

(** ** Examples for the Break Monitor *)

(** A parser for the examples: the instants of three ISO strings, counted in
    microseconds from 2024-01-01T00:00:00; every other string is refused. *)
Definition example_times (s : string) : Res datetime :=
  if String.eqb s "2024-01-01T10:00:00" then Ok (Naive 36000000000)
  else if String.eqb s "2024-01-04T09:00:00" then Ok (Naive 291600000000)
  else if String.eqb s "2024-01-04T09:01:00" then Ok (Naive 291660000000)
  else Raise ValueError.

(** One minute into a session that follows a break of an earlier session:
    the session started on 2024-01-04 at 09:00, the last break was taken on
    2024-01-01 at 10:00. *)
Definition stale_break : BreakState :=
  {| session_start_time := Some "2024-01-04T09:00:00";
     last_break_suggestion := None;
     last_break_taken := Some "2024-01-01T10:00:00";
     breaks_taken := 1;
     break_cooldown_minutes := 10;
     consecutive_errors := 0;
     post_break_warmup := false;
     error_severity_trend := [] |}.

(** 2024-01-04T09:01:00 *)
Definition one_minute_in : Z := 291660000000.

(** A break state whose last suggestion is not a date. *)
Definition broken_suggestion : BreakState :=
  {| session_start_time := None;
     last_break_suggestion := Some "yesterday";
     last_break_taken := None;
     breaks_taken := 0;
     break_cooldown_minutes := 10;
     consecutive_errors := 0;
     post_break_warmup := false;
     error_severity_trend := [] |}.

(** Neither consecutive-error trigger of the Break Monitor fires. *)
Definition no_error_trigger (bs : BreakState) (trajectory : string) : Prop :=
  (String.eqb trajectory "declining" && (3 <=? consecutive_errors bs)) = false
  /\ (5 <=? consecutive_errors bs) = false.

(** A break state whose session start is not a date. *)
Definition broken_session_start : BreakState :=
  {| session_start_time := Some "this morning";
     last_break_suggestion := None;
     last_break_taken := None;
     breaks_taken := 0;
     break_cooldown_minutes := 10;
     consecutive_errors := 0;
     post_break_warmup := false;
     error_severity_trend := [] |}.

(** A break state whose last break is not a date. *)
Definition broken_last_break : BreakState :=
  {| session_start_time := Some "2024-01-04T09:00:00";
     last_break_suggestion := None;
     last_break_taken := Some "after lunch";
     breaks_taken := 1;
     break_cooldown_minutes := 10;
     consecutive_errors := 0;
     post_break_warmup := false;
     error_severity_trend := [] |}.

(** The same unparsable session start after five errors in a row. *)
Definition broken_start_five_errors : BreakState :=
  {| session_start_time := Some "this morning";
     last_break_suggestion := None;
     last_break_taken := None;
     breaks_taken := 0;
     break_cooldown_minutes := 10;
     consecutive_errors := 5;
     post_break_warmup := false;
     error_severity_trend := [] |}.

(** An unparsable last break in a state without a session start. *)
Definition broken_break_no_start : BreakState :=
  {| session_start_time := None;
     last_break_suggestion := None;
     last_break_taken := Some "after lunch";
     breaks_taken := 1;
     break_cooldown_minutes := 10;
     consecutive_errors := 0;
     post_break_warmup := false;
     error_severity_trend := [] |}.

(** An unparsable session start within the cooldown of a suggestion made
    on 2024-01-04 at 09:00. *)
Definition broken_start_cooling : BreakState :=
  {| session_start_time := Some "this morning";
     last_break_suggestion := Some "2024-01-04T09:00:00";
     last_break_taken := None;
     breaks_taken := 0;
     break_cooldown_minutes := 10;
     consecutive_errors := 0;
     post_break_warmup := false;
     error_severity_trend := [] |}.

(** A break state with its three timestamps set: the session started on
    2024-01-04 at 09:00, a break was suggested on 2024-01-01 at 10:00 and
    taken on 2024-01-04 at 09:00. *)
Definition all_times_set : BreakState :=
  {| session_start_time := Some "2024-01-04T09:00:00";
     last_break_suggestion := Some "2024-01-01T10:00:00";
     last_break_taken := Some "2024-01-04T09:00:00";
     breaks_taken := 1;
     break_cooldown_minutes := 10;
     consecutive_errors := 2;
     post_break_warmup := false;
     error_severity_trend := [1; 2] |}.

(** ** The dominant error, as the specification words it *)

(** [counts[et] = counts.get(et, 0) + 1] *)
Definition bump (counts : list (string * Z)) (et : string)
    : list (string * Z) :=
  odict_set counts et (odict_get counts et 0 + 1).

(** The categories of the incorrect attempts of the window, oldest first. *)
Definition recent_error_categories (attempts : list Attempt) (window : Z)
    : list string :=
  map error_type_or_structural
    (filter (fun a => is_correct a = false) (slice_from attempts (- window))).

Fixpoint count_in (c : string) (l : list string) : Z :=
  match l with
  | [] => 0
  | x :: l' => (if String.eqb x c then 1 else 0) + count_in c l'
  end.

(** The highest count of a category of the list. *)
Definition max_count (cats : list string) : Z :=
  fold_right Z.max 0 (map (fun c => count_in c cats) cats).

(** Scanning oldest first, the category whose running count is the first
    to reach [m]. *)
Fixpoint first_to_reach (m : Z) (seen rest : list string) : option string :=
  match rest with
  | [] => None
  | c :: rest' =>
      if count_in c (c :: seen) =? m then Some c
      else first_to_reach m (c :: seen) rest'
  end.

Definition first_to_reach_max (cats : list string) : option string :=
  first_to_reach (max_count cats) [] cats.

(** Two categories share the highest count. *)
Definition tied (cats : list string) : Prop :=
  exists c1 c2 : string,
    c1 <> c2 /\ count_in c1 cats = max_count cats /\
    count_in c2 cats = max_count cats.

(** Two computational and two structural errors, the computational ones
    first and last. *)
Definition tie_example : list Attempt :=
  [ make_attempt false (Some "computational");
    make_attempt false (Some "structural");
    make_attempt false (Some "structural");
    make_attempt false (Some "computational") ].

(** ** learner_model.py: profiles and their persistence *)

Record SessionSummary : Type := mkSessionSummary {
  session_number : Z;
  ss_topic : string;
  start_time : string;
  end_time : option string;
  attempts_count : Z;
  correct_count : Z;
  mastery_start : Q;
  mastery_end : Q;
  ss_breaks_taken : Z
}.

Record LearnerProfile : Type := mkLearnerProfile {
  learner_id : string;
  session_count : Z;
  topics : gmap string TopicState;
  topic_graphs : gmap string TopicGraph;
  session_history : list SessionSummary
}.

(** [LearnerProfile(learner_id=learner_id)] *)
Definition LearnerProfile_new (id : string) : LearnerProfile :=
  {| learner_id := id; session_count := 0; topics := ∅; topic_graphs := ∅;
     session_history := [] |}.

(** The learner documents on disk, by learner identifier. *)
Definition load_learner (store : gmap string LearnerProfile) (id : string)
    : LearnerProfile :=
  default (LearnerProfile_new id) (store !! id).

Definition save_learner (store : gmap string LearnerProfile)
    (profile : LearnerProfile) : gmap string LearnerProfile :=
  <[learner_id profile := profile]> store.

(** ** tutor_mcp_server.py: the tool layer *)

(** [s.replace(a, b)] for single characters. *)
Fixpoint replace_char (a b : ascii) (s : string) : string :=
  match s with
  | EmptyString => EmptyString
  | String c s' => String (if Ascii.eqb c a then b else c) (replace_char a b s')
  end.

(** [l[-1]] replaced by [f l[-1]]. *)
Fixpoint update_last {A : Type} (f : A -> A) (l : list A) : list A :=
  match l with
  | [] => []
  | [x] => [f x]
  | x :: l' => x :: update_last f l'
  end.

(** The break state after an attempt ([record_attempt], "Update break
    state"). *)
Definition break_state_after_attempt (bs : BreakState) (is_correct : bool)
    (error_type : option string) : BreakState :=
  if is_correct then
    {| session_start_time := session_start_time bs;
       last_break_suggestion := last_break_suggestion bs;
       last_break_taken := last_break_taken bs;
       breaks_taken := breaks_taken bs;
       break_cooldown_minutes := break_cooldown_minutes bs;
       consecutive_errors := 0;
       post_break_warmup := false;
       error_severity_trend := error_severity_trend bs |}
  else
    let severity := dict_get ERROR_SEVERITY error_type 2 in
    let trend := (error_severity_trend bs ++ [severity])%list in
    {| session_start_time := session_start_time bs;
       last_break_suggestion := last_break_suggestion bs;
       last_break_taken := last_break_taken bs;
       breaks_taken := breaks_taken bs;
       break_cooldown_minutes := break_cooldown_minutes bs;
       consecutive_errors := consecutive_errors bs + 1;
       post_break_warmup := post_break_warmup bs;
       error_severity_trend :=
         if 10 <? len trend then slice_from trend (-10) else trend |}.

Definition with_break_state (ts : TopicState) (bs : BreakState) : TopicState :=
  {| mastery_level := mastery_level ts;
     attempt_history := attempt_history ts;
     trajectory := trajectory ts;
     misconceptions := misconceptions ts;
     zpd := zpd ts;
     productive_failures := productive_failures ts;
     break_state := bs |}.

Definition with_misconceptions (ts : TopicState) (ms : list Misconception)
    : TopicState :=
  {| mastery_level := mastery_level ts;
     attempt_history := attempt_history ts;
     trajectory := trajectory ts;
     misconceptions := ms;
     zpd := zpd ts;
     productive_failures := productive_failures ts;
     break_state := break_state ts |}.

Definition with_topics (p : LearnerProfile) (t : gmap string TopicState)
    : LearnerProfile :=
  {| learner_id := learner_id p; session_count := session_count p;
     topics := t; topic_graphs := topic_graphs p;
     session_history := session_history p |}.

(** The tools that change the persisted documents.  The dict a tool returns
    is not modelled, only what it saves. *)
Inductive Operation : Type :=
| StartSession (id topic : string)
| RecordAttempt (id topic question learner_ans correct_ans : string)
    (correct : bool) (etype estep bloom : option string)
| GetAssessment (id topic : string)
| GetLearnerProfile (id : string)
| UpdateTopicMastery (id topic : string) (level : Q)
| RecordMisconception (id topic descr : string)
| ResolveMisconception (id topic descr : string)
| StoreTopicGraph (id topic : string) (prereqs : gmap string (list string))
| AddTopics (id : string) (names : list string)
| DeleteTopic (id topic : string)
| RecordBreak (id topic : string) (duration_minutes : option Z)
| EndSession (id : string)
| AppDeleteTopic (id topic : string).

Definition is_override (op : Operation) : bool :=
  match op with
  | UpdateTopicMastery _ _ _ => true
  | _ => false
  end.

Section ToolLayer.

(** [str.strip] and [str.lower] of Python. *)
Variable str_strip : string -> string.
Variable str_lower : string -> string.

(** The readings of [datetime.now().isoformat()], in call order. *)
Variable now_iso : nat -> string.

Variable fromisoformat : string -> Res datetime.

(** [rebuild_unified_graph] of learner_model.py, which the tool layer
    imports and whose definition is not part of the sources at hand; it
    works on the profile in place. *)
Variable rebuild_unified_graph : LearnerProfile -> LearnerProfile.

(** The documents and the number of clock readings made so far. *)
Definition World : Type := gmap string LearnerProfile * nat.

Definition _normalize_topic (topic : string) : string :=
  replace_char "-"%char "_"%char
    (replace_char " "%char "_"%char (str_lower (str_strip topic))).

Definition topic_or_new (p : LearnerProfile) (topic : string) : TopicState :=
  default TopicState_default (topics p !! topic).

Definition start_session (id topic : string) (w : World) : World :=
  let '(store, k) := w in
  let topic := _normalize_topic topic in
  let profile := load_learner store id in
  let count := session_count profile + 1 in
  let ts := topic_or_new profile topic in
  let bs := break_state ts in
  let ts' :=
    with_break_state ts
      {| session_start_time := Some (now_iso k);
         last_break_suggestion := last_break_suggestion bs;
         last_break_taken := last_break_taken bs;
         breaks_taken := breaks_taken bs;
         break_cooldown_minutes := break_cooldown_minutes bs;
         consecutive_errors := 0;
         post_break_warmup := false;
         error_severity_trend := [] |} in
  let summary :=
    {| session_number := count; ss_topic := topic;
       start_time := now_iso (S k); end_time := None;
       attempts_count := 0; correct_count := 0;
       mastery_start := mastery_level ts'; mastery_end := 0;
       ss_breaks_taken := 0 |} in
  (save_learner store
     {| learner_id := learner_id profile; session_count := count;
        topics := <[topic := ts']> (topics profile);
        topic_graphs := topic_graphs profile;
        session_history := (session_history profile ++ [summary])%list |},
   S (S k)).

Definition record_attempt (id topic question learner_ans correct_ans : string)
    (correct : bool) (etype estep bloom : option string) (w : World)
    : World :=
  let '(store, k) := w in
  let topic := _normalize_topic topic in
  let profile := load_learner store id in
  let ts := topic_or_new profile topic in
  let attempt :=
    {| question_id := question; learner_answer := learner_ans;
       correct_answer := correct_ans; is_correct := correct;
       error_type := etype; error_step := estep; bloom_level := bloom;
       timestamp := now_iso k |} in
  let history := (attempt_history ts ++ [attempt])%list in
  let bs := break_state_after_attempt (break_state ts) correct etype in
  let failures :=
    if detect_productive_failure attempt then productive_failures ts + 1
    else productive_failures ts in
  match compute_trajectory history 5 with
  | Raise _ => (store, S k)
  | Ok traj =>
      let ts1 :=
        {| mastery_level := mastery_level ts; attempt_history := history;
           trajectory := traj; misconceptions := misconceptions ts;
           zpd := zpd ts; productive_failures := failures;
           break_state := bs |} in
      match compute_mastery ts1 10 with
      | Raise _ => (store, S k)
      | Ok m =>
          let ts2 :=
            {| mastery_level := m; attempt_history := history;
               trajectory := traj; misconceptions := misconceptions ts;
               zpd := zpd ts; productive_failures := failures;
               break_state := bs |} in
          let note (s : SessionSummary) :=
            {| session_number := session_number s; ss_topic := ss_topic s;
               start_time := start_time s; end_time := end_time s;
               attempts_count := attempts_count s + 1;
               correct_count :=
                 if correct then correct_count s + 1 else correct_count s;
               mastery_start := mastery_start s; mastery_end := m;
               ss_breaks_taken := ss_breaks_taken s |} in
          (save_learner store
             {| learner_id := learner_id profile;
                session_count := session_count profile;
                topics := <[topic := ts2]> (topics profile);
                topic_graphs := topic_graphs profile;
                session_history := update_last note (session_history profile) |},
           S k)
      end
  end.

(** [max(0.0, min(1.0, mastery_level))] *)
Definition clamp_unit (x : Q) : Q :=
  let m := if Qlt_le_dec x 1 then x else 1%Q in
  if Qlt_le_dec 0 m then m else 0%Q.

Definition update_topic_mastery (id topic : string) (level : Q) (w : World)
    : World :=
  let '(store, k) := w in
  let topic := _normalize_topic topic in
  let profile := load_learner store id in
  let ts := topic_or_new profile topic in
  let ts' :=
    {| mastery_level := clamp_unit level;
       attempt_history := attempt_history ts; trajectory := trajectory ts;
       misconceptions := misconceptions ts; zpd := zpd ts;
       productive_failures := productive_failures ts;
       break_state := break_state ts |} in
  (save_learner store (with_topics profile (<[topic := ts']> (topics profile))),
   k).

(** The first misconception of the same description, seen again at [now]. *)
Fixpoint observe_again (now descr : string) (ms : list Misconception)
    : option (list Misconception) :=
  match ms with
  | [] => None
  | m :: ms' =>
      if String.eqb (str_lower (description m)) (str_lower descr) then
        Some ({| description := description m;
                 times_observed := times_observed m + 1;
                 resolved := false;
                 first_seen := first_seen m;
                 last_seen := now |} :: ms')
      else option_map (cons m) (observe_again now descr ms')
  end.

Definition record_misconception (id topic descr : string) (w : World)
    : World :=
  let '(store, k) := w in
  let topic := _normalize_topic topic in
  let profile := load_learner store id in
  let ts := topic_or_new profile topic in
  match observe_again (now_iso k) descr (misconceptions ts) with
  | Some ms =>
      (save_learner store
         (with_topics profile
            (<[topic := with_misconceptions ts ms]> (topics profile))),
       S k)
  | None =>
      let m :=
        {| description := descr; times_observed := 1; resolved := false;
           first_seen := now_iso k; last_seen := now_iso (S k) |} in
      (save_learner store
         (with_topics profile
            (<[topic := with_misconceptions ts
                          (misconceptions ts ++ [m])%list]>
               (topics profile))),
       S (S k))
  end.

Fixpoint mark_resolved (now descr : string) (ms : list Misconception)
    : option (list Misconception) :=
  match ms with
  | [] => None
  | m :: ms' =>
      if String.eqb (str_lower (description m)) (str_lower descr) then
        Some ({| description := description m;
                 times_observed := times_observed m;
                 resolved := true;
                 first_seen := first_seen m;
                 last_seen := now |} :: ms')
      else option_map (cons m) (mark_resolved now descr ms')
  end.

Definition resolve_misconception (id topic descr : string) (w : World)
    : World :=
  let '(store, k) := w in
  let topic := _normalize_topic topic in
  let profile := load_learner store id in
  match topics profile !! topic with
  | None => (store, k)
  | Some ts =>
      match mark_resolved (now_iso k) descr (misconceptions ts) with
      | Some ms =>
          (save_learner store
             (with_topics profile
                (<[topic := with_misconceptions ts ms]> (topics profile))),
           S k)
      | None => (store, k)
      end
  end.

Definition store_topic_graph (id topic : string)
    (prereqs : gmap string (list string)) (w : World) : World :=
  let '(store, k) := w in
  let topic := _normalize_topic topic in
  let profile := load_learner store id in
  let profile' :=
    {| learner_id := learner_id profile;
       session_count := session_count profile;
       topics := topics profile;
       topic_graphs :=
         <[topic := {| prerequisites := prereqs |}]> (topic_graphs profile);
       session_history := session_history profile |} in
  (save_learner store (rebuild_unified_graph profile'), k).

(** The loop of [add_topics]. *)
Definition add_topic (t : gmap string TopicState) (raw_topic : string)
    : gmap string TopicState :=
  let topic := _normalize_topic raw_topic in
  match t !! topic with
  | Some _ => t
  | None => <[topic := TopicState_default]> t
  end.

Definition add_topics (id : string) (names : list string) (w : World)
    : World :=
  let '(store, k) := w in
  let profile := load_learner store id in
  (save_learner store
     (with_topics profile (fold_left add_topic names (topics profile))),
   k).

Definition delete_topic (id topic : string) (w : World) : World :=
  let '(store, k) := w in
  let topic := _normalize_topic topic in
  let profile := load_learner store id in
  match topics profile !! topic with
  | None => (store, k)
  | Some _ =>
      let profile' :=
        {| learner_id := learner_id profile;
           session_count := session_count profile;
           topics := delete topic (topics profile);
           topic_graphs := delete topic (topic_graphs profile);
           session_history := session_history profile |} in
      (save_learner store (rebuild_unified_graph profile'), k)
  end.

Definition record_break (id topic : string) (w : World) : World :=
  let '(store, k) := w in
  let topic := _normalize_topic topic in
  let profile := load_learner store id in
  match topics profile !! topic with
  | None => (store, k)
  | Some ts =>
      let bs := break_state ts in
      let ts' :=
        with_break_state ts
          {| session_start_time := session_start_time bs;
             last_break_suggestion := last_break_suggestion bs;
             last_break_taken := Some (now_iso k);
             breaks_taken := breaks_taken bs + 1;
             break_cooldown_minutes := break_cooldown_minutes bs;
             consecutive_errors := 0;
             post_break_warmup := true;
             error_severity_trend := [] |} in
      let note (s : SessionSummary) :=
        {| session_number := session_number s; ss_topic := ss_topic s;
           start_time := start_time s; end_time := end_time s;
           attempts_count := attempts_count s;
           correct_count := correct_count s;
           mastery_start := mastery_start s; mastery_end := mastery_end s;
           ss_breaks_taken := ss_breaks_taken s + 1 |} in
      (save_learner store
         {| learner_id := learner_id profile;
            session_count := session_count profile;
            topics := <[topic := ts']> (topics profile);
            topic_graphs := topic_graphs profile;
            session_history := update_last note (session_history profile) |},
       S k)
  end.

(** [_session_duration_minutes] raises when a time does not parse; the
    rounded duration itself is part of the answer only. *)
Definition _session_duration_minutes (start finish : string) : Res Z :=
  try! s := fromisoformat start in
  try! e := fromisoformat finish in
  dt_sub e s.

Definition end_session (id : string) (w : World) : World :=
  let '(store, k) := w in
  let profile := load_learner store id in
  match last (session_history profile) with
  | None => (save_learner store profile, k)
  | Some current =>
      let close (s : SessionSummary) :=
        {| session_number := session_number s; ss_topic := ss_topic s;
           start_time := start_time s; end_time := Some (now_iso k);
           attempts_count := attempts_count s;
           correct_count := correct_count s;
           mastery_start := mastery_start s; mastery_end := mastery_end s;
           ss_breaks_taken := ss_breaks_taken s |} in
      match _session_duration_minutes (start_time current) (now_iso k) with
      | Raise _ => (store, S k)
      | Ok _ =>
          (save_learner store
             {| learner_id := learner_id profile;
                session_count := session_count profile;
                topics := topics profile;
                topic_graphs := topic_graphs profile;
                session_history :=
                  update_last close (session_history profile) |},
           S k)
      end
  end.

(** [delete_topic] of tutor_app.py, on the document itself. *)
Definition app_delete_topic (id topic : string) (w : World) : World :=
  let '(store, k) := w in
  match store !! id with
  | None => (store, k)
  | Some profile =>
      let topic_key :=
        replace_char "-"%char "_"%char
          (replace_char " "%char "_"%char (str_lower (str_strip topic))) in
      match topics profile !! topic_key with
      | None => (store, k)
      | Some _ =>
          (<[id :=
               {| learner_id := learner_id profile;
                  session_count := session_count profile;
                  topics := delete topic_key (topics profile);
                  topic_graphs := delete topic_key (topic_graphs profile);
                  session_history := session_history profile |}]> store,
           k)
      end
  end.

Definition perform (op : Operation) (w : World) : World :=
  match op with
  | StartSession id topic => start_session id topic w
  | RecordAttempt id topic q la ca c et es bl =>
      record_attempt id topic q la ca c et es bl w
  | GetAssessment _ _ => w
  | GetLearnerProfile _ => w
  | UpdateTopicMastery id topic level => update_topic_mastery id topic level w
  | RecordMisconception id topic d => record_misconception id topic d w
  | ResolveMisconception id topic d => resolve_misconception id topic d w
  | StoreTopicGraph id topic g => store_topic_graph id topic g w
  | AddTopics id names => add_topics id names w
  | DeleteTopic id topic => delete_topic id topic w
  | RecordBreak id topic _ => record_break id topic w
  | EndSession id => end_session id w
  | AppDeleteTopic id topic => app_delete_topic id topic w
  end.

Definition perform_all (ops : list Operation) (w : World) : World :=
  fold_left (fun w op => perform op w) ops w.

End ToolLayer.

(** The derived fields of a topic agree with its history. *)
Definition derived_ok (ts : TopicState) : Prop :=
  compute_mastery ts 10 = Ok (mastery_level ts) /\
  compute_trajectory (attempt_history ts) 5 = Ok (trajectory ts).

Definition profile_ok (p : LearnerProfile) : Prop :=
  forall (topic : string) (ts : TopicState),
    topics p !! topic = Some ts -> derived_ok ts.

Definition store_ok (store : gmap string LearnerProfile) : Prop :=
  forall (id : string) (p : LearnerProfile),
    store !! id = Some p -> profile_ok p.

(** ** Examples for the tool layer *)

Definition same_string (s : string) : string := s.

Definition same_profile (p : LearnerProfile) : LearnerProfile := p.

Definition ten_o_clock (k : nat) : string := "2024-01-01T10:00:00".

(** A short session of one learner. *)
Definition short_session : list Operation :=
  [ StartSession "ann" "Math";
    RecordAttempt "ann" "Math" "q1" "4" "4" true None None None;
    RecordAttempt "ann" "Math" "q2" "5" "6" false (Some "conceptual") None None;
    RecordBreak "ann" "Math" None;
    EndSession "ann" ].

(** An incorrect attempt without a category. *)
Definition uncategorized : Attempt := make_attempt false None.

(** Two correct attempts, then three incorrect ones without a category. *)
Definition uncategorized_run : list Attempt :=
  [ make_attempt true None; make_attempt true None;
    uncategorized; uncategorized; uncategorized ].

(** ** Inputs of the test suite *)

Definition make_attempts (specs : list (bool * option string)) : list Attempt :=
  map (fun spec => make_attempt (fst spec) (snd spec)) specs.

Definition improving_example : list Attempt :=
  make_attempts
    [ (false, Some "structural"); (false, Some "structural");
      (false, Some "conceptual"); (true, None); (true, None); (true, None) ].

(** The value of a mastery, 0 when the call raised. *)
Definition value_of (r : Res Q) : Q :=
  match r with
  | Ok v => v
  | Raise _ => 0
  end.

Definition with_errors (n : Z) : BreakState :=
  {| session_start_time := None; last_break_suggestion := None;
     last_break_taken := None; breaks_taken := 0;
     break_cooldown_minutes := 10; consecutive_errors := n;
     post_break_warmup := false; error_severity_trend := [] |}.

Definition with_trend (trend : list Z) : BreakState :=
  {| session_start_time := None; last_break_suggestion := None;
     last_break_taken := None; breaks_taken := 0;
     break_cooldown_minutes := 10; consecutive_errors := 0;
     post_break_warmup := false; error_severity_trend := trend |}.

(** Five errors in a row, a break suggested one minute before
    [one_minute_in], cooldown of ten minutes. *)
Definition cooling_down : BreakState :=
  {| session_start_time := None;
     last_break_suggestion := Some "2024-01-04T09:00:00";
     last_break_taken := None; breaks_taken := 0;
     break_cooldown_minutes := 10; consecutive_errors := 5;
     post_break_warmup := false; error_severity_trend := [] |}.

Definition warming_up : BreakState :=
  {| session_start_time := None; last_break_suggestion := None;
     last_break_taken := None; breaks_taken := 0;
     break_cooldown_minutes := 10; consecutive_errors := 0;
     post_break_warmup := true; error_severity_trend := [] |}.

(** ** Shapes of the answers *)

(** The answer of the Break Monitor when nothing triggers. *)
Definition no_break : BreakCheck :=
  {| needed := false; reason := EmptyString; urgency := "low" |}.

(** The fields a recommendation carries, by action: a break has urgency
    and warm-up flag, a step back has the prerequisite, the others have
    neither. *)
Definition well_shaped (r : Recommendation) : Prop :=
  (action r = "take_break" /\ (exists u, rec_urgency r = Some u) /\
   rec_post_break_warmup r = Some true /\ prerequisite_topic r = None) \/
  (action r = "go_back" /\ (exists p, prerequisite_topic r = Some p) /\
   rec_urgency r = None /\ rec_post_break_warmup r = None) \/
  ((action r = "warmup" \/ action r = "keep_grinding" \/
    action r = "targeted_instruction" \/ action r = "brief_tip") /\
   rec_urgency r = None /\ rec_post_break_warmup r = None /\
   prerequisite_topic r = None).

(** ** What the tools leave in the store *)

(** A property of every topic of every stored document. *)
Definition every_topic (P : string -> TopicState -> Prop)
    (store : gmap string LearnerProfile) : Prop :=
  forall (id : string) (p : LearnerProfile) (topic : string)
         (ts : TopicState),
    store !! id = Some p -> topics p !! topic = Some ts -> P topic ts.

(** A property of every stored document. *)
Definition every_profile (P : LearnerProfile -> Prop)
    (store : gmap string LearnerProfile) : Prop :=
  forall (id : string) (p : LearnerProfile), store !! id = Some p -> P p.

(** The ways a tool changes the state of one topic: [start_session],
    [record_attempt], [update_topic_mastery], [record_misconception] (seen
    again, or new), [resolve_misconception] and [record_break].  The times
    written are readings of [now_iso]. *)
Inductive topic_change (str_lower : string -> string)
    (now_iso : nat -> string) : TopicState -> TopicState -> Prop :=
| session_started (ts : TopicState) (k : nat) :
    topic_change str_lower now_iso ts
      (with_break_state ts
         {| session_start_time := Some (now_iso k);
            last_break_suggestion := last_break_suggestion (break_state ts);
            last_break_taken := last_break_taken (break_state ts);
            breaks_taken := breaks_taken (break_state ts);
            break_cooldown_minutes := break_cooldown_minutes (break_state ts);
            consecutive_errors := 0;
            post_break_warmup := false;
            error_severity_trend := [] |})
| attempt_recorded (ts : TopicState) (a : Attempt) (traj : string) (m : Q) :
    compute_trajectory (attempt_history ts ++ [a])%list 5 = Ok traj ->
    compute_mastery (topic_of (attempt_history ts ++ [a])%list) 10 = Ok m ->
    topic_change str_lower now_iso ts
      {| mastery_level := m;
         attempt_history := (attempt_history ts ++ [a])%list;
         trajectory := traj;
         misconceptions := misconceptions ts;
         zpd := zpd ts;
         productive_failures :=
           if detect_productive_failure a then productive_failures ts + 1
           else productive_failures ts;
         break_state :=
           break_state_after_attempt (break_state ts) (is_correct a)
             (error_type a) |}
| mastery_overridden (ts : TopicState) (level : Q) :
    topic_change str_lower now_iso ts
      {| mastery_level := clamp_unit level;
         attempt_history := attempt_history ts;
         trajectory := trajectory ts;
         misconceptions := misconceptions ts;
         zpd := zpd ts;
         productive_failures := productive_failures ts;
         break_state := break_state ts |}
| misconception_seen_again (ts : TopicState) (k : nat) (descr : string)
    (ms : list Misconception) :
    observe_again str_lower (now_iso k) descr (misconceptions ts) = Some ms ->
    topic_change str_lower now_iso ts (with_misconceptions ts ms)
| misconception_added (ts : TopicState) (k : nat) (descr : string) :
    observe_again str_lower (now_iso k) descr (misconceptions ts) = None ->
    topic_change str_lower now_iso ts
      (with_misconceptions ts
         (misconceptions ts
          ++ [ {| description := descr; times_observed := 1;
                  resolved := false; first_seen := now_iso k;
                  last_seen := now_iso (S k) |} ])%list)
| misconception_resolved (ts : TopicState) (k : nat) (descr : string)
    (ms : list Misconception) :
    mark_resolved str_lower (now_iso k) descr (misconceptions ts) = Some ms ->
    topic_change str_lower now_iso ts (with_misconceptions ts ms)
| break_recorded (ts : TopicState) (k : nat) :
    topic_change str_lower now_iso ts
      (with_break_state ts
         {| session_start_time := session_start_time (break_state ts);
            last_break_suggestion := last_break_suggestion (break_state ts);
            last_break_taken := Some (now_iso k);
            breaks_taken := breaks_taken (break_state ts) + 1;
            break_cooldown_minutes := break_cooldown_minutes (break_state ts);
            consecutive_errors := 0;
            post_break_warmup := true;
            error_severity_trend := [] |}).

(** The break state the tools maintain: at most ten severities, each a
    value of [ERROR_SEVERITY] or the default, and counters that are not
    negative. *)
Definition break_state_ok (bs : BreakState) : Prop :=
  len (error_severity_trend bs) <= 10 /\
  Forall (fun s => 0 <= s <= 3) (error_severity_trend bs) /\
  0 <= consecutive_errors bs /\
  0 <= breaks_taken bs.

(** No suggestion time is on record and the cooldown is the default one. *)
Definition never_suggested (bs : BreakState) : Prop :=
  last_break_suggestion bs = None /\ break_cooldown_minutes bs = 10.

Definition mastery_in_unit (ts : TopicState) : Prop :=
  (0 <= mastery_level ts)%Q /\ (mastery_level ts <= 1)%Q.

(** Descriptions differ from one another even when case is ignored. *)
Definition distinct_descriptions (str_lower : string -> string)
    (ms : list Misconception) : Prop :=
  NoDup (map (fun m => str_lower (description m)) ms).

(** A topic key has neither a space nor a hyphen. *)
Fixpoint no_separator (s : string) : Prop :=
  match s with
  | EmptyString => True
  | String c s' => c <> " "%char /\ c <> "-"%char /\ no_separator s'
  end.

(** Sessions are numbered 1, 2, ... in the order of the history, the
    session count is their number, and no session has more correct
    attempts than attempts. *)
Definition sessions_ok (p : LearnerProfile) : Prop :=
  session_count p = len (session_history p) /\
  forall (i : nat) (s : SessionSummary),
    session_history p !! i = Some s ->
    session_number s = Z.of_nat i + 1 /\
    0 <= correct_count s <= attempts_count s /\
    0 <= ss_breaks_taken s.

(** Every document is stored under its own learner identifier. *)
Definition keyed (store : gmap string LearnerProfile) : Prop :=
  forall (id : string) (p : LearnerProfile),
    store !! id = Some p -> learner_id p = id.


(** [ts] is the state of topic [key] in some stored document. *)
Definition stored (store : gmap string LearnerProfile) (key : string)
    (ts : TopicState) : Prop :=
  exists (id : string) (p : LearnerProfile),
    store !! id = Some p /\ topics p !! key = Some ts.

(** A session with twelve wrong answers in a row, a misconception, a
    break, a manual override above 1 and a second learner. *)
Definition struggling_session : list Operation :=
  (StartSession "ann" "linear algebra"
   :: repeat (RecordAttempt "ann" "linear-algebra" "q" "1" "2" false
                (Some "structural") None None) 12
   ++ [ RecordMisconception "ann" "linear algebra" "Rank is the size";
        RecordMisconception "ann" "linear algebra" "Rank is the size";
        ResolveMisconception "ann" "linear algebra" "Rank is the size";
        RecordBreak "ann" "linear algebra" (Some 5);
        UpdateTopicMastery "ann" "linear algebra" (3 # 2);
        AddTopics "bob" ["graph theory"; "linear algebra"];
        DeleteTopic "bob" "graph theory";
        EndSession "ann" ])%list.

(** ** get_assessment *)

(** The dict [get_assessment] returns for a topic with data. *)
Record Assessment : Type := mkAssessment {
  as_mastery_level : Q;
  as_trajectory : string;
  dominant_error_type : option string;
  recommendation : Recommendation;
  as_zpd : ZPD;
  as_productive_failures : Z;
  as_consecutive_errors : Z;
  unresolved_misconceptions : list string
}.

(** [{"error": ...}] or the assessment. *)
Inductive Answer : Type :=
| NoData (error : string)
| Assessed (a : Assessment).

Section GetAssessment.

Variable str_strip : string -> string.
Variable str_lower : string -> string.
Variable fromisoformat : string -> Res datetime.
Variable clock : nat -> Z.

Definition get_assessment (id topic : string)
    (store : gmap string LearnerProfile) : Clk Answer :=
  let topic := _normalize_topic str_strip str_lower topic in
  let profile := load_learner store id in
  match topics profile !! topic with
  | None =>
      clk_ret
        (NoData ("No data for topic '" ++ topic
                 ++ "'. Start a session first."))
  | Some ts =>
      clk_bind (clk_lift (_dominant_error_type (attempt_history ts) 5))
        (fun dominant_error =>
      let topic_graph := topic_graphs profile !! topic in
      clk_bind
        (compute_recommendation fromisoformat clock (trajectory ts)
           dominant_error (mastery_level ts) topic_graph topic
           (Some (break_state ts)))
        (fun recommendation =>
      clk_ret
        (Assessed
           {| as_mastery_level := mastery_level ts;
              as_trajectory := trajectory ts;
              dominant_error_type := dominant_error;
              recommendation := recommendation;
              as_zpd := zpd ts;
              as_productive_failures := productive_failures ts;
              as_consecutive_errors := consecutive_errors (break_state ts);
              unresolved_misconceptions :=
                map description
                  (filter (fun m => resolved m = false) (misconceptions ts))
           |})))
  end.

End GetAssessment.

(** The times the tools write parse back as naive datetimes. *)
Definition clock_parses (fromisoformat : string -> Res datetime)
    (now_iso : nat -> string) : Prop :=
  forall k : nat, exists t : Z, fromisoformat (now_iso k) = Ok (Naive t).

(** A time field is empty or a reading of the clock. *)
Definition written_by_clock (now_iso : nat -> string) (s : option string)
    : Prop :=
  s = None \/ exists k : nat, s = Some (now_iso k).

Definition times_written_by_clock (now_iso : nat -> string)
    (bs : BreakState) : Prop :=
  never_suggested bs /\
  written_by_clock now_iso (session_start_time bs) /\
  written_by_clock now_iso (last_break_taken bs).

(** ** Examples for the tools *)

(** A topic after six errors in a row: declining, severities rising. *)
Definition tired_topic : TopicState :=
  {| mastery_level := 1 # 10;
     attempt_history := [];
     trajectory := "declining";
     misconceptions := [];
     zpd := ZPD_default;
     productive_failures := 0;
     break_state :=
       {| session_start_time := Some "2024-01-01T10:00:00";
          last_break_suggestion := None;
          last_break_taken := None;
          breaks_taken := 0;
          break_cooldown_minutes := 10;
          consecutive_errors := 6;
          post_break_warmup := false;
          error_severity_trend := [1; 2; 3] |} |}.

Definition tired_store : gmap string LearnerProfile :=
  {[ "ann" :=
       {| learner_id := "ann"; session_count := 1;
          topics := {[ "math" := tired_topic ]};
          topic_graphs := ∅;
          session_history := [] |} ]}.

(** The attempts of [test_recency_weighting]. *)
Definition early_correct : list Attempt :=
  make_attempts
    [ (true, None); (true, None); (false, Some "structural");
      (false, Some "structural"); (false, Some "structural") ].

Definition late_correct : list Attempt :=
  make_attempts
    [ (false, Some "structural"); (false, Some "structural");
      (false, Some "structural"); (true, None); (true, None) ].

(** [op] records a wrong answer of learner [id] on the topic of key
    [key]. *)
Definition wrong_attempt_on (str_strip str_lower : string -> string)
    (id key : string) (op : Operation) : Prop :=
  match op with
  | RecordAttempt id' topic _ _ _ correct _ _ _ =>
      id' = id /\ _normalize_topic str_strip str_lower topic = key /\
      correct = false
  | _ => False
  end.

(** Five wrong answers of ann on one topic, spelled in three ways. *)
Definition five_wrong : list Operation :=
  [ RecordAttempt "ann" "set theory" "q1" "a" "b" false (Some "conceptual")
      None None;
    RecordAttempt "ann" "set-theory" "q2" "a" "b" false None None None;
    RecordAttempt "ann" "set_theory" "q3" "a" "b" false (Some "computational")
      None None;
    RecordAttempt "ann" "set theory" "q4" "a" "b" false (Some "structural")
      None None;
    RecordAttempt "ann" "set theory" "q5" "a" "b" false (Some "structural")
      None None ].
(** * Properties *)

(** ** The test suite on the embedding *)

Example test_insufficient_data :
  compute_trajectory (make_attempts [(true, None); (true, None)]) 5
  = Ok "unknown".
Proof. reflexivity. Qed.

Example test_improving : compute_trajectory improving_example 5 = Ok "improving".
Proof. reflexivity. Qed.

Example test_declining : compute_trajectory declining_example 5 = Ok "declining".
Proof. reflexivity. Qed.

Example test_flat :
  compute_trajectory (repeat (make_attempt true None) 5) 5 = Ok "flat".
Proof. reflexivity. Qed.

Example test_window_limits :
  compute_trajectory
    (repeat (make_attempt false (Some "conceptual")) 10
     ++ repeat (make_attempt true None) 5)%list 5 = Ok "flat".
Proof. reflexivity. Qed.

Example test_single_correct :
  (value_of (compute_mastery (topic_of [make_attempt true None]) 10)
   == 1 # 6)%Q.
Proof. reflexivity. Qed.

Example test_ten_correct :
  (value_of (compute_mastery (topic_of (repeat (make_attempt true None) 10)) 10)
   == 10 # 15)%Q.
Proof. reflexivity. Qed.

Example test_all_conceptual_errors :
  (value_of
     (compute_mastery
        (topic_of (repeat (make_attempt false (Some "conceptual")) 5)) 10)
   == 0)%Q.
Proof. reflexivity. Qed.

Example test_mixed_errors :
  _dominant_error_type
    (make_attempts
       [ (false, Some "computational"); (false, Some "structural");
         (false, Some "structural") ]) 5
  = Ok (Some "structural").
Proof. reflexivity. Qed.

Example test_no_errors :
  _dominant_error_type (repeat (make_attempt true None) 3) 5 = Ok None.
Proof. reflexivity. Qed.

Example test_default_state :
  run (check_break_needed no_timestamps (frozen 0) BreakState_default "flat")
  = Ok {| needed := false; reason := EmptyString; urgency := "low" |}.
Proof. reflexivity. Qed.

Example test_declining_plus_three_errors :
  run (check_break_needed no_timestamps (frozen 0) (with_errors 3) "declining")
  = Ok {| needed := true;
          reason :=
            "Your trajectory is declining and you've had 3 consecutive errors."
            ++ " A short break can help reset your focus.";
          urgency := "high" |}.
Proof. reflexivity. Qed.

Example test_escalating_severity :
  option_map urgency
    (match run (check_break_needed no_timestamps (frozen 0)
                  (with_trend [1; 2; 3]) "flat") with
     | Ok c => Some c
     | Raise _ => None
     end)
  = Some "medium".
Proof. reflexivity. Qed.

Example test_decreasing_severity :
  option_map needed
    (match run (check_break_needed no_timestamps (frozen 0)
                  (with_trend [3; 2; 1]) "flat") with
     | Ok c => Some c
     | Raise _ => None
     end)
  = Some false.
Proof. reflexivity. Qed.

Example test_within_cooldown :
  run (check_break_needed example_times (frozen one_minute_in) cooling_down
         "declining")
  = Ok {| needed := false; reason := EmptyString; urgency := "low" |}.
Proof. reflexivity. Qed.

Example test_high_mastery_no_errors :
  run (compute_recommendation no_timestamps (frozen 0) "flat" None (9 # 10)
         None "math" None)
  = Ok advance.
Proof. reflexivity. Qed.

Example test_post_break_warmup :
  run (compute_recommendation no_timestamps (frozen 0) "flat" None (1 # 2)
         None "math" (Some warming_up))
  = Ok (plain "warmup"
          "Welcome back! Let's start with a gentler question to ease back in.").
Proof. reflexivity. Qed.

(** ** Slices *)

Lemma len_nonneg {A : Type} (l : list A) : 0 <= len l.
Proof. unfold len. lia. Qed.

Lemma slice_from_nonneg {A : Type} (l : list A) (k : Z) :
  0 <= k -> slice_from l k = drop (Z.to_nat k) l.
Proof.
  intros Hk. unfold slice_from, len.
  destruct (Z.ltb_spec k 0) as [H | H]; [lia |].
  destruct (Z.le_gt_cases k (Z.of_nat (length l))) as [Hle | Hgt].
  - rewrite Z.min_l by lia. reflexivity.
  - rewrite Z.min_r by lia. rewrite Nat2Z.id.
    rewrite !drop_ge by lia. reflexivity.
Qed.

Lemma slice_to_nonneg {A : Type} (l : list A) (k : Z) :
  0 <= k -> slice_to l k = take (Z.to_nat k) l.
Proof.
  intros Hk. unfold slice_to, len.
  destruct (Z.ltb_spec k 0) as [H | H]; [lia |].
  destruct (Z.le_gt_cases k (Z.of_nat (length l))) as [Hle | Hgt].
  - rewrite Z.min_l by lia. reflexivity.
  - rewrite Z.min_r by lia. rewrite Nat2Z.id.
    rewrite !take_ge by lia. reflexivity.
Qed.

(** For a positive window, [l[-window:]] is the last [window] items. *)
Lemma slice_last_positive {A : Type} (l : list A) (window : Z) :
  0 < window -> slice_from l (- window) = last_n (Z.to_nat window) l.
Proof.
  intros Hw. unfold slice_from, last_n, len.
  destruct (Z.ltb_spec (- window) 0) as [H | H]; [| lia].
  f_equal. lia.
Qed.

(** [l[-0:]] is the whole list. *)
Lemma slice_last_zero {A : Type} (l : list A) : slice_from l (- 0) = l.
Proof. rewrite slice_from_nonneg by lia. reflexivity. Qed.

Lemma len_slice_last_positive {A : Type} (l : list A) (window : Z) :
  0 < window -> len (slice_from l (- window)) = Z.min window (len l).
Proof.
  intros Hw. rewrite slice_last_positive by assumption.
  unfold last_n, len. rewrite length_drop. lia.
Qed.

Lemma len_slice_from_le {A : Type} (l : list A) (k : Z) :
  len (slice_from l k) <= len l.
Proof. unfold slice_from, len. rewrite length_drop. lia. Qed.

(** ** Division *)

Lemma truediv_nonzero (a : Q) (z : Z) :
  z <> 0 -> truediv a (inject_Z z) = Ok (a / inject_Z z)%Q.
Proof.
  intros Hz. unfold truediv.
  destruct (Qeq_bool (inject_Z z) 0) eqn:E; [| reflexivity].
  apply Qeq_bool_eq in E. unfold Qeq in E. simpl in E. lia.
Qed.

(** ** Severity and accuracy of recognized categories *)


Lemma accuracy_score_category (a : Attempt) (c : Category) :
  category_of a = Some c -> accuracy_score a = accuracy c.
Proof.
  unfold category_of, accuracy_score.
  destruct (is_correct a); [intros [= <-]; reflexivity |].
  repeat case_bool_decide; intros [= <-];
    match goal with H : error_type a = _ |- _ => rewrite H end; reflexivity.
Qed.


(** ** compute_trajectory *)

Lemma avg_severity_nonempty (atts : list Attempt) :
  atts <> [] -> avg_severity atts = Ok (mean (map severity_score atts)).
Proof.
  intros Hne. unfold avg_severity, mean.
  destruct atts as [| a atts]; [congruence |].
  cbn [map]. apply truediv_nonzero. unfold len. simpl length. lia.
Qed.

Lemma avg_severity_returns (atts : list Attempt) : returns (avg_severity atts).
Proof.
  destruct atts as [| a atts].
  - exists 0%Q. reflexivity.
  - eexists. apply avg_severity_nonempty. discriminate.
Qed.

Lemma halves_of_window (n : Z) :
  3 <= n -> 1 <= n / 2 /\ n / 2 <= n /\ 1 <= n - n / 2 /\
            n - n / 2 = n / 2 + n mod 2.
Proof.
  intros Hn. pose proof (Z.div_mod n 2 ltac:(lia)).
  pose proof (Z.mod_pos_bound n 2 ltac:(lia)). lia.
Qed.

(** What [compute_trajectory] computes once both guards are passed. *)
Lemma compute_trajectory_unfold (attempts : list Attempt) (window : Z) :
  let recent := slice_from attempts (- window) in
  let mid := Z.to_nat (len recent / 2) in
  let delta := (mean (map severity_score (take mid recent))
                - mean (map severity_score (drop mid recent)))%Q in
  3 <= len recent ->
  compute_trajectory attempts window =
    if Qlt_le_dec (3 # 10) delta then Ok "improving"
    else if Qlt_le_dec delta (- (3 # 10)) then Ok "declining"
    else Ok "flat".
Proof.
  intros recent mid delta Hrec.
  pose proof (len_slice_from_le attempts (- window)) as Hle.
  fold recent in Hle.
  destruct (halves_of_window _ Hrec) as (H1 & H2 & H3 & _).
  unfold compute_trajectory. fold recent.
  destruct (Z.ltb_spec (len attempts) 3) as [? | _]; [lia |].
  destruct (Z.ltb_spec (len recent) 3) as [? | _]; [lia |].
  rewrite slice_to_nonneg, slice_from_nonneg by lia. fold mid.
  rewrite !avg_severity_nonempty; [reflexivity | |].
  - intros E. apply (f_equal length) in E. rewrite length_drop in E.
    unfold len in *. simpl in E. lia.
  - intros E. apply (f_equal length) in E. rewrite length_take in E.
    unfold len in *. simpl in E. lia.
Qed.



(** ** compute_mastery *)

Lemma mastery_loop_value (n i : Z) (rest : list Attempt) (acc : Q * Q) :
  n <> 0 -> mastery_loop n i rest acc = Ok (loop_value n i rest acc).
Proof.
  intros Hn. revert i acc.
  induction rest as [| a rest IH]; intros i acc; [reflexivity |].
  cbn [mastery_loop loop_value]. rewrite truediv_nonzero by assumption.
  cbn [res_bind]. apply IH.
Qed.

Lemma compute_mastery_value (topic_state : TopicState) (window : Z) :
  attempt_history topic_state <> [] ->
  compute_mastery topic_state window =
    Ok (mastery_value (slice_from (attempt_history topic_state) (- window))).
Proof.
  intros Hne. unfold compute_mastery.
  destruct (attempt_history topic_state) as [| a h] eqn:Eh; [congruence |].
  set (recent := slice_from (a :: h) (- window)).
  assert (Hloop : mastery_loop (len recent) 0 recent (0%Q, 0%Q)
                  = Ok (loop_value (len recent) 0 recent (0%Q, 0%Q))).
  { destruct recent as [| r recent'] eqn:Er; [reflexivity |].
    apply mastery_loop_value. unfold len. simpl length. lia. }
  rewrite Hloop. cbn [res_bind]. unfold mastery_value.
  rewrite (truediv_nonzero _ (len recent + 5))
    by (pose proof (len_nonneg recent); lia).
  destruct (Qlt_le_dec 0 (snd (loop_value (len recent) 0 recent (0%Q, 0%Q))))
    as [Hpos | Hle]; cbn [res_bind].
  - unfold truediv.
    destruct (Qeq_bool (snd (loop_value (len recent) 0 recent (0%Q, 0%Q))) 0)
      eqn:E; [| reflexivity].
    apply Qeq_bool_eq in E. rewrite E in Hpos.
    exfalso. apply (Qlt_irrefl 0). exact Hpos.
  - reflexivity.
Qed.

Lemma compute_mastery_empty (topic_state : TopicState) (window : Z) :
  attempt_history topic_state = [] ->
  compute_mastery topic_state window = Ok 0%Q.
Proof. intros H. unfold compute_mastery. rewrite H. reflexivity. Qed.

(** *** Accuracy *)

Lemma accuracy_score_weight (a : Attempt) :
  accuracy_score a = accuracy_weight a.
Proof.
  unfold accuracy_weight.
  destruct (category_of a) as [c |] eqn:E.
  - apply accuracy_score_category. exact E.
  - unfold category_of in E. unfold accuracy_score.
    destruct (is_correct a); [discriminate |].
    repeat case_bool_decide; try discriminate.
    unfold accuracy_scores. cbn [dict_get].
    repeat case_decide; congruence.
Qed.

Lemma accuracy_score_bounds (a : Attempt) :
  (0 <= accuracy_score a)%Q /\ (accuracy_score a <= 1)%Q.
Proof.
  rewrite accuracy_score_weight. unfold accuracy_weight.
  destruct (category_of a) as [[] |]; split; discriminate.
Qed.

(** *** Integers as rationals *)

Lemma inject_Z_pos (z : Z) : 0 < z -> (0 < inject_Z z)%Q.
Proof. intros H. change 0%Q with (inject_Z 0). rewrite <- Zlt_Qlt. exact H. Qed.

Lemma inject_Z_nonneg (z : Z) : 0 <= z -> (0 <= inject_Z z)%Q.
Proof. intros H. change 0%Q with (inject_Z 0). rewrite <- Zle_Qle. exact H. Qed.

Lemma inject_Z_nonzero (z : Z) : z <> 0 -> ~ (inject_Z z == 0)%Q.
Proof. intros H E. unfold Qeq in E. simpl in E. lia. Qed.

Lemma inject_Z_succ (z : Z) : (inject_Z (z + 1) == inject_Z z + 1)%Q.
Proof. rewrite inject_Z_plus. reflexivity. Qed.

(** *** The sums of the loop *)

Lemma loop_value_sums (n i : Z) (l : list Attempt) (acc : Q * Q) :
  n <> 0 ->
  (fst (loop_value n i l acc) == fst acc + usum i l / inject_Z n)%Q /\
  (snd (loop_value n i l acc) == snd acc + utot i l / inject_Z n)%Q.
Proof.
  intros Hn. pose proof (inject_Z_nonzero n Hn) as Hq.
  revert i acc. induction l as [| a l IH]; intros i acc.
  - cbn [loop_value usum utot]. split; field; exact Hq.
  - cbn [loop_value usum utot].
    destruct (IH (i + 1)
                ((fst acc + accuracy_score a * (inject_Z (i + 1) / inject_Z n))%Q,
                 (snd acc + inject_Z (i + 1) / inject_Z n)%Q)) as [H1 H2].
    cbn [fst snd] in H1, H2. rewrite H1, H2. split; field; exact Hq.
Qed.

Lemma usum_bounds (i : Z) (l : list Attempt) :
  0 <= i -> (0 <= usum i l)%Q /\ (usum i l <= utot i l)%Q.
Proof.
  revert i. induction l as [| a l IH]; intros i Hi; cbn [usum utot].
  - split; apply Qle_refl.
  - destruct (IH (i + 1) ltac:(lia)) as [H1 H2].
    destruct (accuracy_score_bounds a) as [Ha0 Ha1].
    pose proof (inject_Z_pos (i + 1) ltac:(lia)) as Hp.
    split; nra.
Qed.

Lemma utot_pos (i : Z) (l : list Attempt) :
  0 <= i -> l <> [] -> (0 < utot i l)%Q.
Proof.
  intros Hi Hne. destruct l as [| a l]; [congruence |]. cbn [utot].
  destruct (usum_bounds (i + 1) l ltac:(lia)) as [H1 H2].
  pose proof (inject_Z_pos (i + 1) ltac:(lia)) as Hp. lra.
Qed.

Lemma utot_length (i : Z) (l l' : list Attempt) :
  length l = length l' -> utot i l = utot i l'.
Proof.
  revert i l'. induction l as [| a l IH]; intros i [| a' l'] H;
    simpl in H; try discriminate; [reflexivity |].
  cbn [utot]. rewrite (IH (i + 1) l') by lia. reflexivity.
Qed.

Lemma usum_app (i : Z) (l : list Attempt) (a : Attempt) :
  (usum i (l ++ [a])%list
   == usum i l + accuracy_score a * inject_Z (i + len l + 1))%Q.
Proof.
  revert i. induction l as [| b l IH]; intros i.
  - cbn [app usum]. unfold len. cbn [length]. rewrite Z.add_0_r. ring.
  - cbn [app usum]. rewrite IH.
    replace (i + 1 + len l + 1) with (i + len (b :: l) + 1)
      by (unfold len; cbn [length]; lia).
    ring.
Qed.

Lemma utot_app (i : Z) (l : list Attempt) (a : Attempt) :
  (utot i (l ++ [a])%list == utot i l + inject_Z (i + len l + 1))%Q.
Proof.
  revert i. induction l as [| b l IH]; intros i.
  - cbn [app utot]. unfold len. cbn [length]. rewrite Z.add_0_r. ring.
  - cbn [app utot]. rewrite IH.
    replace (i + 1 + len l + 1) with (i + len (b :: l) + 1)
      by (unfold len; cbn [length]; lia).
    ring.
Qed.

Lemma usum_shift (i : Z) (l : list Attempt) :
  0 <= i -> (usum (i + 1) l <= usum i l + inject_Z (len l))%Q.
Proof.
  revert i. induction l as [| a l IH]; intros i Hi; cbn [usum].
  - unfold len, Qle. simpl. lia.
  - specialize (IH (i + 1) ltac:(lia)).
    destruct (accuracy_score_bounds a) as [Ha0 Ha1].
    replace (len (a :: l)) with (len l + 1)
      by (unfold len; cbn [length]; lia).
    rewrite !inject_Z_succ in *. nra.
Qed.

(** *** The value in closed form *)

Lemma ratio_bounds (u v : Q) :
  (0 <= u)%Q -> (u <= v)%Q -> (0 < v)%Q -> (0 <= u / v)%Q /\ (u / v <= 1)%Q.
Proof.
  intros Hu Huv Hv. split.
  - apply Qle_shift_div_l; [exact Hv | lra].
  - apply Qle_shift_div_r; [exact Hv | lra].
Qed.

Lemma confidence_bounds (n : Z) :
  0 <= n ->
  (0 <= inject_Z n / inject_Z (n + 5))%Q /\
  (inject_Z n / inject_Z (n + 5) < 1)%Q.
Proof.
  intros Hn. pose proof (inject_Z_pos (n + 5) ltac:(lia)) as Hp.
  pose proof (inject_Z_nonneg n Hn) as H0.
  assert (Hlt : (inject_Z n < inject_Z (n + 5))%Q)
    by (rewrite <- Zlt_Qlt; lia).
  split.
  - apply Qle_shift_div_l; [exact Hp | lra].
  - apply Qlt_shift_div_r; [exact Hp | lra].
Qed.

Lemma mastery_value_nil : mastery_value [] = (0 * (0 / 5))%Q.
Proof. reflexivity. Qed.

Lemma mastery_value_closed (l : list Attempt) :
  l <> [] ->
  (mastery_value l
   == usum 0 l / utot 0 l * (inject_Z (len l) / inject_Z (len l + 5)))%Q.
Proof.
  intros Hne. unfold mastery_value.
  assert (Hn : 0 < len l).
  { destruct l; [congruence |]. unfold len. cbn [length]. lia. }
  destruct (loop_value_sums (len l) 0 l (0%Q, 0%Q) ltac:(lia)) as [H1 H2].
  cbn [fst snd] in H1, H2.
  pose proof (utot_pos 0 l ltac:(lia) Hne) as HV.
  pose proof (inject_Z_pos (len l) Hn) as Hq.
  pose proof (inject_Z_pos (len l + 5) ltac:(lia)) as Hq5.
  destruct (Qlt_le_dec 0 (snd (loop_value (len l) 0 l (0%Q, 0%Q))))
    as [Hpos | Hle].
  - rewrite H1, H2. field. repeat split; lra.
  - exfalso. rewrite H2 in Hle.
    assert (0 < utot 0 l / inject_Z (len l))%Q
      by (apply Qlt_shift_div_l; [exact Hq | lra]).
    lra.
Qed.

Lemma mastery_value_bounds (l : list Attempt) :
  (0 <= mastery_value l)%Q /\
  (mastery_value l <= inject_Z (len l) / inject_Z (len l + 5))%Q /\
  (mastery_value l < 1)%Q.
Proof.
  destruct l as [| a l].
  - repeat split; vm_compute; congruence.
  - set (h := a :: l). assert (Hne : h <> []) by discriminate.
    rewrite (mastery_value_closed h Hne).
    destruct (usum_bounds 0 h ltac:(lia)) as [HU0 HUV].
    pose proof (utot_pos 0 h ltac:(lia) Hne) as HV.
    destruct (ratio_bounds _ _ HU0 HUV HV) as [Hr0 Hr1].
    destruct (confidence_bounds (len h) (len_nonneg h)) as [Hc0 Hc1].
    repeat split; nra.
Qed.

(** *** The reference definition *)

Lemma weighted_sum_usum (n i : Z) (l : list Attempt) :
  n <> 0 -> (weighted_sum n i l == usum i l / inject_Z n)%Q.
Proof.
  intros Hn. pose proof (inject_Z_nonzero n Hn) as Hq.
  revert i. induction l as [| a l IH]; intros i; cbn [weighted_sum usum].
  - field. exact Hq.
  - rewrite IH. unfold recency_weight. rewrite <- accuracy_score_weight.
    field. exact Hq.
Qed.

Lemma weight_total_utot (n i : Z) (l : list Attempt) :
  n <> 0 -> (weight_total n i l == utot i l / inject_Z n)%Q.
Proof.
  intros Hn. pose proof (inject_Z_nonzero n Hn) as Hq.
  revert i. induction l as [| a l IH]; intros i; cbn [weight_total utot].
  - field. exact Hq.
  - rewrite IH. unfold recency_weight. field. exact Hq.
Qed.

Lemma last_n_nonempty {A : Type} (n : nat) (l : list A) :
  (0 < n)%nat -> l <> [] -> last_n n l <> [].
Proof.
  intros Hn Hl E. apply (f_equal length) in E. unfold last_n in E.
  rewrite length_drop in E. destruct l; [congruence |].
  simpl in E. lia.
Qed.

Lemma mastery_reference_value (history : list Attempt) (window : Z) :
  0 < window -> history <> [] ->
  (mastery_reference history window
   == mastery_value (last_n (Z.to_nat window) history))%Q.
Proof.
  intros Hw Hne. unfold mastery_reference.
  destruct history as [| a h] eqn:E; [congruence |]. rewrite <- E in *.
  set (recent := last_n (Z.to_nat window) history).
  assert (Hrec : recent <> []) by (apply last_n_nonempty; [lia | exact Hne]).
  assert (Hn : 0 < len recent).
  { destruct recent; [congruence |]. unfold len. cbn [length]. lia. }
  cbv zeta. rewrite (mastery_value_closed recent Hrec).
  rewrite (weighted_sum_usum (len recent)), (weight_total_utot (len recent))
    by lia.
  pose proof (utot_pos 0 recent ltac:(lia) Hrec) as HV.
  pose proof (inject_Z_pos (len recent) Hn) as Hq.
  pose proof (inject_Z_pos (len recent + 5) ltac:(lia)) as Hq5.
  field. repeat split; lra.
Qed.

(** C5, as the code has it.  [compute_mastery] returns a value [v] in
    [[0,1)], which is 0 on an empty history.  For a window of at least 1,
    [v] is the reference value of section 4.3 (weighted mean of the
    accuracies of the last [window] attempts with recency weight [(i+1)/n],
    times the confidence [n/(n+5)]), and a topic holding only the last
    [window] attempts gets the very same value. *)
Theorem compute_mastery_spec (topic_state : TopicState) (window : Z) :
  exists v : Q,
    compute_mastery topic_state window = Ok v /\
    (0 <= v)%Q /\ (v < 1)%Q /\
    (attempt_history topic_state = [] -> v = 0%Q) /\
    (0 < window ->
     (v == mastery_reference (attempt_history topic_state) window)%Q /\
     forall last_only : TopicState,
       attempt_history last_only
       = last_n (Z.to_nat window) (attempt_history topic_state) ->
       compute_mastery last_only window = Ok v).
Proof.
  destruct (attempt_history topic_state) as [| a h] eqn:E.
  - exists 0%Q. rewrite (compute_mastery_empty _ _ E).
    repeat split; try (vm_compute; congruence).
    intros last_only Hl. apply compute_mastery_empty. rewrite Hl. reflexivity.
  - assert (Hne : attempt_history topic_state <> []) by (rewrite E; discriminate).
    rewrite <- E in *.
    exists (mastery_value (slice_from (attempt_history topic_state) (- window))).
    split; [apply compute_mastery_value; exact Hne |].
    destruct (mastery_value_bounds
                (slice_from (attempt_history topic_state) (- window)))
      as (H0 & _ & H1).
    split; [exact H0 |]. split; [exact H1 |].
    split; [intros; congruence |].
    intros Hw. rewrite (slice_last_positive _ _ Hw). split.
    + symmetry. apply mastery_reference_value; assumption.
    + intros last_only Hl.
      assert (Hne' : attempt_history last_only <> []).
      { rewrite Hl. apply last_n_nonempty; [lia | exact Hne]. }
      rewrite (compute_mastery_value _ _ Hne').
      rewrite (slice_last_positive _ _ Hw). rewrite Hl.
      do 2 f_equal. unfold last_n. rewrite length_drop.
      rewrite drop_drop. f_equal. lia.
Qed.

(** C5, on an example. *)
Lemma compute_mastery_spec_witness :
  exists v : Q,
    compute_mastery (topic_of twenty_correct) 10 = Ok v /\
    (v == 10 # 15)%Q /\
    compute_mastery (topic_of (repeat (make_attempt true None) 10)) 10 = Ok v.
Proof.
  destruct (compute_mastery_spec (topic_of twenty_correct) 10)
    as (v & Hv & _ & _ & _ & H).
  destruct (H ltac:(lia)) as [Href Hcap].
  exists v. split; [exact Hv |]. split.
  - rewrite Href. reflexivity.
  - apply Hcap. reflexivity.
Defined.

(** C5, counterexample.  With window 0 the slice [attempts[-0:]] is the
    whole history, not its last 0 attempts: one correct attempt gets mastery
    1/6, while its last 0 attempts alone get 0, which is also the value of
    the reference definition. *)
Lemma zero_window_takes_whole_history :
  exists v : Q,
    compute_mastery (topic_of [make_attempt true None]) 0 = Ok v /\
    (v == 1 # 6)%Q /\
    compute_mastery (topic_of (last_n 0 [make_attempt true None])) 0
    = Ok 0%Q /\
    (mastery_reference [make_attempt true None] 0 == 0)%Q.
Proof.
  eexists. split; [reflexivity |]. split; [reflexivity |].
  split; reflexivity.
Qed.

(** *** Appending a correct attempt *)

Lemma fraction_grows (u v m : Q) :
  (0 <= u)%Q -> (u <= v)%Q -> (0 < v)%Q -> (0 < m)%Q ->
  (u / v <= (u + m) / (v + m))%Q.
Proof.
  intros Hu Huv Hv Hm.
  destruct (ratio_bounds u v Hu Huv Hv) as [Hr0 Hr1].
  assert (Heq : (u == u / v * v)%Q) by (field; lra).
  apply Qle_shift_div_l; [lra |].
  setoid_replace (u / v * (v + m))%Q with (u / v * v + u / v * m)%Q using relation Qeq by ring.
  rewrite <- Heq. nra.
Qed.

Lemma confidence_grows (n : Z) :
  0 <= n ->
  (inject_Z n / inject_Z (n + 5)
   <= inject_Z (n + 1) / inject_Z (n + 1 + 5))%Q.
Proof.
  intros Hn.
  pose proof (inject_Z_pos (n + 5) ltac:(lia)) as H5.
  pose proof (inject_Z_pos (n + 1 + 5) ltac:(lia)) as H6.
  pose proof (inject_Z_nonneg n Hn) as H0.
  apply Qle_shift_div_l; [exact H6 |].
  setoid_replace (inject_Z n / inject_Z (n + 5) * inject_Z (n + 1 + 5))%Q
    with (inject_Z n * inject_Z (n + 1 + 5) / inject_Z (n + 5))%Q
    using relation Qeq by (field; lra).
  apply Qle_shift_div_r; [exact H5 |].
  rewrite <- !inject_Z_mult. rewrite <- Zle_Qle. nia.
Qed.

Lemma len_app_one {A : Type} (l : list A) (a : A) :
  len (l ++ [a])%list = len l + 1.
Proof. unfold len. rewrite length_app. cbn [length]. lia. Qed.

Lemma accuracy_score_correct (a : Attempt) :
  is_correct a = true -> accuracy_score a = 1%Q.
Proof. intros H. unfold accuracy_score. rewrite H. reflexivity. Qed.

(** The slice grows by the new attempt. *)
Lemma mastery_value_grows (l : list Attempt) (a : Attempt) :
  is_correct a = true ->
  (mastery_value l <= mastery_value (l ++ [a])%list)%Q.
Proof.
  intros Ha. destruct l as [| b l].
  - destruct (mastery_value_bounds ([] ++ [a])%list) as [H0 _].
    rewrite mastery_value_nil. lra.
  - set (h := b :: l). assert (Hne : h <> []) by discriminate.
    assert (Hne' : (h ++ [a])%list <> []) by (unfold h; discriminate).
    rewrite (mastery_value_closed h Hne).
    rewrite (mastery_value_closed _ Hne').
    rewrite usum_app, utot_app, len_app_one.
    rewrite (accuracy_score_correct a Ha). rewrite Z.add_0_l.
    destruct (usum_bounds 0 h ltac:(lia)) as [HU0 HUV].
    pose proof (utot_pos 0 h ltac:(lia) Hne) as HV.
    pose proof (len_nonneg h) as Hn.
    pose proof (inject_Z_pos (len h + 1) ltac:(lia)) as Hm.
    pose proof (fraction_grows _ _ _ HU0 HUV HV Hm) as Hf.
    pose proof (confidence_grows (len h) Hn) as Hc.
    destruct (ratio_bounds _ _ HU0 HUV HV) as [Hr0 _].
    destruct (confidence_bounds (len h) Hn) as [Hc0 _].
    setoid_replace (usum 0 h + 1 * inject_Z (len h + 1))%Q
      with (usum 0 h + inject_Z (len h + 1))%Q using relation Qeq by ring.
    nra.
Qed.

(** The slice is full: it drops its oldest attempt and takes the new one. *)
Lemma mastery_value_slides (x : Attempt) (t : list Attempt) (a : Attempt) :
  is_correct a = true ->
  (mastery_value (x :: t) <= mastery_value (t ++ [a])%list)%Q.
Proof.
  intros Ha.
  assert (Hne : x :: t <> []) by discriminate.
  assert (Hne' : (t ++ [a])%list <> []) by (destruct t; discriminate).
  rewrite (mastery_value_closed _ Hne), (mastery_value_closed _ Hne').
  assert (Hlen : length (t ++ [a])%list = length (x :: t))
    by (rewrite length_app; cbn [length]; lia).
  rewrite (utot_length 0 _ _ Hlen).
  replace (len (t ++ [a])%list) with (len (x :: t)) by (unfold len; lia).
  rewrite usum_app, (accuracy_score_correct a Ha), Z.add_0_l.
  cbn [usum].
  pose proof (usum_shift 0 t ltac:(lia)) as Hs. rewrite Z.add_0_l in *.
  destruct (accuracy_score_bounds x) as [Hx0 Hx1].
  destruct (usum_bounds 0 t ltac:(lia)) as [Ht0 _].
  pose proof (utot_pos 0 (x :: t) ltac:(lia) Hne) as HV.
  destruct (confidence_bounds (len (x :: t)) (len_nonneg _)) as [Hc0 _].
  rewrite inject_Z_succ. change (inject_Z 1) with 1%Q.
  set (c := (inject_Z (len (x :: t)) / inject_Z (len (x :: t) + 5))%Q) in *.
  apply Qmult_le_compat_r; [| exact Hc0].
  apply Qle_shift_div_l; [exact HV |].
  setoid_replace ((accuracy_score x * 1 + usum 1 t) / utot 0 (x :: t)
                  * utot 0 (x :: t))%Q
    with (accuracy_score x * 1 + usum 1 t)%Q using relation Qeq
    by (field; lra).
  lra.
Qed.

(** What appending one item does to [l[-window:]]: the slice takes the item,
    or takes it and drops its first item, or stays empty. *)
Lemma slice_last_append {A : Type} (l : list A) (a : A) (window : Z) :
  let r := slice_from l (- window) in
  let r' := slice_from (l ++ [a])%list (- window) in
  r' = (r ++ [a])%list \/
  (exists x t, r = x :: t /\ r' = (t ++ [a])%list) \/
  (r = [] /\ r' = []).
Proof.
  cbv zeta. unfold slice_from. rewrite len_app_one. unfold len.
  destruct (Z.ltb_spec (- window) 0) as [Hneg | Hpos].
  - destruct (Z.le_gt_cases window (Z.of_nat (length l))) as [Hle | Hgt].
    + right. left.
      replace (Z.max (- window + (Z.of_nat (length l) + 1)) 0)
        with (- window + (Z.of_nat (length l) + 1)) by lia.
      replace (Z.max (- window + Z.of_nat (length l)) 0)
        with (- window + Z.of_nat (length l)) by lia.
      set (k := Z.to_nat (- window + Z.of_nat (length l))).
      replace (Z.to_nat (- window + (Z.of_nat (length l) + 1))) with (S k)
        by (unfold k; lia).
      assert (Hk : (k < length l)%nat) by (unfold k; lia).
      destruct (lookup_lt_is_Some_2 l k Hk) as [x Hx].
      exists x, (drop (S k) l). split.
      * apply drop_S. exact Hx.
      * apply drop_app_le. lia.
    + left.
      replace (Z.max (- window + (Z.of_nat (length l) + 1)) 0) with 0 by lia.
      replace (Z.max (- window + Z.of_nat (length l)) 0) with 0 by lia.
      reflexivity.
  - destruct (Z.le_gt_cases (- window) (Z.of_nat (length l))) as [Hle | Hgt].
    + left. rewrite !Z.min_l by lia. apply drop_app_le. lia.
    + right. right. rewrite !Z.min_r by lia. split.
      * apply drop_ge. lia.
      * apply drop_ge. rewrite length_app. cbn [length]. lia.
Qed.

(** C6. Appending a correct attempt to a history never lowers the value
    [compute_mastery] returns, for any history and any fixed window. *)
Theorem compute_mastery_append_correct
    (before after : TopicState) (a : Attempt) (window : Z) :
  is_correct a = true ->
  attempt_history after = (attempt_history before ++ [a])%list ->
  exists v v' : Q,
    compute_mastery before window = Ok v /\
    compute_mastery after window = Ok v' /\
    (v <= v')%Q.
Proof.
  intros Ha Hafter.
  assert (Hne' : attempt_history after <> []).
  { rewrite Hafter. destruct (attempt_history before); discriminate. }
  exists (match attempt_history before with
          | [] => 0%Q
          | _ => mastery_value (slice_from (attempt_history before) (- window))
          end),
         (mastery_value (slice_from (attempt_history after) (- window))).
  split; [| split].
  - destruct (attempt_history before) as [| b h] eqn:E.
    + apply compute_mastery_empty. exact E.
    + rewrite <- E. apply compute_mastery_value. rewrite E. discriminate.
  - apply compute_mastery_value. exact Hne'.
  - rewrite Hafter.
    destruct (attempt_history before) as [| b h] eqn:E.
    + apply mastery_value_bounds.
    + rewrite <- E.
      destruct (slice_last_append (attempt_history before) a window)
        as [Hg | [(x & t & Hr & Hr') | [Hr Hr']]].
      * rewrite Hg. apply mastery_value_grows. exact Ha.
      * rewrite Hr, Hr'. apply mastery_value_slides. exact Ha.
      * rewrite Hr, Hr'. apply Qle_refl.
Qed.

(** C6, on an example. *)
Lemma compute_mastery_append_correct_witness :
  exists v v' : Q,
    compute_mastery (topic_of twenty_correct) 10 = Ok v /\
    compute_mastery
      (topic_of (twenty_correct ++ [make_attempt true None])%list) 10 = Ok v' /\
    (v <= v')%Q.
Proof.
  apply (compute_mastery_append_correct
           (topic_of twenty_correct)
           (topic_of (twenty_correct ++ [make_attempt true None])%list)
           (make_attempt true None) 10); reflexivity.
Defined.

(** ** compute_recommendation *)

Lemma first_prerequisite_head (topic_graph : option TopicGraph)
    (topic : string) :
  first_prerequisite topic_graph topic
  = head (prerequisites_of topic_graph topic).
Proof.
  unfold first_prerequisite, prerequisites_of.
  destruct topic_graph as [g |]; [| reflexivity].
  destruct (prerequisites g !! topic); reflexivity.
Qed.

(** [compute_recommendation] once the Break Monitor has answered: the first
    matching rule of the list. *)
Lemma compute_recommendation_rules
    (fromisoformat : string -> Res datetime) (clock : nat -> Z)
    (trajectory : string) (dominant_error : option string) (mastery : Q)
    (topic_graph : option TopicGraph) (topic : string)
    (break_state : option BreakState) (k : nat) :
  match break_state with
  | None =>
      exists r,
        first_match rules
          (signals trajectory dominant_error mastery topic_graph topic
             None None) = Some r /\
        compute_recommendation fromisoformat clock trajectory dominant_error
          mastery topic_graph topic None k = Ok (r, k)
  | Some bs =>
      match check_break_needed fromisoformat clock bs trajectory k with
      | Ok (c, k') =>
          exists r,
            first_match rules
              (signals trajectory dominant_error mastery topic_graph topic
                 (Some bs) (Some c)) = Some r /\
            compute_recommendation fromisoformat clock trajectory
              dominant_error mastery topic_graph topic (Some bs) k
            = Ok (r, k')
      | Raise e =>
          compute_recommendation fromisoformat clock trajectory
            dominant_error mastery topic_graph topic (Some bs) k = Raise e
      end
  end.
Proof.
  unfold compute_recommendation, clk_bind, clk_ret.
  rewrite first_prerequisite_head.
  destruct break_state as [bs |].
  - destruct (check_break_needed fromisoformat clock bs trajectory k)
      as [[c k'] | e]; [| reflexivity].
    unfold first_match, rules, rule_break, rule_warmup, rule_advance,
      rule_declining, rule_conceptual, rule_structural, rule_computational,
      rule_default, signals, advance, go_back.
    cbn [sig_break sig_warmup sig_dominant_error sig_mastery sig_trajectory
         sig_prerequisites].
    destruct (needed c); [eexists; split; reflexivity |].
    destruct (post_break_warmup bs); [eexists; split; reflexivity |].
    destruct (bool_decide (dominant_error = None) && Qle_bool (85 # 100) mastery);
      [eexists; split; reflexivity |].
    destruct (String.eqb trajectory "declining").
    { destruct (prerequisites_of topic_graph topic);
        eexists; split; reflexivity. }
    destruct (bool_decide (dominant_error = Some "conceptual")).
    { destruct (String.eqb trajectory "improving");
        [eexists; split; reflexivity |].
      destruct (prerequisites_of topic_graph topic);
        eexists; split; reflexivity. }
    destruct (bool_decide (dominant_error = Some "structural")).
    { destruct (String.eqb trajectory "improving");
        eexists; split; reflexivity. }
    destruct (bool_decide (dominant_error = Some "computational")).
    { destruct (String.eqb trajectory "improving");
        eexists; split; reflexivity. }
    eexists; split; reflexivity.
  - unfold first_match, rules, rule_break, rule_warmup, rule_advance,
      rule_declining, rule_conceptual, rule_structural, rule_computational,
      rule_default, signals, advance, go_back.
    cbn [sig_break sig_warmup sig_dominant_error sig_mastery sig_trajectory
         sig_prerequisites].
    destruct (bool_decide (dominant_error = None) && Qle_bool (85 # 100) mastery);
      [eexists; split; reflexivity |].
    destruct (String.eqb trajectory "declining").
    { destruct (prerequisites_of topic_graph topic);
        eexists; split; reflexivity. }
    destruct (bool_decide (dominant_error = Some "conceptual")).
    { destruct (String.eqb trajectory "improving");
        [eexists; split; reflexivity |].
      destruct (prerequisites_of topic_graph topic);
        eexists; split; reflexivity. }
    destruct (bool_decide (dominant_error = Some "structural")).
    { destruct (String.eqb trajectory "improving");
        eexists; split; reflexivity. }
    destruct (bool_decide (dominant_error = Some "computational")).
    { destruct (String.eqb trajectory "improving");
        eexists; split; reflexivity. }
    eexists; split; reflexivity.
Qed.

(** Only the advancement rule produces the advancement record. *)
Lemma first_match_advance (s : Signals) :
  first_match rules s = Some advance -> rule_advance s = Some advance.
Proof.
  unfold first_match, rules, rule_break, rule_warmup, rule_declining,
    rule_conceptual, rule_structural, rule_computational, rule_default.
  destruct (sig_break s) as [c |]; [destruct (needed c) |];
    try (intros H; discriminate H);
    (destruct (sig_warmup s); [intros H; discriminate H |]);
    (destruct (rule_advance s) as [r |] eqn:E;
     [intros [= ->]; reflexivity |]);
    (destruct (String.eqb (sig_trajectory s) "declining");
     [destruct (sig_prerequisites s); intros H; discriminate H |]);
    (destruct (bool_decide (sig_dominant_error s = Some "conceptual"));
     [destruct (String.eqb (sig_trajectory s) "improving");
      [| destruct (sig_prerequisites s)]; intros H; discriminate H |]);
    (destruct (bool_decide (sig_dominant_error s = Some "structural"));
     [destruct (String.eqb (sig_trajectory s) "improving");
      intros H; discriminate H |]);
    (destruct (bool_decide (sig_dominant_error s = Some "computational"));
     [destruct (String.eqb (sig_trajectory s) "improving");
      intros H; discriminate H |]);
    intros H; discriminate H.
Qed.

(** C4, as the code has it.  [compute_recommendation] returns what the
    first matching rule of the ordered list of eight rules returns.  When
    the trajectory is declining and none of the three rules before the
    declining rule fired (break, warm-up, advancement: no dominant error
    with mastery at least 0.85), it returns [go_back] with the first entry
    of the topic's prerequisite list, whatever the dominant error and the
    mastery, and [take_break] with urgency medium and the warm-up flag when
    that list is empty or absent. *)
Theorem compute_recommendation_first_match
    (fromisoformat : string -> Res datetime) (clock : nat -> Z)
    (trajectory : string) (dominant_error : option string) (mastery : Q)
    (topic_graph : option TopicGraph) (topic : string)
    (break_state : option BreakState) (k : nat) :
  match monitor_answer fromisoformat clock break_state trajectory k with
  | Raise e =>
      compute_recommendation fromisoformat clock trajectory dominant_error
        mastery topic_graph topic break_state k = Raise e
  | Ok (check, k') =>
      let s := signals trajectory dominant_error mastery topic_graph topic
                 break_state check in
      exists r : Recommendation,
        compute_recommendation fromisoformat clock trajectory dominant_error
          mastery topic_graph topic break_state k = Ok (r, k') /\
        first_match rules s = Some r /\
        (trajectory = "declining" ->
         rule_break s = None -> rule_warmup s = None ->
         rule_advance s = None ->
         match prerequisites_of topic_graph topic with
         | p :: _ => action r = "go_back" /\ prerequisite_topic r = Some p
         | [] =>
             action r = "take_break" /\ rec_urgency r = Some "medium" /\
             rec_post_break_warmup r = Some true
         end)
  end.
Proof.
  pose proof (compute_recommendation_rules fromisoformat clock trajectory
                dominant_error mastery topic_graph topic break_state k) as H.
  unfold monitor_answer.
  destruct break_state as [bs |].
  - destruct (check_break_needed fromisoformat clock bs trajectory k)
      as [[c k'] | e]; [| exact H].
    destruct H as (r & Hr & Hc). cbv zeta. exists r.
    split; [exact Hc |]. split; [exact Hr |].
    intros -> H1 H2 H3. revert Hr.
    unfold first_match, rules. rewrite H1, H2, H3.
    unfold rule_declining. cbn [sig_trajectory signals sig_prerequisites].
    destruct (prerequisites_of topic_graph topic);
      intros [= <-]; repeat split; reflexivity.
  - destruct H as (r & Hr & Hc). cbv zeta. exists r.
    split; [exact Hc |]. split; [exact Hr |].
    intros -> H1 H2 H3. revert Hr.
    unfold first_match, rules. rewrite H1, H2, H3.
    unfold rule_declining. cbn [sig_trajectory signals sig_prerequisites].
    destruct (prerequisites_of topic_graph topic);
      intros [= <-]; repeat split; reflexivity.
Qed.

(** C4, on an example. *)
Lemma compute_recommendation_first_match_witness :
  exists r : Recommendation,
    compute_recommendation no_timestamps (frozen 0) "declining"
      (Some "structural") (3 # 10) (Some math_graph) "math" None 0%nat
    = Ok (r, 0%nat) /\
    action r = "go_back" /\ prerequisite_topic r = Some "arithmetic".
Proof.
  pose proof (compute_recommendation_first_match no_timestamps (frozen 0)
                "declining" (Some "structural") (3 # 10) (Some math_graph)
                "math" None 0%nat) as H.
  cbn [monitor_answer] in H. destruct H as (r & Hc & _ & Hd).
  exists r. split; [exact Hc |].
  exact (Hd eq_refl eq_refl eq_refl eq_refl).
Defined.

(** C4, counterexample.  The advancement rule fires before the declining
    rule: a declining trajectory with no dominant error and mastery 0.9
    does not go back to the prerequisite. *)
Lemma declining_with_strong_mastery_advances :
  compute_recommendation no_timestamps (frozen 0) "declining" None (9 # 10)
    (Some math_graph) "math" None 0%nat = Ok (advance, 0%nat) /\
  action advance <> "go_back" /\ prerequisite_topic advance = None.
Proof. split; [reflexivity |]. split; [discriminate | reflexivity]. Qed.

(** C10. With the default window of 10, [compute_mastery] returns at most
    10/15, so the guard [mastery >= 0.85] of the advancement rule is false
    for a computed mastery and [compute_recommendation] never returns the
    advancement record for it. *)
Theorem computed_mastery_never_advances (topic_state : TopicState) :
  exists v : Q,
    compute_mastery topic_state 10 = Ok v /\
    (v <= 10 # 15)%Q /\
    Qle_bool (85 # 100) v = false /\
    forall (fromisoformat : string -> Res datetime) (clock : nat -> Z)
           (trajectory : string) (dominant_error : option string)
           (topic_graph : option TopicGraph) (topic : string)
           (break_state : option BreakState) (k : nat),
      (forall check : option BreakCheck,
         rule_advance
           (signals trajectory dominant_error v topic_graph topic
              break_state check) = None) /\
      forall k' : nat,
        compute_recommendation fromisoformat clock trajectory dominant_error
          v topic_graph topic break_state k <> Ok (advance, k').
Proof.
  assert (H : exists v : Q,
             compute_mastery topic_state 10 = Ok v /\ (v <= 10 # 15)%Q).
  { destruct (attempt_history topic_state) as [| a h] eqn:E.
    - exists 0%Q. split; [apply compute_mastery_empty; exact E | discriminate].
    - assert (Hne : attempt_history topic_state <> [])
        by (rewrite E; discriminate).
      set (recent := slice_from (attempt_history topic_state) (- (10))).
      exists (mastery_value recent).
      split; [apply compute_mastery_value; exact Hne |].
      destruct (mastery_value_bounds recent) as (_ & Hb & _).
      assert (Hn : len recent <= 10).
      { pose proof (len_slice_last_positive (attempt_history topic_state) 10
                      ltac:(lia)) as Hl.
        fold recent in Hl. lia. }
      pose proof (len_nonneg recent) as Hn0.
      apply (Qle_trans _ _ _ Hb).
      apply Qle_shift_div_r; [apply inject_Z_pos; lia |].
      unfold Qle. simpl. lia. }
  destruct H as (v & Hv & Hle).
  exists v. split; [exact Hv |]. split; [exact Hle |].
  assert (Hguard : Qle_bool (85 # 100) v = false).
  { destruct (Qle_bool (85 # 100) v) eqn:E; [| reflexivity].
    apply Qle_bool_iff in E. exfalso.
    apply (Qlt_not_le (10 # 15) (85 # 100)); [reflexivity |].
    apply (Qle_trans _ v); assumption. }
  split; [exact Hguard |].
  intros fromisoformat clock trajectory dominant_error topic_graph topic
    break_state k.
  assert (Hrule : forall check : option BreakCheck,
             rule_advance
               (signals trajectory dominant_error v topic_graph topic
                  break_state check) = None).
  { intros check. unfold rule_advance. cbn [signals sig_mastery].
    rewrite Hguard, andb_false_r. reflexivity. }
  split; [exact Hrule |].
  intros k' Hc.
  pose proof (compute_recommendation_rules fromisoformat clock trajectory
                dominant_error v topic_graph topic break_state k) as H.
  destruct break_state as [bs |].
  - destruct (check_break_needed fromisoformat clock bs trajectory k)
      as [[c k''] | e]; [| congruence].
    destruct H as (r & Hm & Hr). rewrite Hr in Hc. injection Hc as -> ->.
    apply first_match_advance in Hm. rewrite Hrule in Hm. discriminate.
  - destruct H as (r & Hm & Hr). rewrite Hr in Hc. injection Hc as -> ->.
    apply first_match_advance in Hm. rewrite Hrule in Hm. discriminate.
Qed.

(** ** check_break_needed *)

(** C3, where the code departs from the reference definition.  One minute
    into a session that follows a break taken three days earlier, the code
    measures the time since that break (4261 minutes) and asks for a break
    with urgency medium; the reference definition counts a break only when
    it occurred this session, measures one minute since the session start
    and answers not-needed. *)
Theorem check_break_needed_stale_break :
  run (check_break_needed example_times (frozen one_minute_in)
         stale_break "flat")
  = Ok {| needed := true;
          reason :=
            "You've been working for about 4261 minutes without a break. "
            ++ "A 5-10 minute break can improve retention.";
          urgency := "medium" |} /\
  check_break_reference example_times one_minute_in stale_break "flat"
  = (false, "low").
Proof. split; reflexivity. Qed.

Lemma instant_parsed (fromisoformat : string -> Res datetime)
    (s : option string) :
  parses_naive fromisoformat s ->
  if truthy s
  then exists t, fromisoformat (str_of s) = Ok (Naive t) /\
                 instant fromisoformat s = Some t
  else instant fromisoformat s = None.
Proof.
  intros H. unfold instant. destruct (truthy s) eqn:E; [| reflexivity].
  destruct (H E) as [t Ht]. exists t. rewrite Ht. split; reflexivity.
Qed.

Lemma timedelta_minutes_in_range (bs : BreakState) :
  cooldown_in_range bs ->
  timedelta_minutes (break_cooldown_minutes bs)
  = Ok (break_cooldown_minutes bs * us_per_minute).
Proof.
  intros [H1 H2]. unfold timedelta_minutes.
  destruct (Z.leb_spec (-999999999 * 1440) (break_cooldown_minutes bs));
    [| lia].
  destruct (Z.ltb_spec (break_cooldown_minutes bs) (1000000000 * 1440));
    [reflexivity | lia].
Qed.

Lemma in_cooldown_value (fromisoformat : string -> Res datetime)
    (clock : nat -> Z) (bs : BreakState) (k : nat) :
  parses_naive fromisoformat (last_break_suggestion bs) ->
  cooldown_in_range bs ->
  in_cooldown fromisoformat clock bs k
  = Ok (match instant fromisoformat (last_break_suggestion bs) with
        | Some t => clock k - t <? break_cooldown_minutes bs * us_per_minute
        | None => false
        end,
        if truthy (last_break_suggestion bs) then S k else k).
Proof.
  intros Hp Hc. pose proof (instant_parsed _ _ Hp) as Hi.
  unfold in_cooldown. destruct (truthy (last_break_suggestion bs)).
  - destruct Hi as (t & Ht & Hi). rewrite Hi.
    unfold clk_bind, clk_lift, clk_ret, datetime_now.
    rewrite Ht, (timedelta_minutes_in_range bs Hc). reflexivity.
  - rewrite Hi. reflexivity.
Qed.

Lemma minutes_at_least_45 (d : Z) :
  Qle_bool 45 (total_minutes d) = (45 * us_per_minute <=? d).
Proof.
  unfold Qle_bool, total_minutes, us_per_minute. cbn [Qnum Qden].
  rewrite Z.mul_1_r. reflexivity.
Qed.

Lemma long_session_value (fromisoformat : string -> Res datetime)
    (clock : nat -> Z) (bs : BreakState) (k : nat) :
  parses_naive fromisoformat (session_start_time bs) ->
  parses_naive fromisoformat (last_break_taken bs) ->
  long_session fromisoformat clock bs k
  = Ok (match instant fromisoformat (session_start_time bs) with
        | None => (None, k)
        | Some s =>
            match instant fromisoformat (last_break_taken bs) with
            | None =>
                (if 45 * us_per_minute <=? clock k - s
                 then Some (total_minutes (clock k - s)) else None, S k)
            | Some b =>
                (if 45 * us_per_minute <=? clock (S k) - b
                 then Some (total_minutes (clock (S k) - b)) else None,
                 S (S k))
            end
        end).
Proof.
  intros Hs Hb.
  pose proof (instant_parsed _ _ Hs) as His.
  pose proof (instant_parsed _ _ Hb) as Hib.
  unfold long_session. destruct (truthy (session_start_time bs)).
  - destruct His as (s & Hps & His). rewrite His.
    unfold clk_bind, clk_lift, clk_ret, datetime_now. rewrite Hps.
    cbn [dt_sub]. destruct (truthy (last_break_taken bs)).
    + destruct Hib as (b & Hpb & Hib). rewrite Hib, Hpb. cbn [dt_sub].
      rewrite minutes_at_least_45.
      destruct (45 * us_per_minute <=? clock (S k) - b); reflexivity.
    + rewrite Hib. rewrite minutes_at_least_45.
      destruct (45 * us_per_minute <=? clock k - s); reflexivity.
  - rewrite His. reflexivity.
Qed.

Lemma escalating_rising (trend : list Z) :
  escalating trend = rising_last_three trend.
Proof.
  unfold escalating, rising_last_three.
  destruct (Z.leb_spec 3 (len trend)) as [H | H].
  - change (-3) with (- (3)).
    rewrite (slice_last_positive trend 3) by lia. reflexivity.
  - unfold last_n. replace (length trend - 3)%nat with 0%nat
      by (unfold len in H; lia).
    rewrite drop_0.
    destruct trend as [| x0 [| x1 [| x2 [| x3 t]]]]; try reflexivity;
      unfold len in H; cbn [length] in H; lia.
Qed.

(** With well-formed timestamps the Break Monitor returns. *)
Lemma check_break_needed_returns (fromisoformat : string -> Res datetime)
    (clock : nat -> Z) (bs : BreakState) (trajectory : string) (k : nat) :
  well_formed_times fromisoformat bs ->
  exists c k', check_break_needed fromisoformat clock bs trajectory k
               = Ok (c, k').
Proof.
  intros (Hsug & Hstart & Hbreak & Hcool).
  unfold check_break_needed, clk_bind.
  rewrite (in_cooldown_value _ _ _ _ Hsug Hcool).
  match goal with |- context [if ?b then clk_ret _ else _] => destruct b end;
    [eexists _, _; reflexivity |].
  destruct (String.eqb trajectory "declining"
            && (3 <=? consecutive_errors bs));
    [eexists _, _; reflexivity |].
  destruct (5 <=? consecutive_errors bs); [eexists _, _; reflexivity |].
  rewrite (long_session_value _ _ _ _ Hstart Hbreak).
  match goal with
  | |- context [let (_, _) := ?p in _] => destruct p as [[m |] k1]
  end; [eexists _, _; reflexivity |].
  destruct (escalating (error_severity_trend bs));
    eexists _, _; reflexivity.
Qed.

(** ** _dominant_error_type *)

Lemma odict_get_set {V : Type} (d : list (string * V)) (k k' : string)
    (v default : V) :
  odict_get (odict_set d k v) k' default
  = if String.eqb k k' then v else odict_get d k' default.
Proof.
  induction d as [| [k0 v0] d IH]; cbn [odict_set odict_get].
  - reflexivity.
  - destruct (String.eqb_spec k0 k) as [-> | Hne]; cbn [odict_get].
    + destruct (String.eqb_spec k k'); reflexivity.
    + rewrite IH. destruct (String.eqb_spec k0 k') as [-> | Hne'];
        [| reflexivity].
      destruct (String.eqb_spec k k'); [congruence | reflexivity].
Qed.

Lemma keys_set_old {V : Type} (d : list (string * V)) (k : string) (v : V) :
  k ∈ map fst d -> map fst (odict_set d k v) = map fst d.
Proof.
  induction d as [| [k0 v0] d IH]; cbn [odict_set map fst]; intros Hin.
  - apply elem_of_nil in Hin. contradiction.
  - destruct (String.eqb_spec k0 k) as [-> | Hne]; [reflexivity |].
    cbn [map fst]. rewrite IH; [reflexivity |].
    apply elem_of_cons in Hin as [-> | Hin]; [congruence | exact Hin].
Qed.

Lemma keys_set_new {V : Type} (d : list (string * V)) (k : string) (v : V) :
  k ∉ map fst d -> map fst (odict_set d k v) = (map fst d ++ [k])%list.
Proof.
  induction d as [| [k0 v0] d IH]; cbn [odict_set map fst]; intros Hin.
  - reflexivity.
  - apply not_elem_of_cons in Hin as [Hne Hin].
    destruct (String.eqb_spec k0 k) as [-> | _]; [congruence |].
    cbn [map fst app]. rewrite IH by exact Hin. reflexivity.
Qed.

Lemma count_in_app (c : string) (l l' : list string) :
  count_in c (l ++ l')%list = count_in c l + count_in c l'.
Proof. induction l as [| x l IH]; cbn [app count_in]; lia. Qed.

Lemma count_in_nonneg (c : string) (l : list string) : 0 <= count_in c l.
Proof.
  induction l as [| x l IH]; cbn [count_in]; [lia |].
  destruct (String.eqb x c); lia.
Qed.

Lemma count_in_pos (c : string) (l : list string) : c ∈ l -> 0 < count_in c l.
Proof.
  induction l as [| x l IH]; intros Hin.
  - apply elem_of_nil in Hin. contradiction.
  - cbn [count_in]. pose proof (count_in_nonneg c l).
    apply elem_of_cons in Hin as [-> | Hin].
    + rewrite String.eqb_refl. lia.
    + specialize (IH Hin). destruct (String.eqb x c); lia.
Qed.

Lemma count_in_absent (c : string) (l : list string) :
  c ∉ l -> count_in c l = 0.
Proof.
  induction l as [| x l IH]; intros Hin; [reflexivity |].
  apply not_elem_of_cons in Hin as [Hne Hin]. cbn [count_in].
  destruct (String.eqb_spec x c); [congruence |]. rewrite IH by exact Hin. lia.
Qed.

(** The dict of counts after the categories [p] have been tallied. *)
Lemma tally_counts (p : list string) :
  let d := fold_left bump p [] in
  (forall c, odict_get d c 0 = count_in c p) /\
  (forall c, c ∈ map fst d <-> c ∈ p) /\
  NoDup (map fst d).
Proof.
  induction p as [| x p IH] using rev_ind; cbv zeta.
  - cbn. split; [reflexivity |]. split; [reflexivity | constructor].
  - rewrite fold_left_app. cbn [fold_left]. cbv zeta in IH.
    set (d := fold_left bump p []) in *.
    destruct IH as (Hget & Hkeys & Hnd). unfold bump.
    split; [| split].
    + intros c. rewrite odict_get_set, count_in_app, !Hget.
      cbn [count_in]. destruct (String.eqb_spec x c) as [-> | _]; lia.
    + intros c. rewrite elem_of_app, list_elem_of_singleton, <- Hkeys.
      destruct (decide (x ∈ map fst d)) as [Hin | Hnin].
      * rewrite (keys_set_old _ _ _ Hin). split; [tauto |].
        intros [H | ->]; assumption.
      * rewrite (keys_set_new _ _ _ Hnin).
        rewrite elem_of_app, list_elem_of_singleton. tauto.
    + destruct (decide (x ∈ map fst d)) as [Hin | Hnin].
      * rewrite (keys_set_old _ _ _ Hin). exact Hnd.
      * rewrite (keys_set_new _ _ _ Hnin). apply NoDup_app.
        split; [exact Hnd |]. split; [| apply NoDup_singleton].
        intros y Hy Hy'. apply list_elem_of_singleton in Hy'. congruence.
Qed.

(** Tallying more categories only adds keys at the end. *)
Lemma tally_keys_prefix (q : list string) (d : list (string * Z)) :
  exists K, map fst (fold_left bump q d) = (map fst d ++ K)%list.
Proof.
  revert d. induction q as [| x q IH]; intros d; cbn [fold_left].
  - exists []. rewrite app_nil_r. reflexivity.
  - destruct (IH (bump d x)) as [K HK]. rewrite HK. unfold bump.
    destruct (decide (x ∈ map fst d)) as [Hin | Hnin].
    + rewrite (keys_set_old _ _ _ Hin). exists K. reflexivity.
    + rewrite (keys_set_new _ _ _ Hnin). exists (x :: K).
      rewrite <- app_assoc. reflexivity.
Qed.

(** [max] keeps the first of the items with the greatest key. *)
Lemma max_from_first (f : string -> Z) (keys K1 K2 : list string)
    (best : string) :
  (forall x, x ∈ K1 -> f x < f best) ->
  (forall x, x ∈ K2 -> f x <= f best) ->
  exists K1' K2',
    (K1 ++ best :: K2 ++ keys)%list
    = (K1' ++ max_from f best keys :: K2')%list /\
    (forall x, x ∈ K1' -> f x < f (max_from f best keys)) /\
    (forall x, x ∈ K2' -> f x <= f (max_from f best keys)).
Proof.
  revert K1 K2 best. induction keys as [| k keys IH]; intros K1 K2 best H1 H2.
  - exists K1, K2. rewrite app_nil_r. cbn [max_from]. auto.
  - cbn [max_from]. destruct (Z.ltb_spec (f best) (f k)) as [Hlt | Hge].
    + destruct (IH (K1 ++ best :: K2)%list [] k) as (K1' & K2' & E & P1 & P2).
      * intros x Hx. apply elem_of_app in Hx as [Hx | Hx].
        -- specialize (H1 x Hx). lia.
        -- apply elem_of_cons in Hx as [-> | Hx]; [lia |].
           specialize (H2 x Hx). lia.
      * intros x Hx. apply elem_of_nil in Hx. contradiction.
      * exists K1', K2'. split; [| auto]. rewrite <- E.
        rewrite <- !app_assoc. cbn [app]. reflexivity.
    + destruct (IH K1 (K2 ++ [k])%list best) as (K1' & K2' & E & P1 & P2).
      * exact H1.
      * intros x Hx. apply elem_of_app in Hx as [Hx | Hx]; [auto |].
        apply list_elem_of_singleton in Hx as ->. exact Hge.
      * exists K1', K2'. split; [| auto]. rewrite <- E.
        rewrite <- !app_assoc. cbn [app]. reflexivity.
Qed.

Lemma NoDup_split_unique (K1 K2 K1' K2' : list string) (m : string) :
  NoDup (K1 ++ m :: K2) ->
  (K1 ++ m :: K2)%list = (K1' ++ m :: K2')%list -> K1 = K1'.
Proof.
  revert K1'. induction K1 as [| a K1 IH]; intros K1' Hnd E.
  - destruct K1' as [| a' K1']; [reflexivity |]. exfalso.
    cbn [app] in E. injection E as <- E.
    apply NoDup_cons in Hnd as [Hnin _]. apply Hnin. rewrite E.
    apply elem_of_app. right. apply elem_of_cons. left. reflexivity.
  - destruct K1' as [| a' K1'].
    + exfalso. cbn [app] in E. injection E as -> E.
      cbn [app] in Hnd. apply NoDup_cons in Hnd as [Hnin _]. apply Hnin.
      apply elem_of_app. right. apply elem_of_cons. left. reflexivity.
    + cbn [app] in E. injection E as <- E. f_equal.
      apply IH; [| exact E]. cbn [app] in Hnd.
      apply NoDup_cons in Hnd as [_ Hnd]. exact Hnd.
Qed.

Lemma tally_bump (l : list Attempt) (d : list (string * Z)) :
  fold_left tally l d = fold_left bump (map error_type_or_structural l) d.
Proof.
  revert d. induction l as [| a l IH]; intros d; [reflexivity |].
  cbn [fold_left map]. apply IH.
Qed.

(** What [_dominant_error_type] computes once there are recent errors. *)
Lemma dominant_error_of_categories (attempts : list Attempt) (window : Z) :
  let cats := recent_error_categories attempts window in
  let counts := fold_left bump cats [] in
  _dominant_error_type attempts window
  = match cats with
    | [] => Ok None
    | _ =>
        match map fst counts with
        | [] => Raise ValueError
        | k :: keys => Ok (Some (max_from (fun c => odict_get counts c 0) k keys))
        end
    end.
Proof.
  cbv zeta. unfold _dominant_error_type, recent_error_categories.
  destruct (filter (fun a => is_correct a = false)
              (slice_from attempts (- window))) as [| a l] eqn:E;
    [reflexivity |].
  rewrite tally_bump. cbn [map].
  unfold py_max.
  destruct (map fst (fold_left bump
                       (error_type_or_structural a
                        :: map error_type_or_structural l) []));
    reflexivity.
Qed.

(** C2, as the code has it.  Without a recent error the answer is [None].
    Otherwise the answer [c] has the highest count among the categories of
    the recent errors, and every category that occurs before the first
    occurrence of [c] has a strictly lower count: among tied categories, the
    one that occurs first in the window wins. *)
Theorem dominant_error_first_occurrence (attempts : list Attempt)
    (window : Z) :
  let cats := recent_error_categories attempts window in
  (cats = [] -> _dominant_error_type attempts window = Ok None) /\
  (cats <> [] ->
   exists (c : string) (pre post : list string),
     _dominant_error_type attempts window = Ok (Some c) /\
     cats = (pre ++ c :: post)%list /\ (c ∉ pre) /\
     (forall c', count_in c' cats <= count_in c cats) /\
     (forall c', c' ∈ pre -> count_in c' cats < count_in c cats)).
Proof.
  cbv zeta.
  pose proof (dominant_error_of_categories attempts window) as Hd.
  cbv zeta in Hd.
  remember (recent_error_categories attempts window) as cats eqn:Ecats.
  clear Ecats. split.
  - intros E. rewrite Hd, E. reflexivity.
  - intros Hne.
    destruct (tally_counts cats) as (Hget & Hkeys & Hnd).
    remember (fold_left bump cats []) as counts eqn:Ecounts.
    destruct (map fst counts) as [| k keys] eqn:Ek.
    { exfalso. destruct cats as [| c0 cats']; [congruence |].
      assert (Hin : c0 ∈ c0 :: cats') by (apply elem_of_cons; left; reflexivity).
      apply Hkeys in Hin. apply elem_of_nil in Hin. exact Hin. }
    set (f := fun c => odict_get counts c 0) in *.
    set (m := max_from f k keys) in *.
    assert (Hres : _dominant_error_type attempts window = Ok (Some m)).
    { rewrite Hd. destruct cats; [congruence | reflexivity]. }
    destruct (max_from_first f keys [] [] k) as (K1 & K2 & E & P1 & P2).
    { intros x Hx. apply elem_of_nil in Hx. contradiction. }
    { intros x Hx. apply elem_of_nil in Hx. contradiction. }
    cbn [app] in E. fold m in E, P1, P2.
    assert (Hf : forall c, f c = count_in c cats) by (intros c; apply Hget).
    assert (Hm : m ∈ cats).
    { apply Hkeys. rewrite E. apply elem_of_app. right.
      apply elem_of_cons. left. reflexivity. }
    destruct (list_elem_of_split_l cats m Hm) as (pre & post & Esplit & Hpre).
    exists m, pre, post.
    split; [exact Hres |].
    split; [exact Esplit |]. split; [exact Hpre |].
    assert (Hmax : forall c', count_in c' cats <= count_in m cats).
    { intros c'. destruct (decide (c' ∈ cats)) as [Hin | Hnin].
      - apply Hkeys in Hin. rewrite E in Hin. rewrite <- !Hf.
        apply elem_of_app in Hin as [Hin | Hin].
        + specialize (P1 c' Hin). lia.
        + apply elem_of_cons in Hin as [-> | Hin]; [lia |].
          exact (P2 c' Hin).
      - rewrite (count_in_absent c' cats Hnin). apply count_in_nonneg. }
    split; [exact Hmax |].
    intros c' Hc'.
    (* the keys tallied before the first occurrence of [m] are [K1] *)
    destruct (tally_counts pre) as (_ & Hkeys_pre & _).
    assert (Hprefix : exists K,
               map fst (fold_left bump (pre ++ m :: post)%list [])
               = ((map fst (fold_left bump pre []) ++ [m]) ++ K)%list).
    { rewrite fold_left_app. cbn [fold_left].
      destruct (tally_keys_prefix post (bump (fold_left bump pre []) m))
        as [K HK].
      exists K. rewrite HK. unfold bump. rewrite keys_set_new; [reflexivity |].
      intros Hin. apply Hkeys_pre in Hin. contradiction. }
    rewrite <- Esplit, <- Ecounts, Ek in Hprefix.
    destruct Hprefix as [K HK]. rewrite <- app_assoc in HK. cbn [app] in HK.
    assert (HK1 : map fst (fold_left bump pre []) = K1).
    { apply (NoDup_split_unique _ K _ K2 m).
      - rewrite <- HK. exact Hnd.
      - rewrite <- HK. exact E. }
    rewrite <- !Hf. apply P1. rewrite <- HK1. apply Hkeys_pre. exact Hc'.
Qed.

(** C2, on an example. *)
Lemma dominant_error_first_occurrence_witness :
  exists (c : string) (pre post : list string),
    _dominant_error_type tie_example 5 = Ok (Some c) /\
    recent_error_categories tie_example 5 = (pre ++ c :: post)%list /\
    (c ∉ pre) /\
    (forall c', count_in c' (recent_error_categories tie_example 5)
                <= count_in c (recent_error_categories tie_example 5)) /\
    (forall c', c' ∈ pre ->
                count_in c' (recent_error_categories tie_example 5)
                < count_in c (recent_error_categories tie_example 5)).
Proof.
  apply (proj2 (dominant_error_first_occurrence tie_example 5)).
  discriminate.
Defined.

(** C2, counterexample.  With errors computational, structural,
    structural, computational both categories count 2; structural is the
    first to reach 2, yet the answer is computational, the category that
    occurred first. *)
Lemma first_occurrence_wins_tie :
  tied (recent_error_categories tie_example 5) /\
  first_to_reach_max (recent_error_categories tie_example 5)
  = Some "structural" /\
  _dominant_error_type tie_example 5 = Ok (Some "computational").
Proof.
  split; [| split; reflexivity].
  exists "computational", "structural".
  split; [discriminate | split; reflexivity].
Qed.

(** Where the code and the reference definition of the Break Monitor agree:
    the timestamps are well formed, the clock stands still during the call,
    and the last break, if there is one, is not older than the session. *)
Lemma check_break_needed_reference (fromisoformat : string -> Res datetime)
    (now : Z) (bs : BreakState) (trajectory : string) (k : nat) :
  well_formed_times fromisoformat bs ->
  (forall s b,
     instant fromisoformat (session_start_time bs) = Some s ->
     instant fromisoformat (last_break_taken bs) = Some b -> s <= b) ->
  exists c k',
    check_break_needed fromisoformat (frozen now) bs trajectory k = Ok (c, k') /\
    (needed c, urgency c) = check_break_reference fromisoformat now bs trajectory.
Proof.
  intros (Hsug & Hstart & Hbreak & Hcool) Horder.
  unfold check_break_needed, check_break_reference, clk_bind.
  rewrite (in_cooldown_value _ _ _ _ Hsug Hcool). unfold frozen at 1.
  destruct (match instant fromisoformat (last_break_suggestion bs) with
            | Some t => now - t <? break_cooldown_minutes bs * us_per_minute
            | None => false
            end); [eexists _, _; split; reflexivity |].
  destruct (String.eqb trajectory "declining"
            && (3 <=? consecutive_errors bs));
    [eexists _, _; split; reflexivity |].
  destruct (5 <=? consecutive_errors bs);
    [eexists _, _; split; reflexivity |].
  rewrite (long_session_value _ _ _ _ Hstart Hbreak). unfold frozen.
  rewrite escalating_rising. unfold effective_elapsed.
  destruct (instant fromisoformat (session_start_time bs)) as [s |] eqn:Es.
  - destruct (instant fromisoformat (last_break_taken bs)) as [b |] eqn:Eb.
    + specialize (Horder s b eq_refl eq_refl).
      destruct (Z.leb_spec s b) as [_ | ?]; [| lia].
      destruct (45 * us_per_minute <=? now - b);
        [eexists _, _; split; reflexivity |].
      destruct (rising_last_three (error_severity_trend bs));
        eexists _, _; split; reflexivity.
    + destruct (45 * us_per_minute <=? now - s);
        [eexists _, _; split; reflexivity |].
      destruct (rising_last_three (error_severity_trend bs));
        eexists _, _; split; reflexivity.
  - destruct (rising_last_three (error_severity_trend bs));
      eexists _, _; split; reflexivity.
Qed.

(** ** Totality *)

Lemma compute_trajectory_returns (attempts : list Attempt) (window : Z) :
  returns (compute_trajectory attempts window).
Proof.
  destruct (Z.lt_ge_cases (len (slice_from attempts (- window))) 3)
    as [Hlt | Hge].
  - exists "unknown". unfold compute_trajectory.
    destruct (len attempts <? 3); [reflexivity |].
    destruct (Z.ltb_spec (len (slice_from attempts (- window))) 3);
      [reflexivity | lia].
  - rewrite (compute_trajectory_unfold attempts window Hge). cbv zeta.
    repeat match goal with
           | |- context [if ?b then _ else _] => destruct b
           end; eexists; reflexivity.
Qed.

Lemma compute_mastery_returns (topic_state : TopicState) (window : Z) :
  returns (compute_mastery topic_state window).
Proof.
  destruct (attempt_history topic_state) as [| a h] eqn:E.
  - exists 0%Q. apply compute_mastery_empty. exact E.
  - eexists. apply compute_mastery_value. rewrite E. discriminate.
Qed.

Lemma dominant_error_returns (attempts : list Attempt) (window : Z) :
  returns (_dominant_error_type attempts window).
Proof.
  rewrite dominant_error_of_categories. cbv zeta.
  destruct (recent_error_categories attempts window) as [| c cats] eqn:E.
  - exists None. reflexivity.
  - destruct (tally_counts (c :: cats)) as (_ & Hkeys & _).
    destruct (map fst (fold_left bump (c :: cats) [])) as [| k keys].
    + exfalso. assert (Hin : c ∈ c :: cats)
        by (apply elem_of_cons; left; reflexivity).
      apply Hkeys in Hin. apply elem_of_nil in Hin. exact Hin.
    + eexists. reflexivity.
Qed.

Lemma check_break_needed_parse_error (fromisoformat : string -> Res datetime)
    (clock : nat -> Z) (bs : BreakState) (trajectory : string) (k : nat)
    (e : PyExc) :
  truthy (last_break_suggestion bs) = true ->
  fromisoformat (str_of (last_break_suggestion bs)) = Raise e ->
  check_break_needed fromisoformat clock bs trajectory k = Raise e.
Proof.
  intros Ht He. unfold check_break_needed, clk_bind, in_cooldown.
  rewrite Ht. unfold clk_bind, clk_lift. rewrite He. reflexivity.
Qed.

Lemma compute_recommendation_returns (fromisoformat : string -> Res datetime)
    (clock : nat -> Z) (trajectory : string) (dominant_error : option string)
    (mastery : Q) (topic_graph : option TopicGraph) (topic : string)
    (break_state : option BreakState) (k : nat) :
  (forall bs, break_state = Some bs -> well_formed_times fromisoformat bs) ->
  exists r k',
    compute_recommendation fromisoformat clock trajectory dominant_error
      mastery topic_graph topic break_state k = Ok (r, k').
Proof.
  intros Hwf.
  pose proof (compute_recommendation_rules fromisoformat clock trajectory
                dominant_error mastery topic_graph topic break_state k) as H.
  destruct break_state as [bs |].
  - destruct (check_break_needed_returns fromisoformat clock bs trajectory k
                (Hwf bs eq_refl)) as (c & k' & Hc).
    rewrite Hc in H. destruct H as (r & _ & Hr). exists r, k'. exact Hr.
  - destruct H as (r & _ & Hr). exists r, k. exact Hr.
Qed.

(** *** Where a timestamp that does not parse is met *)

(** What the Break Monitor raises, the recommendation engine raises. *)
Lemma compute_recommendation_raises (fromisoformat : string -> Res datetime)
    (clock : nat -> Z) (trajectory : string) (dominant_error : option string)
    (mastery : Q) (topic_graph : option TopicGraph) (topic : string)
    (bs : BreakState) (k : nat) (e : PyExc) :
  check_break_needed fromisoformat clock bs trajectory k = Raise e ->
  compute_recommendation fromisoformat clock trajectory dominant_error
    mastery topic_graph topic (Some bs) k = Raise e.
Proof.
  intros H.
  pose proof (compute_recommendation_rules fromisoformat clock trajectory
                dominant_error mastery topic_graph topic (Some bs) k) as Hr.
  cbv beta iota in Hr. rewrite H in Hr. exact Hr.
Qed.

(** When the Break Monitor answers, the recommendation engine answers. *)
Lemma compute_recommendation_follows (fromisoformat : string -> Res datetime)
    (clock : nat -> Z) (trajectory : string) (dominant_error : option string)
    (mastery : Q) (topic_graph : option TopicGraph) (topic : string)
    (bs : BreakState) (k k1 : nat) (c : BreakCheck) :
  check_break_needed fromisoformat clock bs trajectory k = Ok (c, k1) ->
  exists r,
    compute_recommendation fromisoformat clock trajectory dominant_error
      mastery topic_graph topic (Some bs) k = Ok (r, k1).
Proof.
  intros H.
  pose proof (compute_recommendation_rules fromisoformat clock trajectory
                dominant_error mastery topic_graph topic (Some bs) k) as Hr.
  cbv beta iota in Hr. rewrite H in Hr. destruct Hr as (r & _ & Hr).
  exists r. exact Hr.
Qed.

Lemma check_break_needed_start_error (fromisoformat : string -> Res datetime)
    (clock : nat -> Z) (bs : BreakState) (trajectory : string) (k k1 : nat)
    (e : PyExc) :
  in_cooldown fromisoformat clock bs k = Ok (false, k1) ->
  no_error_trigger bs trajectory ->
  truthy (session_start_time bs) = true ->
  fromisoformat (str_of (session_start_time bs)) = Raise e ->
  check_break_needed fromisoformat clock bs trajectory k = Raise e.
Proof.
  intros Hcool [H1 H2] Ht He. unfold check_break_needed.
  unfold clk_bind at 1. rewrite Hcool, H1, H2.
  unfold clk_bind at 1. unfold long_session. rewrite Ht.
  unfold clk_bind at 1. unfold clk_lift. rewrite He. reflexivity.
Qed.

Lemma check_break_needed_break_error (fromisoformat : string -> Res datetime)
    (clock : nat -> Z) (bs : BreakState) (trajectory : string) (k k1 : nat)
    (s : Z) (e : PyExc) :
  in_cooldown fromisoformat clock bs k = Ok (false, k1) ->
  no_error_trigger bs trajectory ->
  truthy (session_start_time bs) = true ->
  fromisoformat (str_of (session_start_time bs)) = Ok (Naive s) ->
  truthy (last_break_taken bs) = true ->
  fromisoformat (str_of (last_break_taken bs)) = Raise e ->
  check_break_needed fromisoformat clock bs trajectory k = Raise e.
Proof.
  intros Hcool [H1 H2] Ht Hs Hb He. unfold check_break_needed.
  unfold clk_bind at 1. rewrite Hcool, H1, H2.
  unfold clk_bind at 1. unfold long_session. rewrite Ht, Hb.
  unfold clk_bind, clk_lift, clk_ret, datetime_now. rewrite Hs.
  cbn [dt_sub]. rewrite He. reflexivity.
Qed.

(** Within the cooldown no trigger is looked at. *)
Lemma check_break_needed_cooling (fromisoformat : string -> Res datetime)
    (clock : nat -> Z) (bs : BreakState) (trajectory : string) (k k1 : nat) :
  in_cooldown fromisoformat clock bs k = Ok (true, k1) ->
  exists c,
    check_break_needed fromisoformat clock bs trajectory k = Ok (c, k1) /\
    needed c = false.
Proof.
  intros Hcool. unfold check_break_needed.
  unfold clk_bind at 1. rewrite Hcool.
  eexists. split; reflexivity.
Qed.

(** A consecutive-error trigger answers before any session time is
    parsed. *)
Lemma check_break_needed_trigger_first (fromisoformat : string -> Res datetime)
    (clock : nat -> Z) (bs : BreakState) (trajectory : string) (k k1 : nat) :
  in_cooldown fromisoformat clock bs k = Ok (false, k1) ->
  ~ no_error_trigger bs trajectory ->
  exists c,
    check_break_needed fromisoformat clock bs trajectory k = Ok (c, k1) /\
    needed c = true.
Proof.
  intros Hcool Hn. unfold check_break_needed.
  unfold clk_bind at 1. rewrite Hcool.
  destruct (String.eqb trajectory "declining"
            && (3 <=? consecutive_errors bs)) eqn:E1;
    [eexists; split; reflexivity |].
  destruct (5 <=? consecutive_errors bs) eqn:E2;
    [eexists; split; reflexivity |].
  exfalso. apply Hn. split; assumption.
Qed.

(** Without a session start the last break is not parsed. *)
Lemma check_break_needed_no_start (fromisoformat : string -> Res datetime)
    (clock : nat -> Z) (bs : BreakState) (trajectory : string) (k k1 : nat) :
  in_cooldown fromisoformat clock bs k = Ok (false, k1) ->
  truthy (session_start_time bs) = false ->
  exists c, check_break_needed fromisoformat clock bs trajectory k
            = Ok (c, k1).
Proof.
  intros Hcool Ht. unfold check_break_needed.
  unfold clk_bind at 1. rewrite Hcool.
  destruct (String.eqb trajectory "declining"
            && (3 <=? consecutive_errors bs)); [eexists; reflexivity |].
  destruct (5 <=? consecutive_errors bs); [eexists; reflexivity |].
  unfold clk_bind, long_session. rewrite Ht. unfold clk_ret.
  destruct (escalating (error_severity_trend bs)); eexists; reflexivity.
Qed.

(** C8, as the code has it.  The trajectory analyzer, the mastery scorer
    and the dominant-error classifier return a result on every input.  The
    Break Monitor and the recommendation engine return a result whenever
    every timestamp field that exists is the ISO form of a naive datetime
    and the cooldown fits a timedelta, which covers the states without
    signal.  A timestamp that does not parse makes both raise the parser's
    exception where its parse is reached: the last suggestion always; the
    session start when the cooldown guard lets the evaluation go on and no
    consecutive-error trigger fires; the last break when, besides, the
    session start parses.  Where the parse is not reached (the cooldown
    guard ends the evaluation, a consecutive-error trigger fires, or there
    is no session start) both return. *)
Theorem decision_functions_return :
  (forall attempts window, returns (compute_trajectory attempts window)) /\
  (forall topic_state window, returns (compute_mastery topic_state window)) /\
  (forall attempts window, returns (_dominant_error_type attempts window)) /\
  (forall fromisoformat clock bs trajectory k,
     well_formed_times fromisoformat bs ->
     exists c k',
       check_break_needed fromisoformat clock bs trajectory k = Ok (c, k')) /\
  (forall fromisoformat clock trajectory dominant_error mastery topic_graph
          topic break_state k,
     (forall bs, break_state = Some bs -> well_formed_times fromisoformat bs) ->
     exists r k',
       compute_recommendation fromisoformat clock trajectory dominant_error
         mastery topic_graph topic break_state k = Ok (r, k')) /\
  (forall fromisoformat clock bs trajectory k e,
     truthy (last_break_suggestion bs) = true ->
     fromisoformat (str_of (last_break_suggestion bs)) = Raise e ->
     check_break_needed fromisoformat clock bs trajectory k = Raise e /\
     forall dominant_error mastery topic_graph topic,
       compute_recommendation fromisoformat clock trajectory dominant_error
         mastery topic_graph topic (Some bs) k = Raise e) /\
  (forall fromisoformat clock bs trajectory k k1 e,
     in_cooldown fromisoformat clock bs k = Ok (false, k1) ->
     no_error_trigger bs trajectory ->
     truthy (session_start_time bs) = true ->
     fromisoformat (str_of (session_start_time bs)) = Raise e ->
     check_break_needed fromisoformat clock bs trajectory k = Raise e /\
     forall dominant_error mastery topic_graph topic,
       compute_recommendation fromisoformat clock trajectory dominant_error
         mastery topic_graph topic (Some bs) k = Raise e) /\
  (forall fromisoformat clock bs trajectory k k1 s e,
     in_cooldown fromisoformat clock bs k = Ok (false, k1) ->
     no_error_trigger bs trajectory ->
     truthy (session_start_time bs) = true ->
     fromisoformat (str_of (session_start_time bs)) = Ok (Naive s) ->
     truthy (last_break_taken bs) = true ->
     fromisoformat (str_of (last_break_taken bs)) = Raise e ->
     check_break_needed fromisoformat clock bs trajectory k = Raise e /\
     forall dominant_error mastery topic_graph topic,
       compute_recommendation fromisoformat clock trajectory dominant_error
         mastery topic_graph topic (Some bs) k = Raise e) /\
  (forall fromisoformat clock bs trajectory k k1,
     in_cooldown fromisoformat clock bs k = Ok (true, k1) ->
     (exists c,
        check_break_needed fromisoformat clock bs trajectory k = Ok (c, k1) /\
        needed c = false) /\
     forall dominant_error mastery topic_graph topic,
       exists r,
         compute_recommendation fromisoformat clock trajectory dominant_error
           mastery topic_graph topic (Some bs) k = Ok (r, k1)) /\
  (forall fromisoformat clock bs trajectory k k1,
     in_cooldown fromisoformat clock bs k = Ok (false, k1) ->
     ~ no_error_trigger bs trajectory ->
     (exists c,
        check_break_needed fromisoformat clock bs trajectory k = Ok (c, k1) /\
        needed c = true) /\
     forall dominant_error mastery topic_graph topic,
       exists r,
         compute_recommendation fromisoformat clock trajectory dominant_error
           mastery topic_graph topic (Some bs) k = Ok (r, k1)) /\
  (forall fromisoformat clock bs trajectory k k1,
     in_cooldown fromisoformat clock bs k = Ok (false, k1) ->
     truthy (session_start_time bs) = false ->
     (exists c, check_break_needed fromisoformat clock bs trajectory k
                = Ok (c, k1)) /\
     forall dominant_error mastery topic_graph topic,
       exists r,
         compute_recommendation fromisoformat clock trajectory dominant_error
           mastery topic_graph topic (Some bs) k = Ok (r, k1)).
Proof.
  split; [exact compute_trajectory_returns |].
  split; [exact compute_mastery_returns |].
  split; [exact dominant_error_returns |].
  split; [exact check_break_needed_returns |].
  split; [exact compute_recommendation_returns |].
  split.
  { intros fromisoformat clock bs trajectory k e Ht He.
    pose proof (check_break_needed_parse_error fromisoformat clock bs
                  trajectory k e Ht He) as H.
    split; [exact H |]. intros dominant_error mastery topic_graph topic.
    apply compute_recommendation_raises. exact H. }
  split.
  { intros fromisoformat clock bs trajectory k k1 e Hcool Hn Ht He.
    pose proof (check_break_needed_start_error fromisoformat clock bs
                  trajectory k k1 e Hcool Hn Ht He) as H.
    split; [exact H |]. intros dominant_error mastery topic_graph topic.
    apply compute_recommendation_raises. exact H. }
  split.
  { intros fromisoformat clock bs trajectory k k1 s e Hcool Hn Ht Hs Hb He.
    pose proof (check_break_needed_break_error fromisoformat clock bs
                  trajectory k k1 s e Hcool Hn Ht Hs Hb He) as H.
    split; [exact H |]. intros dominant_error mastery topic_graph topic.
    apply compute_recommendation_raises. exact H. }
  split.
  { intros fromisoformat clock bs trajectory k k1 Hcool.
    destruct (check_break_needed_cooling fromisoformat clock bs trajectory
                k k1 Hcool) as (c & Hc & Hneeded).
    split; [exists c; split; assumption |].
    intros dominant_error mastery topic_graph topic.
    apply (compute_recommendation_follows _ _ _ _ _ _ _ _ _ _ c). exact Hc. }
  split.
  { intros fromisoformat clock bs trajectory k k1 Hcool Hn.
    destruct (check_break_needed_trigger_first fromisoformat clock bs
                trajectory k k1 Hcool Hn) as (c & Hc & Hneeded).
    split; [exists c; split; assumption |].
    intros dominant_error mastery topic_graph topic.
    apply (compute_recommendation_follows _ _ _ _ _ _ _ _ _ _ c). exact Hc. }
  intros fromisoformat clock bs trajectory k k1 Hcool Ht.
  destruct (check_break_needed_no_start fromisoformat clock bs trajectory
              k k1 Hcool Ht) as (c & Hc).
  split; [exists c; exact Hc |].
  intros dominant_error mastery topic_graph topic.
  apply (compute_recommendation_follows _ _ _ _ _ _ _ _ _ _ c). exact Hc.
Qed.

(** C8, on examples: a state with its three timestamps set, read one
    minute into the session; the three timestamps that do not parse; and
    the three states where the bad timestamp is never parsed. *)
Lemma decision_functions_return_witness :
  (exists c k',
     check_break_needed example_times (frozen one_minute_in) all_times_set
       "declining" 0%nat = Ok (c, k')) /\
  (exists r k',
     compute_recommendation example_times (frozen one_minute_in) "declining"
       (Some "structural") (1 # 4) (Some math_graph) "math"
       (Some all_times_set) 0%nat = Ok (r, k')) /\
  (check_break_needed example_times (frozen 0) broken_suggestion "flat" 0%nat
   = Raise ValueError /\
   forall dominant_error mastery topic_graph topic,
     compute_recommendation example_times (frozen 0) "flat" dominant_error
       mastery topic_graph topic (Some broken_suggestion) 0%nat
     = Raise ValueError) /\
  (check_break_needed example_times (frozen 0) broken_session_start "flat"
     0%nat = Raise ValueError /\
   forall dominant_error mastery topic_graph topic,
     compute_recommendation example_times (frozen 0) "flat" dominant_error
       mastery topic_graph topic (Some broken_session_start) 0%nat
     = Raise ValueError) /\
  (check_break_needed example_times (frozen one_minute_in) broken_last_break
     "flat" 0%nat = Raise ValueError /\
   forall dominant_error mastery topic_graph topic,
     compute_recommendation example_times (frozen one_minute_in) "flat"
       dominant_error mastery topic_graph topic (Some broken_last_break)
       0%nat
     = Raise ValueError) /\
  ((exists c,
      check_break_needed example_times (frozen one_minute_in)
        broken_start_cooling "flat" 0%nat = Ok (c, 1%nat) /\
      needed c = false) /\
   forall dominant_error mastery topic_graph topic,
     exists r,
       compute_recommendation example_times (frozen one_minute_in) "flat"
         dominant_error mastery topic_graph topic (Some broken_start_cooling)
         0%nat
       = Ok (r, 1%nat)) /\
  ((exists c,
      check_break_needed example_times (frozen 0) broken_start_five_errors
        "flat" 0%nat = Ok (c, 0%nat) /\
      needed c = true) /\
   forall dominant_error mastery topic_graph topic,
     exists r,
       compute_recommendation example_times (frozen 0) "flat" dominant_error
         mastery topic_graph topic (Some broken_start_five_errors) 0%nat
       = Ok (r, 0%nat)) /\
  ((exists c,
      check_break_needed example_times (frozen 0) broken_break_no_start
        "flat" 0%nat = Ok (c, 0%nat)) /\
   forall dominant_error mastery topic_graph topic,
     exists r,
       compute_recommendation example_times (frozen 0) "flat" dominant_error
         mastery topic_graph topic (Some broken_break_no_start) 0%nat
       = Ok (r, 0%nat)).
Proof.
  destruct decision_functions_return
    as (_ & _ & _ & Hb & Hr & He & Hstart & Hbreak & Hcool & Htrig
        & Hnostart).
  assert (Hwf : well_formed_times example_times all_times_set).
  { unfold well_formed_times, parses_naive, cooldown_in_range.
    cbn [all_times_set last_break_suggestion session_start_time
         last_break_taken break_cooldown_minutes].
    split; [intros _; eexists; reflexivity |].
    split; [intros _; eexists; reflexivity |].
    split; [intros _; eexists; reflexivity | lia]. }
  split; [apply Hb; exact Hwf |].
  split; [apply Hr; intros bs [= <-]; exact Hwf |].
  split; [apply He; reflexivity |].
  split.
  { apply (Hstart example_times (frozen 0) broken_session_start "flat"
             0%nat 0%nat ValueError);
      [reflexivity | split; reflexivity | reflexivity | reflexivity]. }
  split.
  { apply (Hbreak example_times (frozen one_minute_in) broken_last_break
             "flat" 0%nat 0%nat 291600000000 ValueError);
      [reflexivity | split; reflexivity | reflexivity | reflexivity
      | reflexivity | reflexivity]. }
  split.
  { apply (Hcool example_times (frozen one_minute_in) broken_start_cooling
             "flat" 0%nat 1%nat).
    reflexivity. }
  split.
  { apply (Htrig example_times (frozen 0) broken_start_five_errors "flat"
             0%nat 0%nat); [reflexivity |].
    intros [_ H]. discriminate H. }
  apply (Hnostart example_times (frozen 0) broken_break_no_start "flat"
           0%nat 0%nat); reflexivity.
Defined.

(** C8, counterexample.  On a persisted timestamp that is not a date the
    Break Monitor and the recommendation engine raise [ValueError]. *)
Lemma unparsable_timestamp_raises :
  run (check_break_needed example_times (frozen 0) broken_suggestion "flat")
  = Raise ValueError /\
  run (compute_recommendation example_times (frozen 0) "flat" None 0 None
         "math" (Some broken_suggestion))
  = Raise ValueError.
Proof. split; reflexivity. Qed.

(** ** The tool layer keeps the derived fields *)

Lemma compute_mastery_history (ts ts' : TopicState) (window : Z) :
  attempt_history ts = attempt_history ts' ->
  compute_mastery ts window = compute_mastery ts' window.
Proof. intros H. unfold compute_mastery. rewrite H. reflexivity. Qed.

Lemma derived_ok_same (ts ts' : TopicState) :
  attempt_history ts' = attempt_history ts ->
  mastery_level ts' = mastery_level ts ->
  trajectory ts' = trajectory ts ->
  derived_ok ts -> derived_ok ts'.
Proof.
  intros Hh Hm Ht [H1 H2]. unfold derived_ok.
  rewrite (compute_mastery_history ts' ts 10 Hh), Hh, Hm, Ht. split; assumption.
Qed.

Lemma derived_ok_default : derived_ok TopicState_default.
Proof. split; reflexivity. Qed.

Lemma profile_ok_new (id : string) : profile_ok (LearnerProfile_new id).
Proof. intros topic ts H. cbn in H. rewrite lookup_empty in H. discriminate. Qed.

Lemma store_ok_empty : store_ok ∅.
Proof. intros id p H. rewrite lookup_empty in H. discriminate. Qed.

Lemma store_ok_load (store : gmap string LearnerProfile) (id : string) :
  store_ok store -> profile_ok (load_learner store id).
Proof.
  intros H. unfold load_learner.
  destruct (store !! id) as [p |] eqn:E; cbn.
  - exact (H id p E).
  - apply profile_ok_new.
Qed.

Lemma store_ok_insert (store : gmap string LearnerProfile) (id : string)
    (p : LearnerProfile) :
  store_ok store -> profile_ok p -> store_ok (<[id := p]> store).
Proof.
  intros Hs Hp id' p' H. rewrite lookup_insert in H.
  destruct (decide (id = id')) as [-> | Hne].
  - injection H as <-. exact Hp.
  - exact (Hs id' p' H).
Qed.

Lemma store_ok_save (store : gmap string LearnerProfile) (p : LearnerProfile) :
  store_ok store -> profile_ok p -> store_ok (save_learner store p).
Proof. apply store_ok_insert. Qed.

Lemma topic_or_new_ok (p : LearnerProfile) (topic : string) :
  profile_ok p -> derived_ok (topic_or_new p topic).
Proof.
  intros H. unfold topic_or_new.
  destruct (topics p !! topic) as [ts |] eqn:E; cbn.
  - exact (H topic ts E).
  - apply derived_ok_default.
Qed.

(** A profile whose topics are those of [p] with one topic set. *)
Lemma profile_ok_set (p p' : LearnerProfile) (topic : string)
    (ts : TopicState) :
  topics p' = <[topic := ts]> (topics p) ->
  profile_ok p -> derived_ok ts -> profile_ok p'.
Proof.
  intros E Hp Hts topic' ts' H. rewrite E, lookup_insert in H.
  destruct (decide (topic = topic')) as [-> | Hne].
  - injection H as <-. exact Hts.
  - exact (Hp topic' ts' H).
Qed.

Lemma profile_ok_delete (p p' : LearnerProfile) (topic : string) :
  topics p' = delete topic (topics p) -> profile_ok p -> profile_ok p'.
Proof.
  intros E Hp topic' ts' H. rewrite E, lookup_delete in H.
  destruct (decide (topic = topic')) as [-> | Hne]; [discriminate |].
  exact (Hp topic' ts' H).
Qed.

Lemma profile_ok_topics (p p' : LearnerProfile) :
  topics p' = topics p -> profile_ok p -> profile_ok p'.
Proof. intros E Hp topic ts H. rewrite E in H. exact (Hp topic ts H). Qed.

Section ToolLayerInvariant.

Variable str_strip : string -> string.
Variable str_lower : string -> string.
Variable now_iso : nat -> string.
Variable fromisoformat : string -> Res datetime.
Variable rebuild_unified_graph : LearnerProfile -> LearnerProfile.

Hypothesis rebuild_keeps_topics :
  forall p, topics (rebuild_unified_graph p) = topics p.

Lemma add_topic_ok (names : list string) (t : gmap string TopicState) :
  (forall topic ts, t !! topic = Some ts -> derived_ok ts) ->
  forall topic ts,
    fold_left (add_topic str_strip str_lower) names t !! topic = Some ts ->
    derived_ok ts.
Proof.
  revert t. induction names as [| n names IH]; intros t Ht; [exact Ht |].
  cbn [fold_left]. apply IH. unfold add_topic.
  destruct (t !! _normalize_topic str_strip str_lower n) eqn:E; [exact Ht |].
  intros topic ts H. rewrite lookup_insert in H.
  destruct (decide (_normalize_topic str_strip str_lower n = topic)).
  - injection H as <-. apply derived_ok_default.
  - exact (Ht topic ts H).
Qed.

(** Every tool but the manual override keeps the derived fields. *)
Lemma perform_keeps_derived (op : Operation)
    (store : gmap string LearnerProfile) (k : nat) :
  is_override op = false ->
  store_ok store ->
  store_ok (fst (perform str_strip str_lower now_iso fromisoformat
                   rebuild_unified_graph op (store, k))).
Proof.
  intros Hop Hs. destruct op; try discriminate Hop; cbn [perform].
  - (* start_session *)
    unfold start_session. cbn [fst]. apply store_ok_save; [exact Hs |].
    pose proof (store_ok_load store id Hs) as Hp.
    eapply profile_ok_set; [reflexivity | exact Hp |].
    eapply derived_ok_same; [| | | apply (topic_or_new_ok _ (_normalize_topic str_strip str_lower topic) Hp)];
      reflexivity.
  - (* record_attempt *)
    unfold record_attempt.
    pose proof (store_ok_load store id Hs) as Hp.
    destruct (compute_trajectory _ 5) as [traj | e] eqn:Et; [| exact Hs].
    destruct (compute_mastery _ 10) as [m | e] eqn:Em; [| exact Hs].
    cbn [fst]. apply store_ok_save; [exact Hs |].
    eapply profile_ok_set; [reflexivity | exact Hp |].
    split; cbn [mastery_level attempt_history trajectory].
    + rewrite <- Em. apply compute_mastery_history. reflexivity.
    + exact Et.
  - exact Hs.
  - exact Hs.
  - (* record_misconception *)
    unfold record_misconception.
    pose proof (store_ok_load store id Hs) as Hp.
    destruct (observe_again _ _ _ _) as [ms |]; cbn [fst];
      (apply store_ok_save; [exact Hs |]);
      (eapply profile_ok_set; [reflexivity | exact Hp |]);
      (eapply derived_ok_same; [| | | apply (topic_or_new_ok _ (_normalize_topic str_strip str_lower topic) Hp)];
       reflexivity).
  - (* resolve_misconception *)
    unfold resolve_misconception.
    pose proof (store_ok_load store id Hs) as Hp.
    destruct (topics (load_learner store id) !! _) as [ts |] eqn:E;
      [| exact Hs].
    destruct (mark_resolved _ _ _ _) as [ms |]; [| exact Hs].
    cbn [fst]. apply store_ok_save; [exact Hs |].
    eapply profile_ok_set; [reflexivity | exact Hp |].
    eapply derived_ok_same; [| | | apply (Hp _ _ E)]; reflexivity.
  - (* store_topic_graph *)
    unfold store_topic_graph. cbn [fst]. apply store_ok_save; [exact Hs |].
    eapply profile_ok_topics; [apply rebuild_keeps_topics |].
    eapply profile_ok_topics; [| apply (store_ok_load store id Hs)].
    reflexivity.
  - (* add_topics *)
    unfold add_topics. cbn [fst]. apply store_ok_save; [exact Hs |].
    intros topic ts H. cbn [with_topics topics] in H.
    eapply add_topic_ok; [| exact H].
    apply (store_ok_load store id Hs).
  - (* delete_topic *)
    unfold delete_topic.
    destruct (topics (load_learner store id) !! _) as [ts |] eqn:E;
      [| exact Hs].
    cbn [fst]. apply store_ok_save; [exact Hs |].
    eapply profile_ok_topics; [apply rebuild_keeps_topics |].
    eapply profile_ok_delete; [| apply (store_ok_load store id Hs)].
    reflexivity.
  - (* record_break *)
    unfold record_break.
    pose proof (store_ok_load store id Hs) as Hp.
    destruct (topics (load_learner store id) !! _) as [ts |] eqn:E;
      [| exact Hs].
    cbn [fst]. apply store_ok_save; [exact Hs |].
    eapply profile_ok_set; [reflexivity | exact Hp |].
    eapply derived_ok_same; [| | | apply (Hp _ _ E)]; reflexivity.
  - (* end_session *)
    unfold end_session.
    pose proof (store_ok_load store id Hs) as Hp.
    destruct (last (session_history (load_learner store id))) as [cur |].
    + destruct (_session_duration_minutes _ _ _); [| exact Hs].
      cbn [fst]. apply store_ok_save; [exact Hs |].
      eapply profile_ok_topics; [| exact Hp]. reflexivity.
    + cbn [fst]. apply store_ok_save; assumption.
  - (* the REST delete *)
    unfold app_delete_topic.
    destruct (store !! id) as [p |] eqn:E; [| exact Hs].
    destruct (topics p !! _) as [ts |] eqn:Et; [| exact Hs].
    cbn [fst]. apply store_ok_insert; [exact Hs |].
    eapply profile_ok_delete; [| apply (Hs id p E)]. reflexivity.
Qed.

Lemma perform_all_keeps_derived (ops : list Operation)
    (store : gmap string LearnerProfile) (k : nat) :
  forallb (fun op => negb (is_override op)) ops = true ->
  store_ok store ->
  store_ok (fst (perform_all str_strip str_lower now_iso fromisoformat
                   rebuild_unified_graph ops (store, k))).
Proof.
  revert store k. induction ops as [| op ops IH]; intros store k Hops Hs.
  - exact Hs.
  - cbn [forallb] in Hops. apply andb_true_iff in Hops as [Hop Hops].
    apply negb_true_iff in Hop.
    unfold perform_all. cbn [fold_left].
    pose proof (perform_keeps_derived op store k Hop Hs) as H1.
    destruct (perform str_strip str_lower now_iso fromisoformat
                rebuild_unified_graph op (store, k)) as [store' k'].
    apply IH; assumption.
Qed.

End ToolLayerInvariant.

(** C9. The empty store satisfies the invariant, and every sequence of tool
    operations without the manual override [update_topic_mastery] keeps it:
    afterwards the stored mastery and trajectory of every topic of every
    learner are what [compute_mastery] and [compute_trajectory] return on
    the topic's history.  [rebuild_unified_graph], whose code is not at
    hand, is assumed to leave the topic states alone. *)
Theorem derived_fields_invariant
    (str_strip str_lower : string -> string) (now_iso : nat -> string)
    (fromisoformat : string -> Res datetime)
    (rebuild_unified_graph : LearnerProfile -> LearnerProfile) :
  (forall p, topics (rebuild_unified_graph p) = topics p) ->
  store_ok ∅ /\
  forall (ops : list Operation) (store : gmap string LearnerProfile)
         (k : nat),
    forallb (fun op => negb (is_override op)) ops = true ->
    store_ok store ->
    store_ok (fst (perform_all str_strip str_lower now_iso fromisoformat
                     rebuild_unified_graph ops (store, k))).
Proof.
  intros Hrebuild. split; [exact store_ok_empty |].
  intros ops store k. apply perform_all_keeps_derived. exact Hrebuild.
Qed.

(** C9, on an example. *)
Lemma derived_fields_invariant_witness :
  store_ok (fst (perform_all same_string same_string ten_o_clock example_times
                   same_profile short_session (∅, 0%nat))).
Proof.
  apply (derived_fields_invariant same_string same_string ten_o_clock
           example_times same_profile).
  - intros p. reflexivity.
  - reflexivity.
  - exact store_ok_empty.
Defined.

(** The manual override is the exception: it stores a mastery that the
    history does not yield. *)
Lemma manual_override_breaks :
  ~ store_ok (fst (update_topic_mastery same_string same_string
                     "ann" "math" (9 # 10) (∅, 0%nat))).
Proof.
  intros H. unfold update_topic_mastery in H. cbn [fst] in H.
  unfold save_learner, store_ok in H.
  specialize (H "ann" _ (lookup_insert_eq _ _ _)).
  unfold profile_ok in H. cbn [with_topics topics] in H.
  specialize (H _ _ (lookup_insert_eq _ _ _)).
  destruct H as [H _]. vm_compute in H. discriminate H.
Qed.

(** ** The taxonomy in the code *)

(** An incorrect attempt whose category is a string outside the taxonomy
    gets severity 2 and accuracy 0.25; one without a category gets accuracy
    0.25. *)
Lemma unrecognized_category_defaults (a : Attempt) :
  is_correct a = false ->
  (forall s, error_type a = Some s ->
             s <> "correct" -> s <> "computational" ->
             s <> "structural" -> s <> "conceptual" ->
             severity_score a = 2 /\ accuracy_score a = (1 # 4)%Q) /\
  (error_type a = None -> accuracy_score a = (1 # 4)%Q).
Proof.
  intros Hc. unfold severity_score, accuracy_score. rewrite Hc. split.
  - intros s Hs H1 H2 H3 H4. rewrite Hs.
    unfold ERROR_SEVERITY, accuracy_scores. cbn [dict_get].
    repeat case_decide; try congruence. split; reflexivity.
  - intros Hs. rewrite Hs. reflexivity.
Qed.

(** C1, where the code departs from it.  An incorrect attempt without a
    category gets severity 0, not 2: [None] is a key of [ERROR_SEVERITY]
    (meant for correct answers), so the default of [get] is never used for
    it.  The trajectory of two correct attempts followed by three such
    attempts is flat, and [record_attempt] appends 0 to the severity trend.
    The accuracy weight is 0.25 as claimed, and the dominant-error
    classifier counts the attempt as structural. *)
Theorem absent_category_severity :
  severity_score uncategorized = 0 /\
  compute_trajectory uncategorized_run 5 = Ok "flat" /\
  error_severity_trend
    (break_state_after_attempt BreakState_default false None) = [0] /\
  accuracy_score uncategorized = (1 # 4)%Q /\
  _dominant_error_type [uncategorized] 5 = Ok (Some "structural").
Proof. repeat split; reflexivity. Qed.

(** * Further properties of the code *)

(** ** The Break Monitor *)

(** X1. Within the cooldown the Break Monitor answers not-needed after one
    reading of the clock, whatever the errors, the trajectory, the session
    times and the severity trend are. *)
Theorem cooldown_dominates (fromisoformat : string -> Res datetime)
    (clock : nat -> Z) (bs : BreakState) (trajectory : string) (k : nat)
    (t : Z) :
  truthy (last_break_suggestion bs) = true ->
  fromisoformat (str_of (last_break_suggestion bs)) = Ok (Naive t) ->
  cooldown_in_range bs ->
  clock k - t < break_cooldown_minutes bs * us_per_minute ->
  check_break_needed fromisoformat clock bs trajectory k = Ok (no_break, S k).
Proof.
  intros Ht Hp Hc Hlt.
  unfold check_break_needed, clk_bind, in_cooldown. rewrite Ht.
  unfold clk_bind, clk_lift, datetime_now, clk_ret.
  rewrite Hp, (timedelta_minutes_in_range bs Hc). cbn [dt_sub].
  destruct (Z.ltb_spec (clock k - t)
              (break_cooldown_minutes bs * us_per_minute)); [reflexivity | lia].
Qed.

(** X1, on an example. *)
Lemma cooldown_dominates_witness :
  check_break_needed example_times (frozen one_minute_in) cooling_down
    "declining" 0%nat = Ok (no_break, 1%nat).
Proof.
  apply (cooldown_dominates example_times (frozen one_minute_in) cooling_down
           "declining" 0%nat 291600000000).
  - reflexivity.
  - reflexivity.
  - unfold cooldown_in_range. cbn. lia.
  - vm_compute. reflexivity.
Defined.

(** X2. Without a last suggestion, five errors in a row, or three with a
    declining trajectory, make the Break Monitor ask for a break with
    urgency high before it reads the clock or parses a session time. *)
Theorem consecutive_errors_need_break (fromisoformat : string -> Res datetime)
    (clock : nat -> Z) (bs : BreakState) (trajectory : string) (k : nat) :
  truthy (last_break_suggestion bs) = false ->
  5 <= consecutive_errors bs \/
  (trajectory = "declining" /\ 3 <= consecutive_errors bs) ->
  exists c : BreakCheck,
    check_break_needed fromisoformat clock bs trajectory k = Ok (c, k) /\
    needed c = true /\ urgency c = "high".
Proof.
  intros Ht H.
  unfold check_break_needed, clk_bind, in_cooldown. rewrite Ht.
  unfold clk_ret.
  destruct (String.eqb trajectory "declining"
            && (3 <=? consecutive_errors bs)) eqn:E1.
  - eexists. split; [reflexivity |]. split; reflexivity.
  - destruct (Z.leb_spec 5 (consecutive_errors bs)) as [H5 | H5].
    + eexists. split; [reflexivity |]. split; reflexivity.
    + exfalso. destruct H as [H | [-> H]]; [lia |].
      rewrite String.eqb_refl in E1. cbn [andb] in E1.
      apply Z.leb_gt in E1. lia.
Qed.

(** X2, on an example. *)
Lemma consecutive_errors_need_break_witness :
  exists c : BreakCheck,
    check_break_needed no_timestamps (frozen 0) (with_errors 5) "flat" 0%nat
    = Ok (c, 0%nat) /\
    needed c = true /\ urgency c = "high".
Proof.
  apply (consecutive_errors_need_break no_timestamps (frozen 0) (with_errors 5)
           "flat" 0%nat).
  - reflexivity.
  - left. cbn. lia.
Defined.

(** X3. Whatever the Break Monitor returns is coherent: either not-needed
    with urgency low and no reason, or needed with urgency high or medium
    and a reason. *)
Theorem break_check_coherent (fromisoformat : string -> Res datetime)
    (clock : nat -> Z) (bs : BreakState) (trajectory : string) (k k' : nat)
    (c : BreakCheck) :
  check_break_needed fromisoformat clock bs trajectory k = Ok (c, k') ->
  c = no_break \/
  (needed c = true /\ (urgency c = "high" \/ urgency c = "medium") /\
   reason c <> EmptyString).
Proof.
  unfold check_break_needed, clk_bind, clk_ret.
  destruct (in_cooldown fromisoformat clock bs k) as [[cooling k1] | e];
    [| discriminate].
  destruct cooling; [intros [= <- <-]; left; reflexivity |].
  destruct (String.eqb trajectory "declining"
            && (3 <=? consecutive_errors bs)).
  { intros [= <- <-]. right. cbn. split; [reflexivity |].
    split; [left; reflexivity | discriminate]. }
  destruct (5 <=? consecutive_errors bs).
  { intros [= <- <-]. right. cbn. split; [reflexivity |].
    split; [left; reflexivity | discriminate]. }
  destruct (long_session fromisoformat clock bs k1) as [[[m |] k2] | e];
    [| | discriminate].
  { intros [= <- <-]. right. cbn. split; [reflexivity |].
    split; [right; reflexivity | discriminate]. }
  destruct (escalating (error_severity_trend bs)).
  { intros [= <- <-]. right. cbn. split; [reflexivity |].
    split; [right; reflexivity | discriminate]. }
  intros [= <- <-]. left. reflexivity.
Qed.

(** X3, on an example. *)
Lemma break_check_coherent_witness :
  {| needed := true;
     reason :=
       "Your errors are getting more fundamental over time. "
       ++ "A break might help you approach the material with fresh eyes.";
     urgency := "medium" |} = no_break \/
  (true = true /\ ("medium" = "high" \/ "medium" = "medium") /\
   "Your errors are getting more fundamental over time. "
   ++ "A break might help you approach the material with fresh eyes."
   <> EmptyString).
Proof.
  exact (break_check_coherent no_timestamps (frozen 0) (with_trend [1; 2; 3])
           "flat" 0%nat 0%nat _ eq_refl).
Defined.

(** ** The recommendation engine *)

Lemma first_match_shape (s : Signals) (r : Recommendation) :
  first_match rules s = Some r ->
  well_shaped r /\
  (action r = "go_back" ->
   exists rest, sig_prerequisites s = default "" (prerequisite_topic r) :: rest).
Proof.
  unfold first_match, rules, rule_break, rule_warmup, rule_advance,
    rule_declining, rule_conceptual, rule_structural, rule_computational,
    rule_default, advance, go_back, plain, well_shaped.
  repeat match goal with
         | |- context [match sig_break s with _ => _ end] =>
             destruct (sig_break s) as [c |]
         | |- context [match sig_prerequisites s with _ => _ end] =>
             destruct (sig_prerequisites s) as [| p ps]
         | |- context [if ?b then _ else _] => destruct b
         end;
    intros [= <-]; cbn;
    (split; [| try (intros H; discriminate H); intros _; eexists; reflexivity]);
    first
      [ left; repeat split; try reflexivity; eexists; reflexivity
      | right; left; repeat split; try reflexivity; eexists; reflexivity
      | right; right; split; [| repeat split; reflexivity];
        first [ left; reflexivity
              | right; left; reflexivity
              | right; right; left; reflexivity
              | right; right; right; reflexivity ] ].
Qed.

(** X4. Every record [compute_recommendation] returns has one of the six
    actions and carries the fields of that action only: urgency and warm-up
    flag for a break, the prerequisite for a step back, none otherwise.  A
    step back always names the first entry of the topic's prerequisite
    list. *)
Theorem recommendation_well_shaped (fromisoformat : string -> Res datetime)
    (clock : nat -> Z) (trajectory : string) (dominant_error : option string)
    (mastery : Q) (topic_graph : option TopicGraph) (topic : string)
    (break_state : option BreakState) (k k' : nat) (r : Recommendation) :
  compute_recommendation fromisoformat clock trajectory dominant_error
    mastery topic_graph topic break_state k = Ok (r, k') ->
  well_shaped r /\
  (action r = "go_back" ->
   exists p rest,
     prerequisite_topic r = Some p /\
     prerequisites_of topic_graph topic = p :: rest).
Proof.
  intros Hr.
  pose proof (compute_recommendation_rules fromisoformat clock trajectory
                dominant_error mastery topic_graph topic break_state k) as H.
  assert (Hm : exists check,
             first_match rules
               (signals trajectory dominant_error mastery topic_graph topic
                  break_state check) = Some r).
  { destruct break_state as [bs |].
    - destruct (check_break_needed fromisoformat clock bs trajectory k)
        as [[c k1] | e]; [| congruence].
      destruct H as (r' & Hm & Hc). rewrite Hc in Hr. injection Hr as -> ->.
      exists (Some c). exact Hm.
    - destruct H as (r' & Hm & Hc). rewrite Hc in Hr. injection Hr as -> ->.
      exists None. exact Hm. }
  destruct Hm as [check Hm].
  destruct (first_match_shape _ _ Hm) as [Hshape Hback].
  split; [exact Hshape |].
  intros Ha. destruct (Hback Ha) as [rest Hrest].
  cbn [signals sig_prerequisites] in Hrest.
  destruct Hshape as [[Hb _] | [(_ & [p Hp] & _) | [[Hb | [Hb | [Hb | Hb]]] _]]];
    try (rewrite Ha in Hb; discriminate Hb).
  exists p, rest. split; [exact Hp |]. rewrite Hrest, Hp. reflexivity.
Qed.

(** X4, on an example. *)
Lemma recommendation_well_shaped_witness :
  well_shaped (go_back "Trajectory declining. Revisit prerequisite material."
                 "arithmetic") /\
  (action (go_back "Trajectory declining. Revisit prerequisite material."
             "arithmetic") = "go_back" ->
   exists p rest,
     prerequisite_topic
       (go_back "Trajectory declining. Revisit prerequisite material."
          "arithmetic") = Some p /\
     prerequisites_of (Some math_graph) "math" = p :: rest).
Proof.
  exact (recommendation_well_shaped no_timestamps (frozen 0) "declining"
           (Some "structural") (3 # 10) (Some math_graph) "math" None
           0%nat 0%nat _ eq_refl).
Defined.

(** ** The trajectory analyzer *)

Lemma last_n_last_n {A : Type} (n : nat) (l : list A) :
  last_n n (last_n n l) = last_n n l.
Proof.
  unfold last_n. rewrite length_drop.
  replace (length l - (length l - n) - n)%nat with 0%nat by lia.
  reflexivity.
Qed.

(** X5. For a positive window the trajectory depends on the last [window]
    attempts only: older attempts never change the label. *)
Theorem trajectory_of_recent_attempts (attempts : list Attempt) (window : Z) :
  0 < window ->
  compute_trajectory attempts window
  = compute_trajectory (last_n (Z.to_nat window) attempts) window.
Proof.
  intros Hw. set (r := last_n (Z.to_nat window) attempts).
  assert (Hs : slice_from attempts (- window) = r)
    by (apply slice_last_positive; exact Hw).
  assert (Hs' : slice_from r (- window) = r).
  { rewrite slice_last_positive by exact Hw. apply last_n_last_n. }
  assert (Hle : len r <= len attempts).
  { rewrite <- Hs. apply len_slice_from_le. }
  destruct (Z.lt_ge_cases (len r) 3) as [Hlt | Hge].
  - unfold compute_trajectory. rewrite Hs.
    destruct (Z.ltb_spec (len r) 3) as [_ | ?]; [| lia].
    destruct (len attempts <? 3); reflexivity.
  - rewrite (compute_trajectory_unfold attempts window) by (rewrite Hs; exact Hge).
    rewrite (compute_trajectory_unfold r window) by (rewrite Hs'; exact Hge).
    cbv zeta. rewrite Hs, Hs'. reflexivity.
Qed.

(** X5, on an example. *)
Lemma trajectory_of_recent_attempts_witness :
  compute_trajectory declining_example 5
  = compute_trajectory (last_n 5 declining_example) 5.
Proof. apply (trajectory_of_recent_attempts declining_example 5). lia. Defined.

(** X6. The trajectory is one of the four labels, and it is [unknown]
    exactly when the history or its slice [attempts[-window:]] has fewer
    than three entries. *)
Theorem trajectory_labels (attempts : list Attempt) (window : Z) :
  exists label : string,
    compute_trajectory attempts window = Ok label /\
    (label = "unknown" \/ label = "improving" \/ label = "declining" \/
     label = "flat") /\
    (label = "unknown" <->
     len attempts < 3 \/ len (slice_from attempts (- window)) < 3).
Proof.
  destruct (Z.lt_ge_cases (len (slice_from attempts (- window))) 3)
    as [Hlt | Hge].
  - exists "unknown". split; [| split; [left; reflexivity | tauto]].
    unfold compute_trajectory.
    destruct (len attempts <? 3); [reflexivity |].
    destruct (Z.ltb_spec (len (slice_from attempts (- window))) 3);
      [reflexivity | lia].
  - pose proof (len_slice_from_le attempts (- window)) as Hle.
    rewrite (compute_trajectory_unfold attempts window Hge). cbv zeta.
    repeat match goal with
           | |- context [if ?b then _ else _] => destruct b
           end;
      eexists; (split; [reflexivity |]);
      (split; [tauto |]);
      (split; [intros H; discriminate H | intros [H | H]; lia]).
Qed.

Lemma sum_Z_from (l : list Z) (z : Z) : fold_left Z.add l z = z + sum_Z l.
Proof.
  unfold sum_Z. revert z. induction l as [| x l IH]; intros z; cbn [fold_left].
  - lia.
  - rewrite (IH (z + x)), (IH (0 + x)). lia.
Qed.

Lemma sum_Z_constant (l : list Z) (s : Z) :
  (forall x, x ∈ l -> x = s) -> sum_Z l = s * len l.
Proof.
  induction l as [| x l IH]; intros H.
  - unfold sum_Z, len. cbn. lia.
  - unfold sum_Z. cbn [fold_left]. rewrite sum_Z_from.
    rewrite IH by (intros y Hy; apply H; apply elem_of_cons; right; exact Hy).
    rewrite (H x) by (apply elem_of_cons; left; reflexivity).
    unfold len. cbn [length]. lia.
Qed.

Lemma mean_constant (l : list Z) (s : Z) :
  l <> [] -> (forall x, x ∈ l -> x = s) -> (mean l == inject_Z s)%Q.
Proof.
  intros Hne H. unfold mean. rewrite (sum_Z_constant l s H).
  assert (Hn : 0 < len l).
  { destruct l; [congruence |]. unfold len. cbn [length]. lia. }
  rewrite inject_Z_mult. field. apply inject_Z_nonzero. lia.
Qed.

(** X7. A slice of three or more attempts that all have the same severity,
    all correct for one, has a flat trajectory. *)
Theorem uniform_severity_is_flat (attempts : list Attempt) (window s : Z) :
  3 <= len (slice_from attempts (- window)) ->
  (forall a, a ∈ slice_from attempts (- window) -> severity_score a = s) ->
  compute_trajectory attempts window = Ok "flat".
Proof.
  intros Hge Hs.
  rewrite (compute_trajectory_unfold attempts window Hge). cbv zeta.
  set (recent := slice_from attempts (- window)) in *.
  set (mid := Z.to_nat (len recent / 2)).
  destruct (halves_of_window _ Hge) as (H1 & H2 & H3 & _).
  assert (Hm1 : (mean (map severity_score (take mid recent)) == inject_Z s)%Q).
  { apply mean_constant.
    - intros E. apply (f_equal length) in E.
      rewrite length_map, length_take in E. unfold mid, len in *.
      cbn [length] in E. lia.
    - intros x Hx. apply list_elem_of_In, in_map_iff in Hx as (a & <- & Ha).
      apply Hs. apply list_elem_of_In in Ha.
      apply (subseteq_take mid recent). exact Ha. }
  assert (Hm2 : (mean (map severity_score (drop mid recent)) == inject_Z s)%Q).
  { apply mean_constant.
    - intros E. apply (f_equal length) in E.
      rewrite length_map, length_drop in E. unfold mid, len in *.
      cbn [length] in E. lia.
    - intros x Hx. apply list_elem_of_In, in_map_iff in Hx as (a & <- & Ha).
      apply Hs. apply list_elem_of_In in Ha.
      apply (subseteq_drop mid recent). exact Ha. }
  destruct (Qlt_le_dec _ _) as [Hgt | _].
  { exfalso. rewrite Hm1, Hm2 in Hgt. revert Hgt. unfold Qlt. cbn. lia. }
  destruct (Qlt_le_dec _ _) as [Hlt | _]; [| reflexivity].
  exfalso. rewrite Hm1, Hm2 in Hlt. revert Hlt. unfold Qlt. cbn. lia.
Qed.

(** X7, on an example. *)
Lemma uniform_severity_is_flat_witness :
  compute_trajectory (repeat (make_attempt true None) 5) 5 = Ok "flat".
Proof.
  apply (uniform_severity_is_flat (repeat (make_attempt true None) 5) 5 0).
  - vm_compute. discriminate.
  - intros a Ha. vm_compute in Ha.
    repeat (apply elem_of_cons in Ha as [-> | Ha]; [reflexivity |]).
    apply elem_of_nil in Ha. contradiction.
Defined.

(** ** The mastery scorer *)

Lemma usum_all_correct (i : Z) (l : list Attempt) :
  (forall a, a ∈ l -> is_correct a = true) -> (usum i l == utot i l)%Q.
Proof.
  revert i. induction l as [| a l IH]; intros i H; cbn [usum utot].
  - reflexivity.
  - rewrite (accuracy_score_correct a)
      by (apply H; apply elem_of_cons; left; reflexivity).
    rewrite IH by (intros b Hb; apply H; apply elem_of_cons; right; exact Hb).
    ring.
Qed.

(** X8. For a window of at least 1 and a history that is not empty, the
    mastery is at most the confidence [n/(n+5)], where [n] is the number of
    attempts in the window (the smaller of the window and the length of the
    history), and it is exactly [n/(n+5)] when all of them are correct: one
    attempt gives at most 1/6. *)
Theorem mastery_at_most_confidence (topic_state : TopicState) (window : Z) :
  0 < window ->
  attempt_history topic_state <> [] ->
  let n := Z.min window (len (attempt_history topic_state)) in
  exists v : Q,
    compute_mastery topic_state window = Ok v /\
    (v <= inject_Z n / inject_Z (n + 5))%Q /\
    ((forall a,
        a ∈ last_n (Z.to_nat window) (attempt_history topic_state) ->
        is_correct a = true) ->
     (v == inject_Z n / inject_Z (n + 5))%Q).
Proof.
  intros Hw Hne n.
  set (recent := slice_from (attempt_history topic_state) (- window)).
  exists (mastery_value recent).
  split; [apply compute_mastery_value; exact Hne |].
  assert (Hn : len recent = n)
    by (apply len_slice_last_positive; exact Hw).
  assert (Hrec : recent = last_n (Z.to_nat window) (attempt_history topic_state))
    by (apply slice_last_positive; exact Hw).
  split.
  - rewrite <- Hn. apply mastery_value_bounds.
  - intros Hall. rewrite <- Hrec in Hall.
    assert (Hr : recent <> []).
    { rewrite Hrec. apply last_n_nonempty; [lia | exact Hne]. }
    rewrite (mastery_value_closed recent Hr), Hn.
    rewrite (usum_all_correct 0 recent Hall).
    pose proof (utot_pos 0 recent ltac:(lia) Hr) as HV.
    assert (H5 : (0 < inject_Z (n + 5))%Q).
    { apply inject_Z_pos. pose proof (len_nonneg recent). lia. }
    field. split; lra.
Qed.

(** X8, on an example. *)
Lemma mastery_at_most_confidence_witness :
  exists v : Q,
    compute_mastery (topic_of [make_attempt true None]) 10 = Ok v /\
    (v <= 1 # 6)%Q /\
    ((forall a, a ∈ last_n 10 [make_attempt true None] ->
                is_correct a = true) ->
     (v == 1 # 6)%Q).
Proof.
  apply (mastery_at_most_confidence (topic_of [make_attempt true None]) 10).
  - lia.
  - discriminate.
Defined.

Lemma usum_zero (i : Z) (l : list Attempt) :
  0 <= i ->
  ((usum i l == 0)%Q <-> forall a, a ∈ l -> (accuracy_score a == 0)%Q).
Proof.
  revert i. induction l as [| a l IH]; intros i Hi; cbn [usum].
  - split; [| reflexivity]. intros _ b Hb. apply elem_of_nil in Hb.
    contradiction.
  - destruct (accuracy_score_bounds a) as [Ha0 _].
    destruct (usum_bounds (i + 1) l ltac:(lia)) as [Hu0 _].
    pose proof (inject_Z_pos (i + 1) ltac:(lia)) as Hp.
    specialize (IH (i + 1) ltac:(lia)). split.
    + intros H b Hb.
      assert (Ha : (accuracy_score a == 0)%Q) by nra.
      apply elem_of_cons in Hb as [-> | Hb]; [exact Ha |].
      apply IH; [| exact Hb]. rewrite Ha in H. lra.
    + intros H.
      assert (Ha : (accuracy_score a == 0)%Q)
        by (apply H; apply elem_of_cons; left; reflexivity).
      assert (Hl : (usum (i + 1) l == 0)%Q).
      { apply IH. intros b Hb. apply H. apply elem_of_cons. right. exact Hb. }
      rewrite Ha, Hl. ring.
Qed.

Lemma accuracy_zero_conceptual (a : Attempt) :
  (accuracy_score a == 0)%Q <->
  is_correct a = false /\ error_type a = Some "conceptual".
Proof.
  unfold accuracy_score. split.
  - destruct (is_correct a);
      [intros H; exfalso; revert H; unfold Qeq; cbn; lia |].
    unfold accuracy_scores. cbn [dict_get].
    repeat case_decide;
      try (intros HQ; exfalso; revert HQ; unfold Qeq; cbn; lia).
    intros _. split; [reflexivity | congruence].
  - intros [-> ->]. reflexivity.
Qed.

(** X9. The mastery is 0 exactly when every attempt of the slice
    [attempts[-window:]] is incorrect with category conceptual; any other
    attempt in the slice makes it positive. *)
Theorem mastery_zero_iff_all_conceptual (topic_state : TopicState)
    (window : Z) :
  attempt_history topic_state <> [] ->
  exists v : Q,
    compute_mastery topic_state window = Ok v /\
    ((v == 0)%Q <->
     forall a, a ∈ slice_from (attempt_history topic_state) (- window) ->
               is_correct a = false /\ error_type a = Some "conceptual").
Proof.
  intros Hne.
  set (recent := slice_from (attempt_history topic_state) (- window)).
  exists (mastery_value recent).
  split; [apply compute_mastery_value; exact Hne |].
  destruct recent as [| r0 recent'] eqn:E.
  - split; [| reflexivity]. intros _ a Ha. apply elem_of_nil in Ha.
    contradiction.
  - rewrite <- E. assert (Hr : recent <> []) by (rewrite E; discriminate).
    rewrite (mastery_value_closed recent Hr).
    pose proof (utot_pos 0 recent ltac:(lia) Hr) as HV.
    destruct (usum_bounds 0 recent ltac:(lia)) as [HU0 HUV].
    assert (Hn : 0 < len recent).
    { rewrite E. unfold len. cbn [length]. lia. }
    pose proof (inject_Z_pos (len recent) Hn) as Hq.
    pose proof (inject_Z_pos (len recent + 5) ltac:(lia)) as Hq5.
    assert (Hu : (usum 0 recent / utot 0 recent
                  * (inject_Z (len recent) / inject_Z (len recent + 5)) == 0)%Q
                 <-> (usum 0 recent == 0)%Q).
    { split.
      - intros H.
        assert (Heq : (usum 0 recent ==
                       usum 0 recent / utot 0 recent
                       * (inject_Z (len recent) / inject_Z (len recent + 5))
                       * (utot 0 recent * inject_Z (len recent + 5)
                          / inject_Z (len recent)))%Q)
          by (field; repeat split; lra).
        rewrite Heq, H. field. lra.
      - intros H. rewrite H. field. split; lra. }
    rewrite Hu, (usum_zero 0 recent ltac:(lia)).
    split; intros H a Ha.
    + apply accuracy_zero_conceptual. apply H. exact Ha.
    + apply accuracy_zero_conceptual. apply H. exact Ha.
Qed.

(** X9, on an example. *)
Lemma mastery_zero_iff_all_conceptual_witness :
  exists v : Q,
    compute_mastery
      (topic_of (repeat (make_attempt false (Some "conceptual")) 5)) 10
    = Ok v /\
    ((v == 0)%Q <->
     forall a,
       a ∈ slice_from (repeat (make_attempt false (Some "conceptual")) 5)
             (- (10)) ->
       is_correct a = false /\ error_type a = Some "conceptual").
Proof.
  apply (mastery_zero_iff_all_conceptual
           (topic_of (repeat (make_attempt false (Some "conceptual")) 5)) 10).
  discriminate.
Defined.

(** ** Where the topics of the store come from *)

Lemma save_lookup (store : gmap string LearnerProfile) (p q : LearnerProfile)
    (id : string) :
  save_learner store p !! id = Some q -> q = p \/ store !! id = Some q.
Proof.
  unfold save_learner. rewrite lookup_insert.
  destruct (decide (learner_id p = id)); [intros [= <-]; left; reflexivity |].
  intros H. right. exact H.
Qed.

Lemma load_stored (store : gmap string LearnerProfile) (id key : string)
    (ts : TopicState) :
  topics (load_learner store id) !! key = Some ts -> stored store key ts.
Proof.
  unfold load_learner. destruct (store !! id) as [p |] eqn:E; cbn.
  - intros H. exists id, p. split; assumption.
  - rewrite lookup_empty. discriminate.
Qed.

Lemma topic_or_new_stored (store : gmap string LearnerProfile)
    (id key : string) :
  topic_or_new (load_learner store id) key = TopicState_default \/
  stored store key (topic_or_new (load_learner store id) key).
Proof.
  unfold topic_or_new.
  destruct (topics (load_learner store id) !! key) as [ts |] eqn:E; cbn.
  - right. apply (load_stored store id). exact E.
  - left. reflexivity.
Qed.

Lemma every_topic_stored (P : string -> TopicState -> Prop)
    (store : gmap string LearnerProfile) :
  every_topic P store <-> forall key ts, stored store key ts -> P key ts.
Proof.
  split.
  - intros H key ts (id & p & Hp & Hts). exact (H id p key ts Hp Hts).
  - intros H id p key ts Hp Hts. apply H. exists id, p. split; assumption.
Qed.

Section ToolLayerTopics.

Variable str_strip : string -> string.
Variable str_lower : string -> string.
Variable now_iso : nat -> string.
Variable fromisoformat : string -> Res datetime.
Variable rebuild_unified_graph : LearnerProfile -> LearnerProfile.

Hypothesis rebuild_keeps_topics :
  forall p, topics (rebuild_unified_graph p) = topics p.

Lemma add_topic_stored (names : list string) (t : gmap string TopicState)
    (key : string) (ts : TopicState) :
  fold_left (add_topic str_strip str_lower) names t !! key = Some ts ->
  t !! key = Some ts \/
  ((exists raw, key = _normalize_topic str_strip str_lower raw) /\
   ts = TopicState_default).
Proof.
  revert t. induction names as [| n names IH]; intros t H; [left; exact H |].
  cbn [fold_left] in H. apply IH in H. destruct H as [H | H]; [| right; exact H].
  unfold add_topic in H.
  destruct (t !! _normalize_topic str_strip str_lower n) eqn:E;
    [left; exact H |].
  rewrite lookup_insert in H.
  destruct (decide (_normalize_topic str_strip str_lower n = key)) as [<- | Hne].
  - injection H as <-. right. split; [exists n |]; reflexivity.
  - left. exact H.
Qed.

(** A topic state found in the store after a tool call was there before,
    or it sits under a normalized key and is a default state or comes from
    a default or stored state of that key by one [topic_change]. *)
Lemma perform_topic (op : Operation) (store : gmap string LearnerProfile)
    (k : nat) (key : string) (ts' : TopicState) :
  stored (fst (perform str_strip str_lower now_iso fromisoformat
                 rebuild_unified_graph op (store, k))) key ts' ->
  stored store key ts' \/
  ((exists raw, key = _normalize_topic str_strip str_lower raw) /\
   (ts' = TopicState_default \/
    exists ts, (ts = TopicState_default \/ stored store key ts) /\
               topic_change str_lower now_iso ts ts')).
Proof.
  intros (id' & q & Hq & Hts).
  assert (Hold : store !! id' = Some q -> stored store key ts')
    by (intros H; exists id', q; split; assumption).
  destruct op; cbn [perform] in Hq; try (left; apply Hold; exact Hq).
  - (* start_session *)
    unfold start_session in Hq. cbn [fst] in Hq.
    apply save_lookup in Hq as [-> | Hq]; [| left; apply Hold; exact Hq].
    cbn [topics] in Hts. rewrite lookup_insert in Hts.
    destruct (decide (_normalize_topic str_strip str_lower topic = key))
      as [<- | Hne].
    + injection Hts as <-. right. split; [exists topic; reflexivity |].
      right. eexists. split; [apply (topic_or_new_stored store id) |].
      apply session_started.
    + left. apply (load_stored store id). exact Hts.
  - (* record_attempt *)
    unfold record_attempt in Hq.
    destruct (compute_trajectory _ 5) as [traj | e] eqn:Et;
      [| left; apply Hold; exact Hq].
    destruct (compute_mastery _ 10) as [m | e] eqn:Em;
      [| left; apply Hold; exact Hq].
    cbn [fst] in Hq.
    apply save_lookup in Hq as [-> | Hq]; [| left; apply Hold; exact Hq].
    cbn [topics] in Hts. rewrite lookup_insert in Hts.
    destruct (decide (_normalize_topic str_strip str_lower topic = key))
      as [<- | Hne].
    + injection Hts as <-. right. split; [exists topic; reflexivity |].
      right. eexists. split; [apply (topic_or_new_stored store id) |].
      match goal with
      | |- topic_change _ _ ?t {| attempt_history := (_ ++ [?a])%list |} =>
          apply (attempt_recorded str_lower now_iso t a traj m)
      end.
      * exact Et.
      * rewrite <- Em. apply compute_mastery_history. reflexivity.
    + left. apply (load_stored store id). exact Hts.
  - (* update_topic_mastery *)
    unfold update_topic_mastery in Hq. cbn [fst] in Hq.
    apply save_lookup in Hq as [-> | Hq]; [| left; apply Hold; exact Hq].
    cbn [with_topics topics] in Hts. rewrite lookup_insert in Hts.
    destruct (decide (_normalize_topic str_strip str_lower topic = key))
      as [<- | Hne].
    + injection Hts as <-. right. split; [exists topic; reflexivity |].
      right. eexists. split; [apply (topic_or_new_stored store id) |].
      apply mastery_overridden.
    + left. apply (load_stored store id). exact Hts.
  - (* record_misconception *)
    unfold record_misconception in Hq.
    destruct (observe_again _ _ _ _) as [ms |] eqn:Eo; cbn [fst] in Hq;
      (apply save_lookup in Hq as [-> | Hq]; [| left; apply Hold; exact Hq]);
      cbn [with_topics topics] in Hts; rewrite lookup_insert in Hts;
      (destruct (decide (_normalize_topic str_strip str_lower topic = key))
         as [<- | Hne];
       [| left; apply (load_stored store id); exact Hts]);
      injection Hts as <-; right; (split; [exists topic; reflexivity |]);
      right; eexists; (split; [apply (topic_or_new_stored store id) |]).
    + eapply misconception_seen_again. exact Eo.
    + eapply misconception_added. exact Eo.
  - (* resolve_misconception *)
    unfold resolve_misconception in Hq.
    destruct (topics (load_learner store id) !! _) as [ts |] eqn:E;
      [| left; apply Hold; exact Hq].
    destruct (mark_resolved _ _ _ _) as [ms |] eqn:Em;
      [| left; apply Hold; exact Hq].
    cbn [fst] in Hq.
    apply save_lookup in Hq as [-> | Hq]; [| left; apply Hold; exact Hq].
    cbn [with_topics topics] in Hts. rewrite lookup_insert in Hts.
    destruct (decide (_normalize_topic str_strip str_lower topic = key))
      as [<- | Hne].
    + injection Hts as <-. right. split; [exists topic; reflexivity |].
      right. exists ts. split; [right; apply (load_stored store id); exact E |].
      eapply misconception_resolved. exact Em.
    + left. apply (load_stored store id). exact Hts.
  - (* store_topic_graph *)
    unfold store_topic_graph in Hq. cbn [fst] in Hq.
    apply save_lookup in Hq as [-> | Hq]; [| left; apply Hold; exact Hq].
    rewrite rebuild_keeps_topics in Hts. cbn [topics] in Hts.
    left. apply (load_stored store id). exact Hts.
  - (* add_topics *)
    unfold add_topics in Hq. cbn [fst] in Hq.
    apply save_lookup in Hq as [-> | Hq]; [| left; apply Hold; exact Hq].
    cbn [with_topics topics] in Hts.
    apply add_topic_stored in Hts as [Hts | [Hraw ->]].
    + left. apply (load_stored store id). exact Hts.
    + right. split; [exact Hraw | left; reflexivity].
  - (* delete_topic *)
    unfold delete_topic in Hq.
    destruct (topics (load_learner store id) !! _) as [ts |] eqn:E;
      [| left; apply Hold; exact Hq].
    cbn [fst] in Hq.
    apply save_lookup in Hq as [-> | Hq]; [| left; apply Hold; exact Hq].
    rewrite rebuild_keeps_topics in Hts. cbn [topics] in Hts.
    rewrite lookup_delete in Hts.
    destruct (decide (_normalize_topic str_strip str_lower topic = key));
      [discriminate |].
    left. apply (load_stored store id). exact Hts.
  - (* record_break *)
    unfold record_break in Hq.
    destruct (topics (load_learner store id) !! _) as [ts |] eqn:E;
      [| left; apply Hold; exact Hq].
    cbn [fst] in Hq.
    apply save_lookup in Hq as [-> | Hq]; [| left; apply Hold; exact Hq].
    cbn [topics] in Hts. rewrite lookup_insert in Hts.
    destruct (decide (_normalize_topic str_strip str_lower topic = key))
      as [<- | Hne].
    + injection Hts as <-. right. split; [exists topic; reflexivity |].
      right. exists ts. split; [right; apply (load_stored store id); exact E |].
      apply break_recorded.
    + left. apply (load_stored store id). exact Hts.
  - (* end_session *)
    unfold end_session in Hq.
    destruct (last (session_history (load_learner store id))) as [cur |].
    + destruct (_session_duration_minutes _ _ _);
        [| left; apply Hold; exact Hq].
      cbn [fst] in Hq.
      apply save_lookup in Hq as [-> | Hq]; [| left; apply Hold; exact Hq].
      cbn [topics] in Hts. left. apply (load_stored store id). exact Hts.
    + cbn [fst] in Hq.
      apply save_lookup in Hq as [-> | Hq]; [| left; apply Hold; exact Hq].
      left. apply (load_stored store id). exact Hts.
  - (* the REST delete *)
    unfold app_delete_topic in Hq.
    destruct (store !! id) as [p |] eqn:E; [| left; apply Hold; exact Hq].
    destruct (topics p !! _) as [ts |] eqn:Et; [| left; apply Hold; exact Hq].
    cbn [fst] in Hq. rewrite lookup_insert in Hq.
    destruct (decide (id = id')) as [<- | Hne]; [| left; apply Hold; exact Hq].
    injection Hq as <-. cbn [topics] in Hts. rewrite lookup_delete in Hts.
    match type of Hts with
    | context [decide (?a = ?b)] => destruct (decide (a = b)); [discriminate |]
    end.
    left. exists id, p. split; assumption.
Qed.

(** A property of topics that holds of the default state under a normalized
    key and that every [topic_change] keeps is kept by every tool. *)
Lemma perform_keeps_topics (P : string -> TopicState -> Prop)
    (op : Operation) (store : gmap string LearnerProfile) (k : nat) :
  (forall raw, P (_normalize_topic str_strip str_lower raw) TopicState_default) ->
  (forall raw ts ts',
     P (_normalize_topic str_strip str_lower raw) ts ->
     topic_change str_lower now_iso ts ts' ->
     P (_normalize_topic str_strip str_lower raw) ts') ->
  every_topic P store ->
  every_topic P (fst (perform str_strip str_lower now_iso fromisoformat
                        rebuild_unified_graph op (store, k))).
Proof.
  intros Hdef Hstep Hs. rewrite every_topic_stored in Hs |- *.
  intros key ts' H. apply perform_topic in H.
  destruct H as [H | [[raw ->] [-> | (ts & [-> | Hts] & Hc)]]].
  - apply Hs. exact H.
  - apply Hdef.
  - apply (Hstep raw _ _ (Hdef raw) Hc).
  - apply (Hstep raw _ _ (Hs _ _ Hts) Hc).
Qed.

Lemma perform_all_keeps_topics (P : string -> TopicState -> Prop)
    (ops : list Operation) (store : gmap string LearnerProfile) (k : nat) :
  (forall raw, P (_normalize_topic str_strip str_lower raw) TopicState_default) ->
  (forall raw ts ts',
     P (_normalize_topic str_strip str_lower raw) ts ->
     topic_change str_lower now_iso ts ts' ->
     P (_normalize_topic str_strip str_lower raw) ts') ->
  every_topic P store ->
  every_topic P (fst (perform_all str_strip str_lower now_iso fromisoformat
                        rebuild_unified_graph ops (store, k))).
Proof.
  intros Hdef Hstep. revert store k.
  induction ops as [| op ops IH]; intros store k Hs; [exact Hs |].
  unfold perform_all. cbn [fold_left].
  pose proof (perform_keeps_topics P op store k Hdef Hstep Hs) as H1.
  destruct (perform str_strip str_lower now_iso fromisoformat
              rebuild_unified_graph op (store, k)) as [store' k'].
  apply IH. exact H1.
Qed.

End ToolLayerTopics.

(** ** Invariants of the break state *)

Lemma severity_in_range (error_type : option string) :
  0 <= dict_get ERROR_SEVERITY error_type 2 <= 3.
Proof.
  unfold ERROR_SEVERITY. cbn [dict_get]. repeat case_decide; lia.
Qed.

Lemma break_state_after_attempt_ok (bs : BreakState) (is_correct : bool)
    (error_type : option string) :
  break_state_ok bs ->
  break_state_ok (break_state_after_attempt bs is_correct error_type).
Proof.
  intros (Hlen & Hall & Hce & Hbt). unfold break_state_after_attempt.
  destruct is_correct.
  - unfold break_state_ok.
    cbn [error_severity_trend consecutive_errors breaks_taken].
    split_and!; [assumption | assumption | lia | assumption].
  - unfold break_state_ok.
    cbn [error_severity_trend consecutive_errors breaks_taken].
    set (trend := (error_severity_trend bs
                   ++ [dict_get ERROR_SEVERITY error_type 2])%list).
    assert (Hall' : Forall (fun s => 0 <= s <= 3) trend).
    { apply Forall_app. split; [exact Hall |].
      constructor; [apply severity_in_range | constructor]. }
    split; [| split; [| split; [lia | exact Hbt]]].
    + destruct (Z.ltb_spec 10 (len trend)) as [H | H]; [| exact H].
      change (-10) with (- (10)).
      rewrite len_slice_last_positive by lia. lia.
    + destruct (10 <? len trend); [| exact Hall'].
      unfold slice_from. apply Forall_drop. exact Hall'.
Qed.

(** X10. In every store the tools build, the severity trend of each topic
    holds at most ten entries, each between 0 and 3, and the counters of
    consecutive errors and of breaks are not negative: the property holds of
    the empty store and every sequence of tool calls keeps it.
    [rebuild_unified_graph] is assumed to leave the topic states alone. *)
Theorem break_state_invariant
    (str_strip str_lower : string -> string) (now_iso : nat -> string)
    (fromisoformat : string -> Res datetime)
    (rebuild_unified_graph : LearnerProfile -> LearnerProfile) :
  (forall p, topics (rebuild_unified_graph p) = topics p) ->
  every_topic (fun _ ts => break_state_ok (break_state ts)) ∅ /\
  forall (ops : list Operation) (store : gmap string LearnerProfile)
         (k : nat),
    every_topic (fun _ ts => break_state_ok (break_state ts)) store ->
    every_topic (fun _ ts => break_state_ok (break_state ts))
      (fst (perform_all str_strip str_lower now_iso fromisoformat
              rebuild_unified_graph ops (store, k))).
Proof.
  intros Hrebuild. split.
  - intros id p topic ts H. rewrite lookup_empty in H. discriminate.
  - intros ops store k. apply perform_all_keeps_topics; [exact Hrebuild | |].
    + intros _. unfold break_state_ok, len.
      cbn [TopicState_default BreakState_default break_state
           error_severity_trend consecutive_errors breaks_taken length].
      split_and!; [lia | constructor | lia | lia].
    + intros _ ts ts' H Hc. destruct Hc; cbn [break_state with_break_state
        with_misconceptions]; try exact H.
      * destruct H as (_ & _ & _ & Hbt). unfold break_state_ok, len.
        cbn [error_severity_trend consecutive_errors breaks_taken length].
        split_and!; [lia | constructor | lia | exact Hbt].
      * apply break_state_after_attempt_ok. exact H.
      * destruct H as (_ & _ & _ & Hbt). unfold break_state_ok, len.
        cbn [error_severity_trend consecutive_errors breaks_taken length].
        split_and!; [lia | constructor | lia | lia].
Qed.

(** X10, on an example. *)
Lemma break_state_invariant_witness :
  every_topic (fun _ ts => break_state_ok (break_state ts))
    (fst (perform_all same_string same_string ten_o_clock example_times
            same_profile struggling_session (∅, 0%nat))).
Proof.
  apply (break_state_invariant same_string same_string ten_o_clock
           example_times same_profile).
  - intros p. reflexivity.
  - intros id p topic ts H. rewrite lookup_empty in H. discriminate.
Defined.

(** X11. No tool records the time of a break suggestion or changes the
    cooldown: in every store the tools build, each break state has no
    [last_break_suggestion] and the default cooldown of 10 minutes (the
    property holds of the empty store and every sequence of tool calls keeps
    it), and on such a break state the cooldown guard of
    [check_break_needed] answers "not cooling down" without reading the
    clock.  [rebuild_unified_graph] is assumed to leave the topic states
    alone. *)
Theorem suggestion_never_recorded
    (str_strip str_lower : string -> string) (now_iso : nat -> string)
    (fromisoformat : string -> Res datetime)
    (rebuild_unified_graph : LearnerProfile -> LearnerProfile) :
  (forall p, topics (rebuild_unified_graph p) = topics p) ->
  every_topic (fun _ ts => never_suggested (break_state ts)) ∅ /\
  (forall (ops : list Operation) (store : gmap string LearnerProfile)
          (k : nat),
     every_topic (fun _ ts => never_suggested (break_state ts)) store ->
     every_topic (fun _ ts => never_suggested (break_state ts))
       (fst (perform_all str_strip str_lower now_iso fromisoformat
               rebuild_unified_graph ops (store, k)))) /\
  forall (bs : BreakState) (clock : nat -> Z) (k : nat),
    never_suggested bs ->
    in_cooldown fromisoformat clock bs k = Ok (false, k).
Proof.
  intros Hrebuild. split; [| split].
  - intros id p topic ts H. rewrite lookup_empty in H. discriminate.
  - intros ops store k. apply perform_all_keeps_topics; [exact Hrebuild | |].
    + intros _. split; reflexivity.
    + intros _ ts ts' H Hc. destruct Hc; cbn [break_state with_break_state
        with_misconceptions]; try exact H.
      unfold break_state_after_attempt.
      destruct (is_correct a); exact H.
  - intros bs clock k [Hs _]. unfold in_cooldown. rewrite Hs. reflexivity.
Qed.

(** X11, on an example. *)
Lemma suggestion_never_recorded_witness :
  every_topic (fun _ ts => never_suggested (break_state ts))
    (fst (perform_all same_string same_string ten_o_clock example_times
            same_profile struggling_session (∅, 0%nat))).
Proof.
  apply (suggestion_never_recorded same_string same_string ten_o_clock
           example_times same_profile).
  - intros p. reflexivity.
  - intros id p topic ts H. rewrite lookup_empty in H. discriminate.
Defined.

(** ** The stored mastery *)

Lemma clamp_unit_bounds (x : Q) :
  (0 <= clamp_unit x)%Q /\ (clamp_unit x <= 1)%Q.
Proof.
  unfold clamp_unit.
  destruct (Qlt_le_dec x 1) as [H1 | H1].
  - destruct (Qlt_le_dec 0 x) as [H0 | H0]; split; lra.
  - destruct (Qlt_le_dec 0 1) as [H0 | H0]; split; lra.
Qed.

(** X12. The stored mastery of every topic lies between 0 and 1: the
    property holds of the empty store and every sequence of tool calls,
    the manual override [update_topic_mastery] included, keeps it.
    [rebuild_unified_graph] is assumed to leave the topic states alone;
    floats are exact rationals. *)
Theorem stored_mastery_in_unit
    (str_strip str_lower : string -> string) (now_iso : nat -> string)
    (fromisoformat : string -> Res datetime)
    (rebuild_unified_graph : LearnerProfile -> LearnerProfile) :
  (forall p, topics (rebuild_unified_graph p) = topics p) ->
  every_topic (fun _ ts => mastery_in_unit ts) ∅ /\
  forall (ops : list Operation) (store : gmap string LearnerProfile)
         (k : nat),
    every_topic (fun _ ts => mastery_in_unit ts) store ->
    every_topic (fun _ ts => mastery_in_unit ts)
      (fst (perform_all str_strip str_lower now_iso fromisoformat
              rebuild_unified_graph ops (store, k))).
Proof.
  intros Hrebuild. split.
  - intros id p topic ts H. rewrite lookup_empty in H. discriminate.
  - intros ops store k. apply perform_all_keeps_topics; [exact Hrebuild | |].
    + intros _. unfold mastery_in_unit. cbn [TopicState_default mastery_level].
      split; lra.
    + intros _ ts ts' H Hc. unfold mastery_in_unit in *.
      destruct Hc as [| ts a traj m Ht Hm | | | | |];
        cbn [mastery_level with_break_state with_misconceptions];
        try exact H.
      * rewrite compute_mastery_value in Hm
          by (cbn [topic_of attempt_history];
              destruct (attempt_history ts); discriminate).
        injection Hm as <-.
        destruct (mastery_value_bounds
                    (slice_from
                       (attempt_history
                          (topic_of (attempt_history ts ++ [a])%list))
                       (- (10)))) as (Hge & _ & Hlt).
        split; [exact Hge |]. apply Qlt_le_weak. exact Hlt.
      * apply clamp_unit_bounds.
Qed.

(** X12, on an example. *)
Lemma stored_mastery_in_unit_witness :
  every_topic (fun _ ts => mastery_in_unit ts)
    (fst (perform_all same_string same_string ten_o_clock example_times
            same_profile struggling_session (∅, 0%nat))).
Proof.
  apply (stored_mastery_in_unit same_string same_string ten_o_clock
           example_times same_profile).
  - intros p. reflexivity.
  - intros id p topic ts H. rewrite lookup_empty in H. discriminate.
Defined.

(** ** Misconceptions *)

Lemma observe_again_descriptions (str_lower : string -> string)
    (now descr : string) (ms ms' : list Misconception) :
  observe_again str_lower now descr ms = Some ms' ->
  map (fun m => str_lower (description m)) ms'
  = map (fun m => str_lower (description m)) ms.
Proof.
  revert ms'. induction ms as [| m ms IH]; intros ms' H; [discriminate |].
  cbn [observe_again] in H.
  destruct (String.eqb _ _).
  - injection H as <-. reflexivity.
  - destruct (observe_again str_lower now descr ms) as [r |]; [| discriminate].
    injection H as <-. cbn [map]. f_equal. apply IH. reflexivity.
Qed.

Lemma mark_resolved_descriptions (str_lower : string -> string)
    (now descr : string) (ms ms' : list Misconception) :
  mark_resolved str_lower now descr ms = Some ms' ->
  map (fun m => str_lower (description m)) ms'
  = map (fun m => str_lower (description m)) ms.
Proof.
  revert ms'. induction ms as [| m ms IH]; intros ms' H; [discriminate |].
  cbn [mark_resolved] in H.
  destruct (String.eqb _ _).
  - injection H as <-. reflexivity.
  - destruct (mark_resolved str_lower now descr ms) as [r |]; [| discriminate].
    injection H as <-. cbn [map]. f_equal. apply IH. reflexivity.
Qed.

Lemma observe_again_none (str_lower : string -> string)
    (now descr : string) (ms : list Misconception) :
  observe_again str_lower now descr ms = None ->
  str_lower descr ∉ map (fun m => str_lower (description m)) ms.
Proof.
  induction ms as [| m ms IH]; intros H; [apply not_elem_of_nil |].
  cbn [observe_again] in H.
  destruct (String.eqb_spec (str_lower (description m)) (str_lower descr))
    as [E | E]; [discriminate |].
  destruct (observe_again str_lower now descr ms) as [r |]; [discriminate |].
  cbn [map]. apply not_elem_of_cons. split; [congruence | apply IH; reflexivity].
Qed.

(** X13. The misconceptions of a topic never hold two descriptions that are
    equal when case is ignored: [record_misconception] counts a description
    it has seen before instead of storing it again.  The property holds of
    the empty store and every sequence of tool calls keeps it.
    [rebuild_unified_graph] is assumed to leave the topic states alone. *)
Theorem misconceptions_stay_distinct
    (str_strip str_lower : string -> string) (now_iso : nat -> string)
    (fromisoformat : string -> Res datetime)
    (rebuild_unified_graph : LearnerProfile -> LearnerProfile) :
  (forall p, topics (rebuild_unified_graph p) = topics p) ->
  every_topic
    (fun _ ts => distinct_descriptions str_lower (misconceptions ts)) ∅ /\
  forall (ops : list Operation) (store : gmap string LearnerProfile)
         (k : nat),
    every_topic
      (fun _ ts => distinct_descriptions str_lower (misconceptions ts))
      store ->
    every_topic
      (fun _ ts => distinct_descriptions str_lower (misconceptions ts))
      (fst (perform_all str_strip str_lower now_iso fromisoformat
              rebuild_unified_graph ops (store, k))).
Proof.
  intros Hrebuild. split.
  - intros id p topic ts H. rewrite lookup_empty in H. discriminate.
  - intros ops store k. apply perform_all_keeps_topics; [exact Hrebuild | |].
    + intros _. apply NoDup_nil_2.
    + intros _ ts ts' H Hc. unfold distinct_descriptions in *.
      destruct Hc as [| | | ts n descr ms Ho | ts n descr Ho
                      | ts n descr ms Hm |];
        cbn [misconceptions with_break_state with_misconceptions];
        try exact H.
      * rewrite (observe_again_descriptions _ _ _ _ _ Ho). exact H.
      * rewrite map_app. apply NoDup_app. split; [exact H |]. split.
        -- intros x Hx Hin. cbn [map description] in Hin.
           apply list_elem_of_singleton in Hin. subst x.
           exact (observe_again_none _ _ _ _ Ho Hx).
        -- apply NoDup_singleton.
      * rewrite (mark_resolved_descriptions _ _ _ _ _ Hm). exact H.
Qed.

(** X13, on an example. *)
Lemma misconceptions_stay_distinct_witness :
  every_topic
    (fun _ ts => distinct_descriptions same_string (misconceptions ts))
    (fst (perform_all same_string same_string ten_o_clock example_times
            same_profile struggling_session (∅, 0%nat))).
Proof.
  apply (misconceptions_stay_distinct same_string same_string ten_o_clock
           example_times same_profile).
  - intros p. reflexivity.
  - intros id p topic ts H. rewrite lookup_empty in H. discriminate.
Defined.

(** ** Topic keys *)

Lemma normalized_no_separator (s : string) :
  no_separator (replace_char "-"%char "_"%char
                  (replace_char " "%char "_"%char s)).
Proof.
  induction s as [| c s IH]; [exact I |].
  cbn [replace_char no_separator].
  destruct (Ascii.eqb_spec c " "%char) as [-> | Hs].
  - cbn. split; [discriminate | split; [discriminate | exact IH]].
  - destruct (Ascii.eqb_spec c "-"%char) as [-> | Hh].
    + split; [discriminate | split; [discriminate | exact IH]].
    + split; [exact Hs | split; [exact Hh | exact IH]].
Qed.

(** X14. Every topic a tool stores sits under a normalized key, one without
    a space or a hyphen, whatever the caller wrote: the property holds of
    the empty store and every sequence of tool calls keeps it.
    [rebuild_unified_graph] is assumed to leave the topic states alone;
    [str.strip] and [str.lower] are arbitrary functions. *)
Theorem topic_keys_normalized
    (str_strip str_lower : string -> string) (now_iso : nat -> string)
    (fromisoformat : string -> Res datetime)
    (rebuild_unified_graph : LearnerProfile -> LearnerProfile) :
  (forall p, topics (rebuild_unified_graph p) = topics p) ->
  every_topic (fun key _ => no_separator key) ∅ /\
  forall (ops : list Operation) (store : gmap string LearnerProfile)
         (k : nat),
    every_topic (fun key _ => no_separator key) store ->
    every_topic (fun key _ => no_separator key)
      (fst (perform_all str_strip str_lower now_iso fromisoformat
              rebuild_unified_graph ops (store, k))).
Proof.
  intros Hrebuild. split.
  - intros id p topic ts H. rewrite lookup_empty in H. discriminate.
  - intros ops store k. apply perform_all_keeps_topics; [exact Hrebuild | |].
    + intros raw. apply normalized_no_separator.
    + intros raw ts ts' H _. exact H.
Qed.

(** X14, on an example. *)
Lemma topic_keys_normalized_witness :
  every_topic (fun key _ => no_separator key)
    (fst (perform_all same_string same_string ten_o_clock example_times
            same_profile struggling_session (∅, 0%nat))).
Proof.
  apply (topic_keys_normalized same_string same_string ten_o_clock
           example_times same_profile).
  - intros p. reflexivity.
  - intros id p topic ts H. rewrite lookup_empty in H. discriminate.
Defined.

(** ** The session history *)

Lemma length_update_last {A : Type} (f : A -> A) (l : list A) :
  length (update_last f l) = length l.
Proof.
  induction l as [| x l IH]; [reflexivity |].
  destruct l as [| y l]; [reflexivity |].
  change (update_last f (x :: y :: l)) with (x :: update_last f (y :: l)).
  cbn [length] in *. rewrite IH. reflexivity.
Qed.

Lemma update_last_lookup {A : Type} (f : A -> A) (l : list A) (i : nat)
    (s : A) :
  update_last f l !! i = Some s ->
  exists s0, l !! i = Some s0 /\ (s = s0 \/ s = f s0).
Proof.
  revert i. induction l as [| x l IH]; intros i H; [discriminate |].
  destruct l as [| y l].
  - destruct i as [| i]; [| discriminate].
    injection H as <-. exists x. split; [reflexivity | right; reflexivity].
  - change (update_last f (x :: y :: l)) with (x :: update_last f (y :: l))
      in H.
    destruct i as [| i].
    + injection H as <-. exists x. split; [reflexivity | left; reflexivity].
    + apply (IH i). exact H.
Qed.

Lemma sessions_ok_new (id : string) : sessions_ok (LearnerProfile_new id).
Proof. split; [reflexivity |]. intros i s H. discriminate H. Qed.

Lemma sessions_ok_same (p p' : LearnerProfile) :
  session_count p' = session_count p ->
  session_history p' = session_history p ->
  sessions_ok p -> sessions_ok p'.
Proof.
  intros Hc Hh [H1 H2]. unfold sessions_ok. rewrite Hc, Hh.
  split; assumption.
Qed.

Lemma sessions_ok_update_last (p p' : LearnerProfile)
    (f : SessionSummary -> SessionSummary) :
  session_count p' = session_count p ->
  session_history p' = update_last f (session_history p) ->
  (forall s,
     session_number (f s) = session_number s /\
     (0 <= correct_count s <= attempts_count s ->
      0 <= correct_count (f s) <= attempts_count (f s)) /\
     (0 <= ss_breaks_taken s -> 0 <= ss_breaks_taken (f s))) ->
  sessions_ok p -> sessions_ok p'.
Proof.
  intros Hc Hh Hf [H1 H2]. unfold sessions_ok. rewrite Hc, Hh. split.
  - unfold len in *. rewrite length_update_last. exact H1.
  - intros i s H. apply update_last_lookup in H as (s0 & Hs0 & [-> | ->]).
    + exact (H2 i s0 Hs0).
    + destruct (H2 i s0 Hs0) as (Hn & Hcnt & Hb).
      destruct (Hf s0) as (Hf1 & Hf2 & Hf3).
      split; [rewrite Hf1; exact Hn |]. split; [apply Hf2 | apply Hf3]; assumption.
Qed.

Lemma every_profile_load (P : LearnerProfile -> Prop)
    (store : gmap string LearnerProfile) (id : string) :
  P (LearnerProfile_new id) -> every_profile P store ->
  P (load_learner store id).
Proof.
  intros Hnew Hs. unfold load_learner.
  destruct (store !! id) as [p |] eqn:E; cbn; [exact (Hs id p E) | exact Hnew].
Qed.

Lemma every_profile_insert (P : LearnerProfile -> Prop)
    (store : gmap string LearnerProfile) (id : string) (p : LearnerProfile) :
  every_profile P store -> P p -> every_profile P (<[id := p]> store).
Proof.
  intros Hs Hp id' p' H. rewrite lookup_insert in H.
  destruct (decide (id = id')); [injection H as <-; exact Hp |].
  exact (Hs id' p' H).
Qed.

Section ToolLayerSessions.

Variable str_strip : string -> string.
Variable str_lower : string -> string.
Variable now_iso : nat -> string.
Variable fromisoformat : string -> Res datetime.
Variable rebuild_unified_graph : LearnerProfile -> LearnerProfile.

Hypothesis rebuild_keeps_sessions :
  forall p,
    session_count (rebuild_unified_graph p) = session_count p /\
    session_history (rebuild_unified_graph p) = session_history p.

Lemma perform_keeps_sessions (op : Operation)
    (store : gmap string LearnerProfile) (k : nat) :
  every_profile sessions_ok store ->
  every_profile sessions_ok
    (fst (perform str_strip str_lower now_iso fromisoformat
            rebuild_unified_graph op (store, k))).
Proof.
  intros Hs.
  assert (Hload : forall id, sessions_ok (load_learner store id))
    by (intros id; apply every_profile_load;
        [apply sessions_ok_new | exact Hs]).
  destruct op; cbn [perform]; try exact Hs.
  - (* start_session *)
    unfold start_session. cbn [fst]. apply every_profile_insert; [exact Hs |].
    destruct (Hload id) as [H1 H2]. split; cbn [session_count session_history].
    + rewrite len_app_one. lia.
    + intros i s H. apply lookup_app_Some in H as [H | [Hi H]].
      * exact (H2 i s H).
      * destruct (i - length (session_history (load_learner store id)))%nat
          as [| j] eqn:Ej; [| destruct j; discriminate H].
        injection H as <-. cbn. unfold len in H1. split; [lia | lia].
  - (* record_attempt *)
    unfold record_attempt.
    destruct (compute_trajectory _ 5) as [traj | e]; [| exact Hs].
    destruct (compute_mastery _ 10) as [m | e]; [| exact Hs].
    cbn [fst]. apply every_profile_insert; [exact Hs |].
    eapply (sessions_ok_update_last (load_learner store id));
      [reflexivity | reflexivity | | apply Hload].
    intros s. cbn. split; [reflexivity |]. split; [| intros H; exact H].
    destruct correct; lia.
  - (* update_topic_mastery *)
    unfold update_topic_mastery. cbn [fst].
    apply every_profile_insert; [exact Hs |].
    eapply sessions_ok_same; [| | apply (Hload id)]; reflexivity.
  - (* record_misconception *)
    unfold record_misconception.
    destruct (observe_again _ _ _ _); cbn [fst];
      (apply every_profile_insert; [exact Hs |]);
      (eapply sessions_ok_same; [| | apply (Hload id)]; reflexivity).
  - (* resolve_misconception *)
    unfold resolve_misconception.
    destruct (topics (load_learner store id) !! _); [| exact Hs].
    destruct (mark_resolved _ _ _ _); [| exact Hs].
    cbn [fst]. apply every_profile_insert; [exact Hs |].
    eapply sessions_ok_same; [| | apply (Hload id)]; reflexivity.
  - (* store_topic_graph *)
    unfold store_topic_graph. cbn [fst].
    apply every_profile_insert; [exact Hs |].
    eapply sessions_ok_same; [| | apply (Hload id)];
      [etransitivity; [apply (proj1 (rebuild_keeps_sessions _)) |]
      | etransitivity; [apply (proj2 (rebuild_keeps_sessions _)) |]];
      reflexivity.
  - (* add_topics *)
    unfold add_topics. cbn [fst]. apply every_profile_insert; [exact Hs |].
    eapply sessions_ok_same; [| | apply (Hload id)]; reflexivity.
  - (* delete_topic *)
    unfold delete_topic.
    destruct (topics (load_learner store id) !! _); [| exact Hs].
    cbn [fst]. apply every_profile_insert; [exact Hs |].
    eapply sessions_ok_same; [| | apply (Hload id)];
      [etransitivity; [apply (proj1 (rebuild_keeps_sessions _)) |]
      | etransitivity; [apply (proj2 (rebuild_keeps_sessions _)) |]];
      reflexivity.
  - (* record_break *)
    unfold record_break.
    destruct (topics (load_learner store id) !! _); [| exact Hs].
    cbn [fst]. apply every_profile_insert; [exact Hs |].
    eapply (sessions_ok_update_last (load_learner store id));
      [reflexivity | reflexivity | | apply Hload].
    intros s. cbn. split; [reflexivity |]. split; [intros H; exact H | lia].
  - (* end_session *)
    unfold end_session.
    destruct (last (session_history (load_learner store id))) as [cur |].
    + destruct (_session_duration_minutes _ _ _); [| exact Hs].
      cbn [fst]. apply every_profile_insert; [exact Hs |].
      eapply (sessions_ok_update_last (load_learner store id));
        [reflexivity | reflexivity | | apply Hload].
      intros s. cbn. split; [reflexivity |]. split; intros H; exact H.
    + cbn [fst]. apply every_profile_insert; [exact Hs | apply Hload].
  - (* the REST delete *)
    unfold app_delete_topic.
    destruct (store !! id) as [p |] eqn:E; [| exact Hs].
    destruct (topics p !! _); [| exact Hs].
    cbn [fst]. apply every_profile_insert; [exact Hs |].
    eapply sessions_ok_same; [| | apply (Hs id p E)]; reflexivity.
Qed.

End ToolLayerSessions.

(** X15. Each document numbers its sessions 1, 2, ... in the order they
    were started, its session count is the number of session summaries, and
    no summary counts more correct attempts than attempts (so the accuracy
    [end_session] reports is at most 1): the property holds of the empty
    store and every sequence of tool calls keeps it.
    [rebuild_unified_graph] is assumed to leave the session count and the
    session history alone. *)
Theorem sessions_numbered_in_order
    (str_strip str_lower : string -> string) (now_iso : nat -> string)
    (fromisoformat : string -> Res datetime)
    (rebuild_unified_graph : LearnerProfile -> LearnerProfile) :
  (forall p,
     session_count (rebuild_unified_graph p) = session_count p /\
     session_history (rebuild_unified_graph p) = session_history p) ->
  every_profile sessions_ok ∅ /\
  forall (ops : list Operation) (store : gmap string LearnerProfile)
         (k : nat),
    every_profile sessions_ok store ->
    every_profile sessions_ok
      (fst (perform_all str_strip str_lower now_iso fromisoformat
              rebuild_unified_graph ops (store, k))).
Proof.
  intros Hrebuild. split.
  - intros id p H. rewrite lookup_empty in H. discriminate.
  - intros ops. induction ops as [| op ops IH]; intros store k Hs;
      [exact Hs |].
    unfold perform_all. cbn [fold_left].
    pose proof (perform_keeps_sessions str_strip str_lower now_iso
                  fromisoformat rebuild_unified_graph Hrebuild op store k Hs)
      as H1.
    destruct (perform str_strip str_lower now_iso fromisoformat
                rebuild_unified_graph op (store, k)) as [store' k'].
    apply IH. exact H1.
Qed.

(** X15, on an example. *)
Lemma sessions_numbered_in_order_witness :
  every_profile sessions_ok
    (fst (perform_all same_string same_string ten_o_clock example_times
            same_profile struggling_session (∅, 0%nat))).
Proof.
  apply (sessions_numbered_in_order same_string same_string ten_o_clock
           example_times same_profile).
  - intros p. split; reflexivity.
  - intros id p H. rewrite lookup_empty in H. discriminate.
Defined.

(** ** One document per learner *)

Lemma keyed_load (store : gmap string LearnerProfile) (id : string) :
  keyed store -> learner_id (load_learner store id) = id.
Proof.
  intros H. unfold load_learner.
  destruct (store !! id) as [p |] eqn:E; cbn; [exact (H id p E) | reflexivity].
Qed.

(** A document saved under its learner's identifier is the one loaded
    for that learner. *)
Lemma load_saved (store : gmap string LearnerProfile) (p : LearnerProfile)
    (id : string) :
  learner_id p = id -> load_learner (save_learner store p) id = p.
Proof.
  intros <-. unfold load_learner, save_learner. rewrite lookup_insert_eq.
  reflexivity.
Qed.

Section ToolLayerLearners.

Variable str_strip : string -> string.
Variable str_lower : string -> string.
Variable now_iso : nat -> string.
Variable fromisoformat : string -> Res datetime.
Variable rebuild_unified_graph : LearnerProfile -> LearnerProfile.

Hypothesis rebuild_keeps_learner :
  forall p, learner_id (rebuild_unified_graph p) = learner_id p.




End ToolLayerLearners.



(** The condition is needed: a document filed under another identifier
    makes a call about ann overwrite the document of bob. *)
Lemma misfiled_document_overwrites :
  let bob := LearnerProfile_new "bob" in
  let store : gmap string LearnerProfile := {[ "ann" := bob ]} in
  ~ keyed store /\
  fst (add_topics same_string same_string "ann" ["algebra"] (store, 0%nat))
    !! "bob" <> store !! "bob".
Proof.
  cbv zeta. split.
  - intros H. specialize (H "ann" _ (lookup_singleton_eq _ _)). discriminate H.
  - unfold add_topics. cbn [fst]. unfold save_learner, load_learner.
    rewrite lookup_singleton_eq. cbn [default with_topics learner_id].
    rewrite lookup_insert_eq. rewrite lookup_singleton_ne by discriminate.
    discriminate.
Qed.

(** ** add_topics *)




(** ** get_assessment *)

Lemma computed_mastery_bound (ts : TopicState) (v : Q) :
  compute_mastery ts 10 = Ok v -> (v <= 10 # 15)%Q.
Proof.
  destruct (attempt_history ts) as [| a h] eqn:E.
  - rewrite compute_mastery_empty by exact E. intros [= <-]. discriminate.
  - rewrite compute_mastery_value by (rewrite E; discriminate).
    intros [= <-].
    set (recent := slice_from (attempt_history ts) (- (10))).
    destruct (mastery_value_bounds recent) as (_ & Hb & _).
    assert (Hn : len recent <= 10).
    { pose proof (len_slice_last_positive (attempt_history ts) 10
                    ltac:(lia)) as Hl.
      fold recent in Hl. lia. }
    pose proof (len_nonneg recent) as Hn0.
    apply (Qle_trans _ _ _ Hb).
    apply Qle_shift_div_r; [apply inject_Z_pos; lia |].
    unfold Qle. simpl. lia.
Qed.

Lemma weak_mastery_never_advances
    (fromisoformat : string -> Res datetime) (clock : nat -> Z)
    (trajectory : string) (dominant_error : option string) (v : Q)
    (topic_graph : option TopicGraph) (topic : string)
    (break_state : option BreakState) (k k' : nat) :
  (v <= 10 # 15)%Q ->
  compute_recommendation fromisoformat clock trajectory dominant_error v
    topic_graph topic break_state k <> Ok (advance, k').
Proof.
  intros Hle Hc.
  assert (Hguard : Qle_bool (85 # 100) v = false).
  { destruct (Qle_bool (85 # 100) v) eqn:E; [| reflexivity].
    apply Qle_bool_iff in E. exfalso.
    apply (Qlt_not_le (10 # 15) (85 # 100)); [reflexivity |].
    apply (Qle_trans _ v); assumption. }
  assert (Hrule : forall check : option BreakCheck,
             rule_advance
               (signals trajectory dominant_error v topic_graph topic
                  break_state check) = None).
  { intros check. unfold rule_advance. cbn [signals sig_mastery].
    rewrite Hguard, andb_false_r. reflexivity. }
  pose proof (compute_recommendation_rules fromisoformat clock trajectory
                dominant_error v topic_graph topic break_state k) as H.
  destruct break_state as [bs |].
  - destruct (check_break_needed fromisoformat clock bs trajectory k)
      as [[c k''] | e]; [| congruence].
    destruct H as (r & Hm & Hr). rewrite Hr in Hc. injection Hc as -> ->.
    apply first_match_advance in Hm. rewrite Hrule in Hm. discriminate.
  - destruct H as (r & Hm & Hr). rewrite Hr in Hc. injection Hc as -> ->.
    apply first_match_advance in Hm. rewrite Hrule in Hm. discriminate.
Qed.

(** X18. On a store whose derived fields agree with the histories (every
    store built without the manual override), [get_assessment] never
    recommends to increase the difficulty: the mastery it reports is at
    most 10/15, below the 0.85 the advancement rule asks for.  Floats are
    exact rationals. *)
Theorem assessment_never_advances
    (str_strip str_lower : string -> string)
    (fromisoformat : string -> Res datetime) (clock : nat -> Z)
    (id topic : string) (store : gmap string LearnerProfile) (k : nat) :
  store_ok store ->
  match get_assessment str_strip str_lower fromisoformat clock id topic
          store k with
  | Ok (Assessed a, _) =>
      (as_mastery_level a <= 10 # 15)%Q /\ recommendation a <> advance
  | _ => True
  end.
Proof.
  intros Hs. unfold get_assessment.
  destruct (topics (load_learner store id) !! _) as [ts |] eqn:E;
    [| exact I].
  pose proof (store_ok_load store id Hs _ _ E) as [Hm _].
  apply computed_mastery_bound in Hm.
  unfold clk_bind, clk_lift, clk_ret.
  destruct (_dominant_error_type (attempt_history ts) 5) as [d | e];
    [| exact I].
  destruct (compute_recommendation _ _ _ _ _ _ _ _ k) as [[r k'] | e] eqn:Er;
    [| exact I].
  cbn [as_mastery_level recommendation]. split; [exact Hm |].
  intros ->. revert Er. apply weak_mastery_never_advances. exact Hm.
Qed.

(** X18, on an example. *)
Lemma assessment_never_advances_witness :
  match get_assessment same_string same_string example_times (frozen 0)
          "ann" "Math"
          (fst (perform_all same_string same_string ten_o_clock
                  example_times same_profile short_session (∅, 0%nat)))
          0%nat with
  | Ok (Assessed a, _) =>
      (as_mastery_level a <= 10 # 15)%Q /\ recommendation a <> advance
  | _ => True
  end.
Proof.
  apply (assessment_never_advances same_string same_string example_times
           (frozen 0) "ann" "Math").
  apply perform_all_keeps_derived;
    [intros p; reflexivity | reflexivity | exact store_ok_empty].
Defined.

(** ** The times the tools write *)

Lemma written_times_well_formed (fromisoformat : string -> Res datetime)
    (now_iso : nat -> string) (bs : BreakState) :
  clock_parses fromisoformat now_iso ->
  times_written_by_clock now_iso bs ->
  well_formed_times fromisoformat bs.
Proof.
  intros Hp ([Hsug Hcool] & Hstart & Hbreak).
  assert (Hw : forall s, written_by_clock now_iso s ->
                         parses_naive fromisoformat s).
  { intros s [-> | [n ->]] Ht; [discriminate Ht |]. apply Hp. }
  split; [rewrite Hsug; intros Ht; discriminate Ht |].
  split; [apply Hw; exact Hstart |].
  split; [apply Hw; exact Hbreak |].
  unfold cooldown_in_range. rewrite Hcool. lia.
Qed.

(** X19. [get_assessment] does not raise on the stores the tools build.
    Every time a tool writes into a break state is a reading of
    [datetime.now().isoformat()], and no suggestion time is ever written
    (true of the empty store, kept by every sequence of tool calls); when
    such readings parse back as naive datetimes, [get_assessment] returns an
    answer for every learner and topic.  [rebuild_unified_graph] is assumed
    to leave the topic states alone. *)
Theorem assessment_returns_on_built_stores
    (str_strip str_lower : string -> string) (now_iso : nat -> string)
    (fromisoformat : string -> Res datetime)
    (rebuild_unified_graph : LearnerProfile -> LearnerProfile)
    (clock : nat -> Z) :
  (forall p, topics (rebuild_unified_graph p) = topics p) ->
  clock_parses fromisoformat now_iso ->
  every_topic (fun _ ts => times_written_by_clock now_iso (break_state ts))
    ∅ /\
  (forall (ops : list Operation) (store : gmap string LearnerProfile)
          (k : nat),
     every_topic
       (fun _ ts => times_written_by_clock now_iso (break_state ts)) store ->
     every_topic
       (fun _ ts => times_written_by_clock now_iso (break_state ts))
       (fst (perform_all str_strip str_lower now_iso fromisoformat
               rebuild_unified_graph ops (store, k)))) /\
  forall (store : gmap string LearnerProfile) (id topic : string) (k : nat),
    every_topic
      (fun _ ts => times_written_by_clock now_iso (break_state ts)) store ->
    exists (answer : Answer) (k' : nat),
      get_assessment str_strip str_lower fromisoformat clock id topic
        store k = Ok (answer, k').
Proof.
  intros Hrebuild Hparse. split; [| split].
  - intros id p topic ts H. rewrite lookup_empty in H. discriminate.
  - intros ops store k. apply perform_all_keeps_topics; [exact Hrebuild | |].
    + intros _. split; [split; reflexivity |]. split; left; reflexivity.
    + intros _ ts ts' H Hc. destruct H as (Hn & Hstart & Hbreak).
      destruct Hc; cbn [break_state with_break_state with_misconceptions];
        try (split; [exact Hn | split; assumption]).
      * split; [exact Hn |]. split; [right; eexists; reflexivity | exact Hbreak].
      * unfold break_state_after_attempt.
        destruct (is_correct a); (split; [exact Hn | split; assumption]).
      * split; [exact Hn |]. split; [exact Hstart | right; eexists; reflexivity].
  - intros store id topic k Hs. unfold get_assessment.
    destruct (topics (load_learner store id) !! _) as [ts |] eqn:E;
      [| eexists _, _; reflexivity].
    apply load_stored in E. rewrite every_topic_stored in Hs.
    pose proof (written_times_well_formed fromisoformat now_iso _ Hparse
                  (Hs _ _ E)) as Hwf.
    unfold clk_bind, clk_lift, clk_ret.
    destruct (dominant_error_returns (attempt_history ts) 5) as [d ->].
    destruct (compute_recommendation_returns fromisoformat clock
                (trajectory ts) d (mastery_level ts)
                (topic_graphs (load_learner store id)
                   !! _normalize_topic str_strip str_lower topic)
                (_normalize_topic str_strip str_lower topic)
                (Some (break_state ts)) k) as (r & k' & ->).
    { intros bs [= <-]. exact Hwf. }
    eexists _, _. reflexivity.
Qed.

(** X19, on an example. *)
Lemma assessment_returns_on_built_stores_witness :
  exists (answer : Answer) (k' : nat),
    get_assessment same_string same_string example_times (frozen 0)
      "ann" "linear algebra"
      (fst (perform_all same_string same_string ten_o_clock example_times
              same_profile struggling_session (∅, 0%nat)))
      0%nat
    = Ok (answer, k').
Proof.
  destruct (assessment_returns_on_built_stores same_string same_string
              ten_o_clock example_times same_profile (frozen 0))
    as (Hempty & Hkeep & Hret).
  - intros p. reflexivity.
  - intros k. eexists. reflexivity.
  - apply Hret, Hkeep, Hempty.
Defined.

(** ** After a break *)

(** X20. After [record_break] the next recommendation is a warm-up.  For a
    topic with data, in a document stored under its learner's identifier
    and without a suggestion time, when the session start (if any) parses,
    the time of the break parses to [t_break] and [get_assessment] runs
    less than 45 minutes after it, [get_assessment] answers with the
    warm-up recommendation, whatever the history, the trajectory, the
    mastery and the errors before the break were. *)
Theorem warmup_after_break
    (str_strip str_lower : string -> string) (now_iso : nat -> string)
    (fromisoformat : string -> Res datetime) (clock : nat -> Z)
    (id topic : string) (store : gmap string LearnerProfile) (k k2 : nat)
    (ts : TopicState) (t_break : Z) :
  keyed store ->
  topics (load_learner store id) !! _normalize_topic str_strip str_lower topic
  = Some ts ->
  last_break_suggestion (break_state ts) = None ->
  parses_naive fromisoformat (session_start_time (break_state ts)) ->
  now_iso k <> EmptyString ->
  fromisoformat (now_iso k) = Ok (Naive t_break) ->
  clock (S k2) - t_break < 45 * us_per_minute ->
  exists (a : Assessment) (k3 : nat),
    get_assessment str_strip str_lower fromisoformat clock id topic
      (fst (record_break str_strip str_lower now_iso id topic (store, k))) k2
    = Ok (Assessed a, k3) /\
    recommendation a
    = plain "warmup"
        "Welcome back! Let's start with a gentler question to ease back in." /\
    as_consecutive_errors a = 0.
Proof.
  intros Hk Hts Hsug Hstart Hne Hbreak Hsoon.
  unfold record_break. rewrite Hts. cbn [fst].
  unfold get_assessment.
  rewrite load_saved by (apply keyed_load; exact Hk).
  cbn [topics topic_graphs]. rewrite lookup_insert_eq.
  unfold clk_bind at 1. unfold clk_lift.
  cbn [attempt_history with_break_state].
  destruct (dominant_error_returns (attempt_history ts) 5) as [d ->].
  set (bs := {| session_start_time := session_start_time (break_state ts);
                last_break_suggestion := last_break_suggestion (break_state ts);
                last_break_taken := Some (now_iso k);
                breaks_taken := breaks_taken (break_state ts) + 1;
                break_cooldown_minutes :=
                  break_cooldown_minutes (break_state ts);
                consecutive_errors := 0;
                post_break_warmup := true;
                error_severity_trend := [] |}).
  assert (Htruthy : truthy (Some (now_iso k)) = true)
    by (cbn; destruct (now_iso k); [contradiction | reflexivity]).
  assert (Hcheck : exists k3,
             check_break_needed fromisoformat clock bs (trajectory ts) k2
             = Ok (no_break, k3)).
  { unfold check_break_needed, in_cooldown.
    cbn [bs last_break_suggestion consecutive_errors error_severity_trend].
    rewrite Hsug. cbn [truthy]. unfold clk_bind at 1. unfold clk_ret at 1.
    replace (3 <=? 0) with false by reflexivity.
    rewrite andb_false_r.
    replace (5 <=? 0) with false by reflexivity.
    unfold clk_bind at 1.
    rewrite long_session_value.
    - cbn [bs session_start_time last_break_taken].
      unfold instant at 2. rewrite Htruthy.
      change (str_of (Some (now_iso k))) with (now_iso k).
      rewrite Hbreak.
      destruct (instant fromisoformat (session_start_time (break_state ts))).
      + destruct (Z.leb_spec (45 * us_per_minute) (clock (S k2) - t_break));
          [lia |].
        eexists. reflexivity.
      + eexists. reflexivity.
    - exact Hstart.
    - intros _. exists t_break. exact Hbreak. }
  destruct Hcheck as [k3 Hcheck].
  exists {| as_mastery_level := mastery_level ts;
            as_trajectory := trajectory ts;
            dominant_error_type := d;
            recommendation :=
              plain "warmup"
                "Welcome back! Let's start with a gentler question to ease back in.";
            as_zpd := zpd ts;
            as_productive_failures := productive_failures ts;
            as_consecutive_errors := 0;
            unresolved_misconceptions :=
              map description
                (filter (fun m => resolved m = false) (misconceptions ts)) |},
    k3.
  split; [| split; reflexivity].
  unfold clk_bind, compute_recommendation, clk_bind.
  cbn [trajectory mastery_level break_state with_break_state].
  rewrite Hcheck. reflexivity.
Qed.

(** X20, on an example: six errors in a row and a declining trajectory,
    a break at ten o'clock, the assessment one minute later. *)
Lemma warmup_after_break_witness :
  exists (a : Assessment) (k3 : nat),
    get_assessment same_string same_string example_times
      (frozen 36060000000) "ann" "math"
      (fst (record_break same_string same_string ten_o_clock "ann" "math"
              (tired_store, 0%nat))) 1%nat
    = Ok (Assessed a, k3) /\
    recommendation a
    = plain "warmup"
        "Welcome back! Let's start with a gentler question to ease back in." /\
    as_consecutive_errors a = 0.
Proof.
  apply (warmup_after_break same_string same_string ten_o_clock
           example_times (frozen 36060000000) "ann" "math" tired_store
           0%nat 1%nat tired_topic 36000000000).
  - intros id p H. unfold tired_store in H.
    apply lookup_singleton_Some in H as [<- <-]. reflexivity.
  - unfold load_learner, tired_store. rewrite lookup_singleton_eq.
    cbn [default topics]. apply lookup_singleton_eq.
  - reflexivity.
  - intros _. eexists. reflexivity.
  - discriminate.
  - reflexivity.
  - unfold frozen, us_per_minute. lia.
Defined.

(** ** Mastery: better and later answers *)

(** [compute_mastery] returns the value of the slice. *)
Lemma compute_mastery_of_slice (h : list Attempt) (window : Z) :
  exists v : Q,
    compute_mastery (topic_of h) window = Ok v /\
    (v == mastery_value (slice_from h (- window)))%Q.
Proof.
  destruct h as [| a h].
  - exists 0%Q. split; [reflexivity |].
    unfold slice_from. rewrite drop_nil. reflexivity.
  - eexists. split; [apply compute_mastery_value; discriminate |].
    reflexivity.
Qed.

(** The slice of a window is a suffix whose start depends on the length of
    the history only. *)
Lemma slice_from_drop {A : Type} (h h' : list A) (start : Z) :
  length h = length h' ->
  exists m : nat, slice_from h start = drop m h /\
                  slice_from h' start = drop m h'.
Proof.
  intros H. unfold slice_from, len. rewrite H. eexists. split; reflexivity.
Qed.

Lemma usum_append (i : Z) (l1 l2 : list Attempt) :
  (usum i (l1 ++ l2)%list == usum i l1 + usum (i + len l1) l2)%Q.
Proof.
  revert i. induction l1 as [| a l1 IH]; intros i.
  - cbn [app usum]. unfold len. cbn [length]. rewrite Z.add_0_r. ring.
  - cbn [app usum]. rewrite IH.
    replace (i + 1 + len l1) with (i + len (a :: l1))
      by (unfold len; cbn [length]; lia).
    ring.
Qed.

Lemma mastery_value_mono (l l' : list Attempt) :
  length l = length l' ->
  (usum 0 l <= usum 0 l')%Q ->
  (mastery_value l <= mastery_value l')%Q.
Proof.
  intros Hlen Hsum. destruct l as [| a l].
  - destruct l'; [apply Qle_refl | discriminate].
  - destruct l' as [| a' l']; [discriminate |].
    rewrite !mastery_value_closed by discriminate.
    rewrite (utot_length 0 (a :: l) (a' :: l') Hlen).
    replace (len (a :: l)) with (len (a' :: l')) by (unfold len; lia).
    pose proof (utot_pos 0 (a' :: l') ltac:(lia) ltac:(discriminate)) as Hv.
    destruct (confidence_bounds (len (a' :: l')) (len_nonneg _)) as [Hc _].
    apply Qmult_le_compat_r; [| exact Hc].
    apply Qle_shift_div_l; [exact Hv |].
    setoid_replace (usum 0 (a :: l) / utot 0 (a' :: l') * utot 0 (a' :: l'))%Q
      with (usum 0 (a :: l)) using relation Qeq
      by (field; lra).
    exact Hsum.
Qed.

Lemma usum_pointwise (i : Z) (l l' : list Attempt) :
  0 <= i ->
  Forall2 (fun a a' => (accuracy_score a <= accuracy_score a')%Q) l l' ->
  (usum i l <= usum i l')%Q.
Proof.
  intros Hi H. revert i Hi.
  induction H as [| a a' l l' Ha _ IH]; intros i Hi; cbn [usum].
  - apply Qle_refl.
  - specialize (IH (i + 1) ltac:(lia)).
    pose proof (inject_Z_pos (i + 1) ltac:(lia)) as Hp. nra.
Qed.

(** X21. A better answer never lowers mastery: when two histories have the
    same length and each attempt of the second has at least the accuracy
    score of the attempt at the same place in the first (a correct answer
    instead of a wrong one, a computational error instead of a conceptual
    one), [compute_mastery] of the second is at least that of the first, for
    every window.  Floats are exact rationals. *)
Theorem better_answers_never_lower_mastery (h h' : list Attempt)
    (window : Z) :
  Forall2 (fun a a' => (accuracy_score a <= accuracy_score a')%Q) h h' ->
  exists v v' : Q,
    compute_mastery (topic_of h) window = Ok v /\
    compute_mastery (topic_of h') window = Ok v' /\
    (v <= v')%Q.
Proof.
  intros H.
  destruct (compute_mastery_of_slice h window) as (v & Hv & Ev).
  destruct (compute_mastery_of_slice h' window) as (v' & Hv' & Ev').
  exists v, v'. split; [exact Hv |]. split; [exact Hv' |].
  rewrite Ev, Ev'.
  destruct (slice_from_drop h h' (- window) (Forall2_length _ _ _ H))
    as (m & -> & ->).
  apply mastery_value_mono.
  - rewrite !length_drop. rewrite (Forall2_length _ _ _ H). reflexivity.
  - apply usum_pointwise; [lia |]. apply Forall2_drop. exact H.
Qed.

(** X21, on an example. *)
Lemma better_answers_never_lower_mastery_witness :
  exists v v' : Q,
    compute_mastery
      (topic_of [make_attempt false (Some "conceptual");
                 make_attempt false (Some "structural")]) 10 = Ok v /\
    compute_mastery
      (topic_of [make_attempt false (Some "computational");
                 make_attempt true None]) 10 = Ok v' /\
    (v <= v')%Q.
Proof.
  apply (better_answers_never_lower_mastery
           [make_attempt false (Some "conceptual");
            make_attempt false (Some "structural")]
           [make_attempt false (Some "computational");
            make_attempt true None] 10).
  repeat constructor; vm_compute; discriminate.
Defined.

Lemma swap_drop {A : Type} (a b : A) (pre post : list A) (m : nat) :
  (exists pre',
     drop m (pre ++ b :: a :: post) = (pre' ++ b :: a :: post)%list /\
     drop m (pre ++ a :: b :: post) = (pre' ++ a :: b :: post)%list) \/
  (drop m (pre ++ b :: a :: post) = a :: post /\
   drop m (pre ++ a :: b :: post) = b :: post) \/
  drop m (pre ++ b :: a :: post) = drop m (pre ++ a :: b :: post).
Proof.
  revert m. induction pre as [| x pre IH]; intros m.
  - destruct m as [| [| m]].
    + left. exists []. split; reflexivity.
    + right. left. split; reflexivity.
    + right. right. reflexivity.
  - destruct m as [| m].
    + left. exists (x :: pre). split; reflexivity.
    + apply (IH m).
Qed.

(** X22. Recency: of two neighbouring attempts the later one weighs more.
    Exchanging two neighbours so that the one with the higher accuracy
    score comes later never lowers [compute_mastery], for every window.
    Floats are exact rationals. *)
Theorem later_answers_weigh_more (pre post : list Attempt) (a b : Attempt)
    (window : Z) :
  (accuracy_score a <= accuracy_score b)%Q ->
  exists v v' : Q,
    compute_mastery (topic_of (pre ++ b :: a :: post)) window = Ok v /\
    compute_mastery (topic_of (pre ++ a :: b :: post)) window = Ok v' /\
    (v <= v')%Q.
Proof.
  intros Hab.
  destruct (compute_mastery_of_slice (pre ++ b :: a :: post) window)
    as (v & Hv & Ev).
  destruct (compute_mastery_of_slice (pre ++ a :: b :: post) window)
    as (v' & Hv' & Ev').
  exists v, v'. split; [exact Hv |]. split; [exact Hv' |].
  rewrite Ev, Ev'.
  assert (Hlen : length (pre ++ b :: a :: post)
                 = length (pre ++ a :: b :: post))
    by (rewrite !length_app; reflexivity).
  destruct (slice_from_drop _ _ (- window) Hlen) as (m & -> & ->).
  destruct (swap_drop a b pre post m)
    as [(pre' & -> & ->) | [[-> ->] | ->]].
  - apply mastery_value_mono; [rewrite !length_app; reflexivity |].
    rewrite !usum_append. cbn [usum].
    set (j := 0 + len pre').
    assert (Hj : 0 <= j) by (pose proof (len_nonneg pre'); lia).
    pose proof (inject_Z_pos (j + 1) ltac:(lia)) as Hp.
    rewrite (inject_Z_succ (j + 1)).
    destruct (accuracy_score_bounds a) as [Ha0 Ha1].
    destruct (accuracy_score_bounds b) as [Hb0 Hb1].
    nra.
  - apply mastery_value_mono; [reflexivity |]. cbn [usum].
    pose proof (inject_Z_pos (0 + 1) ltac:(lia)) as Hp. nra.
  - apply Qle_refl.
Qed.

(** X22, on the attempts of [test_recency_weighting], the exchange made at
    the second and third attempts. *)
Lemma later_answers_weigh_more_witness :
  exists v v' : Q,
    compute_mastery
      (topic_of ([make_attempt true None]
                 ++ make_attempt true None
                    :: make_attempt false (Some "structural")
                    :: [make_attempt false (Some "structural");
                        make_attempt false (Some "structural")])) 10
    = Ok v /\
    compute_mastery
      (topic_of ([make_attempt true None]
                 ++ make_attempt false (Some "structural")
                    :: make_attempt true None
                    :: [make_attempt false (Some "structural");
                        make_attempt false (Some "structural")])) 10
    = Ok v' /\
    (v <= v')%Q.
Proof.
  apply (later_answers_weigh_more [make_attempt true None]
           [make_attempt false (Some "structural");
            make_attempt false (Some "structural")]
           (make_attempt false (Some "structural")) (make_attempt true None)
           10).
  vm_compute. discriminate.
Defined.

(** The comparison of [test_recency_weighting]. *)
Example test_recency_weighting :
  (value_of (compute_mastery (topic_of early_correct) 10)
   < value_of (compute_mastery (topic_of late_correct) 10))%Q.
Proof. reflexivity. Qed.

(** ** Deleting a topic *)

(** X23. The two ways to delete a topic, the tool [delete_topic] and the
    REST route of tutor_app.py, have the same effect on the learner's
    topics: both remove exactly the normalized key and leave every other
    topic as it was (nothing changes when the key is absent), on a store
    whose documents sit under their own identifiers.
    [rebuild_unified_graph], which only the tool calls, is assumed to keep
    the topics and the learner identifier. *)
Theorem deletes_agree
    (str_strip str_lower : string -> string)
    (rebuild_unified_graph : LearnerProfile -> LearnerProfile)
    (id topic : string) (store : gmap string LearnerProfile) (k : nat) :
  (forall p, topics (rebuild_unified_graph p) = topics p) ->
  (forall p, learner_id (rebuild_unified_graph p) = learner_id p) ->
  keyed store ->
  let key := _normalize_topic str_strip str_lower topic in
  topics
    (load_learner
       (fst (delete_topic str_strip str_lower rebuild_unified_graph id topic
               (store, k))) id)
  = delete key (topics (load_learner store id)) /\
  topics
    (load_learner
       (fst (app_delete_topic str_strip str_lower id topic (store, k))) id)
  = delete key (topics (load_learner store id)).
Proof.
  intros Ht Hl Hk. cbv zeta. split.
  - unfold delete_topic.
    destruct (topics (load_learner store id) !! _) as [ts |] eqn:E;
      cbn [fst].
    + rewrite load_saved
        by (rewrite Hl; cbn [learner_id]; apply keyed_load; exact Hk).
      rewrite Ht. reflexivity.
    + symmetry. apply delete_id. exact E.
  - unfold app_delete_topic, _normalize_topic.
    destruct (store !! id) as [p |] eqn:Ep.
    + assert (Hload : load_learner store id = p)
        by (unfold load_learner; rewrite Ep; reflexivity).
      rewrite Hload.
      destruct (topics p !! _) as [ts |] eqn:E; cbn [fst].
      * unfold load_learner. rewrite lookup_insert_eq. reflexivity.
      * rewrite Hload. symmetry. apply delete_id. exact E.
    + cbn [fst]. unfold load_learner. rewrite Ep. cbn.
      symmetry. apply delete_id. apply lookup_empty.
Qed.

(** X23, on an example. *)
Lemma deletes_agree_witness :
  topics
    (load_learner
       (fst (delete_topic same_string same_string same_profile "ann" "math"
               (tired_store, 0%nat))) "ann")
  = delete "math" (topics (load_learner tired_store "ann")) /\
  topics
    (load_learner
       (fst (app_delete_topic same_string same_string "ann" "math"
               (tired_store, 0%nat))) "ann")
  = delete "math" (topics (load_learner tired_store "ann")).
Proof.
  apply (deletes_agree same_string same_string same_profile "ann" "math"
           tired_store 0%nat).
  - intros p. reflexivity.
  - intros p. reflexivity.
  - intros id p H. unfold tired_store in H.
    apply lookup_singleton_Some in H as [<- <-]. reflexivity.
Defined.

(** ** Recording and resolving a misconception *)

Lemma observe_again_reopens (str_lower : string -> string)
    (now descr : string) (ms ms' : list Misconception) :
  observe_again str_lower now descr ms = Some ms' ->
  exists m, m ∈ ms' /\
            str_lower (description m) = str_lower descr /\
            resolved m = false.
Proof.
  revert ms'. induction ms as [| m0 ms IH]; intros ms' H; [discriminate |].
  cbn [observe_again] in H.
  destruct (String.eqb_spec (str_lower (description m0)) (str_lower descr))
    as [E | E].
  - injection H as <-. eexists. split; [apply elem_of_cons; left; reflexivity |].
    split; [exact E | reflexivity].
  - destruct (observe_again str_lower now descr ms) as [r |]; [| discriminate].
    injection H as <-. destruct (IH r eq_refl) as (m & Hin & Hm).
    exists m. split; [apply elem_of_cons; right; exact Hin | exact Hm].
Qed.

Lemma mark_resolved_finds (str_lower : string -> string)
    (now descr : string) (ms : list Misconception) :
  (exists m, m ∈ ms /\ str_lower (description m) = str_lower descr) ->
  exists ms', mark_resolved str_lower now descr ms = Some ms'.
Proof.
  induction ms as [| m0 ms IH]; intros (m & Hin & Hm).
  - apply elem_of_nil in Hin. contradiction.
  - cbn [mark_resolved].
    destruct (String.eqb_spec (str_lower (description m0)) (str_lower descr))
      as [E | E]; [eexists; reflexivity |].
    apply elem_of_cons in Hin as [-> | Hin]; [contradiction |].
    destruct IH as [r ->]; [exists m; split; assumption |].
    eexists. reflexivity.
Qed.

Lemma mark_resolved_resolves (str_lower : string -> string)
    (now descr : string) (ms ms' : list Misconception) :
  distinct_descriptions str_lower ms ->
  mark_resolved str_lower now descr ms = Some ms' ->
  forall m, m ∈ ms' -> str_lower (description m) = str_lower descr ->
            resolved m = true.
Proof.
  unfold distinct_descriptions.
  revert ms'. induction ms as [| m0 ms IH]; intros ms' Hd H; [discriminate |].
  cbn [mark_resolved] in H. cbn [map] in Hd.
  apply NoDup_cons in Hd as [Hnot Hd].
  destruct (String.eqb_spec (str_lower (description m0)) (str_lower descr))
    as [E | E].
  - injection H as <-. intros m Hin Hm.
    apply elem_of_cons in Hin as [-> | Hin]; [reflexivity |].
    exfalso. apply Hnot. rewrite E, <- Hm.
    apply (list_elem_of_fmap_2 (fun m => str_lower (description m))). exact Hin.
  - destruct (mark_resolved str_lower now descr ms) as [r |] eqn:Er;
      [| discriminate].
    injection H as <-. intros m Hin Hm.
    apply elem_of_cons in Hin as [-> | Hin]; [contradiction |].
    exact (IH r Hd eq_refl m Hin Hm).
Qed.

Lemma mark_resolved_keeps (str_lower : string -> string)
    (now descr : string) (ms ms' : list Misconception) :
  mark_resolved str_lower now descr ms = Some ms' ->
  map description ms' = map description ms.
Proof.
  revert ms'. induction ms as [| m ms IH]; intros ms' H; [discriminate |].
  cbn [mark_resolved] in H.
  destruct (String.eqb _ _).
  - injection H as <-. reflexivity.
  - destruct (mark_resolved str_lower now descr ms) as [r |]; [| discriminate].
    injection H as <-. cbn [map]. f_equal. apply IH. reflexivity.
Qed.

Lemma record_keeps_distinct (str_lower : string -> string)
    (now first last descr : string) (ms : list Misconception) :
  distinct_descriptions str_lower ms ->
  distinct_descriptions str_lower
    (match observe_again str_lower now descr ms with
     | Some ms' => ms'
     | None =>
         (ms ++ [ {| description := descr; times_observed := 1;
                     resolved := false; first_seen := first;
                     last_seen := last |} ])%list
     end).
Proof.
  unfold distinct_descriptions. intros H.
  destruct (observe_again str_lower now descr ms) as [ms' |] eqn:Eo.
  - rewrite (observe_again_descriptions _ _ _ _ _ Eo). exact H.
  - rewrite map_app. apply NoDup_app. split; [exact H |]. split.
    + intros x Hx Hin. cbn [map description] in Hin.
      apply list_elem_of_singleton in Hin. subst x.
      exact (observe_again_none _ _ _ _ Eo Hx).
    + apply NoDup_singleton.
Qed.

(** X24. Recording and resolving a misconception.  On a document stored
    under its learner's identifier whose descriptions for the topic are
    distinct when case is ignored, after [record_misconception] the topic
    holds an unresolved misconception with that description (case ignored),
    and a following [resolve_misconception] with a description equal up to
    case finds it: afterwards no unresolved misconception of the topic has
    that description, and no misconception was added or removed. *)
Theorem misconception_recorded_then_resolved
    (str_strip str_lower : string -> string) (now_iso : nat -> string)
    (id topic descr descr' : string) (store : gmap string LearnerProfile)
    (k : nat) :
  keyed store ->
  distinct_descriptions str_lower
    (misconceptions
       (topic_or_new (load_learner store id)
          (_normalize_topic str_strip str_lower topic))) ->
  str_lower descr' = str_lower descr ->
  let key := _normalize_topic str_strip str_lower topic in
  let recorded :=
    record_misconception str_strip str_lower now_iso id topic descr
      (store, k) in
  let resolved_too :=
    resolve_misconception str_strip str_lower now_iso id topic descr'
      recorded in
  exists ts1 ts2 : TopicState,
    topics (load_learner (fst recorded) id) !! key = Some ts1 /\
    topics (load_learner (fst resolved_too) id) !! key = Some ts2 /\
    (exists m, m ∈ misconceptions ts1 /\
               str_lower (description m) = str_lower descr /\
               resolved m = false) /\
    (forall m, m ∈ misconceptions ts2 ->
               str_lower (description m) = str_lower descr ->
               resolved m = true) /\
    map description (misconceptions ts2)
    = map description (misconceptions ts1).
Proof.
  intros Hk Hd Hsame. cbv zeta.
  set (key := _normalize_topic str_strip str_lower topic) in *.
  set (p := load_learner store id) in *.
  set (ts := topic_or_new p key) in *.
  pose proof (keyed_load store id Hk) as Hid. fold p in Hid.
  pose proof (record_keeps_distinct str_lower (now_iso k) (now_iso k)
                (now_iso (S k)) descr (misconceptions ts) Hd) as Hd1.
  assert (Hrec : exists ms1 k1,
             record_misconception str_strip str_lower now_iso id topic descr
               (store, k)
             = (save_learner store
                  (with_topics p
                     (<[key := with_misconceptions ts ms1]> (topics p))),
                k1) /\
             distinct_descriptions str_lower ms1 /\
             exists m, m ∈ ms1 /\
                       str_lower (description m) = str_lower descr /\
                       resolved m = false).
  { unfold record_misconception. fold key p ts.
    destruct (observe_again str_lower (now_iso k) descr (misconceptions ts))
      as [ms |] eqn:Eo.
    - exists ms, (S k). split; [reflexivity |]. split; [exact Hd1 |].
      exact (observe_again_reopens _ _ _ _ _ Eo).
    - eexists _, (S (S k)). split; [reflexivity |]. split; [exact Hd1 |].
      eexists. split; [apply elem_of_app; right; apply list_elem_of_singleton;
                       reflexivity |].
      split; reflexivity. }
  destruct Hrec as (ms1 & k1 & -> & Hms1 & Hfound). cbn [fst].
  set (ts1 := with_misconceptions ts ms1).
  set (p1 := with_topics p (<[key := ts1]> (topics p))).
  assert (Hload1 : load_learner (save_learner store p1) id = p1)
    by (apply load_saved; exact Hid).
  assert (Hts1 : topics p1 !! key = Some ts1) by apply lookup_insert_eq.
  destruct (mark_resolved_finds str_lower (now_iso k1) descr' ms1)
    as [ms2 Hm2].
  { destruct Hfound as (m & Hin & Hm & _). exists m. split; [exact Hin |].
    rewrite Hsame. exact Hm. }
  exists ts1, (with_misconceptions ts1 ms2).
  split; [rewrite Hload1; exact Hts1 |].
  unfold resolve_misconception. fold key. rewrite Hload1, Hts1.
  change (misconceptions ts1) with ms1. rewrite Hm2. cbn [fst].
  rewrite load_saved by exact Hid.
  split; [apply lookup_insert_eq |].
  split; [exact Hfound |].
  cbn [misconceptions with_misconceptions]. split.
  - intros m Hin Hm. rewrite <- Hsame in Hm.
    exact (mark_resolved_resolves _ _ _ _ _ Hms1 Hm2 m Hin Hm).
  - exact (mark_resolved_keeps _ _ _ _ _ Hm2).
Qed.

(** X24, on an example. *)
Lemma misconception_recorded_then_resolved_witness :
  exists ts1 ts2 : TopicState,
    topics
      (load_learner
         (fst (record_misconception same_string same_string ten_o_clock
                 "ann" "math" "Rank is the size" (tired_store, 0%nat)))
         "ann") !! "math" = Some ts1 /\
    topics
      (load_learner
         (fst (resolve_misconception same_string same_string ten_o_clock
                 "ann" "math" "Rank is the size"
                 (record_misconception same_string same_string ten_o_clock
                    "ann" "math" "Rank is the size" (tired_store, 0%nat))))
         "ann") !! "math" = Some ts2 /\
    (exists m, m ∈ misconceptions ts1 /\
               description m = "Rank is the size" /\
               resolved m = false) /\
    (forall m, m ∈ misconceptions ts2 ->
               description m = "Rank is the size" ->
               resolved m = true) /\
    map description (misconceptions ts2)
    = map description (misconceptions ts1).
Proof.
  apply (misconception_recorded_then_resolved same_string same_string
           ten_o_clock "ann" "math" "Rank is the size" "Rank is the size"
           tired_store 0%nat).
  - intros id p H. unfold tired_store in H.
    apply lookup_singleton_Some in H as [<- <-]. reflexivity.
  - change (_normalize_topic same_string same_string "math") with "math".
    unfold topic_or_new, load_learner, tired_store.
    rewrite lookup_singleton_eq.
    change (default (LearnerProfile_new "ann") (Some ?p)) with p.
    cbn [topics]. rewrite lookup_singleton_eq. apply NoDup_nil_2.
  - reflexivity.
Defined.

(** ** Wrong answers in a row *)

Lemma keyed_save (store : gmap string LearnerProfile) (p : LearnerProfile) :
  keyed store -> keyed (save_learner store p).
Proof.
  intros Hk id q H. unfold save_learner in H. rewrite lookup_insert in H.
  destruct (decide (learner_id p = id)) as [<- | Hne].
  - injection H as <-. reflexivity.
  - exact (Hk id q H).
Qed.

Section WrongAnswers.

Variable str_strip : string -> string.
Variable str_lower : string -> string.
Variable now_iso : nat -> string.
Variable fromisoformat : string -> Res datetime.
Variable rebuild_unified_graph : LearnerProfile -> LearnerProfile.

(** One wrong answer adds one to the consecutive errors of its topic. *)
Lemma wrong_attempt_counts (op : Operation) (id key : string)
    (store : gmap string LearnerProfile) (k : nat) :
  keyed store ->
  wrong_attempt_on str_strip str_lower id key op ->
  let store' :=
    fst (perform str_strip str_lower now_iso fromisoformat
           rebuild_unified_graph op (store, k)) in
  let before := break_state (topic_or_new (load_learner store id) key) in
  keyed store' /\
  exists ts',
    topics (load_learner store' id) !! key = Some ts' /\
    consecutive_errors (break_state ts') = consecutive_errors before + 1 /\
    last_break_suggestion (break_state ts') = last_break_suggestion before.
Proof.
  intros Hk Hop. destruct op; try contradiction.
  destruct Hop as (-> & <- & ->). cbv zeta. cbn [perform].
  unfold record_attempt.
  match goal with
  | |- context [compute_trajectory ?h 5] =>
      destruct (compute_trajectory_returns h 5) as [traj ->]
  end.
  match goal with
  | |- context [compute_mastery ?t 10] =>
      destruct (compute_mastery_returns t 10) as [m ->]
  end.
  cbn [fst]. split; [apply keyed_save; exact Hk |].
  rewrite load_saved by (apply keyed_load; exact Hk).
  cbn [topics]. rewrite lookup_insert_eq.
  eexists. split; [reflexivity |].
  cbn [break_state]. unfold break_state_after_attempt.
  cbn [consecutive_errors last_break_suggestion]. split; reflexivity.
Qed.

Lemma wrong_attempts_count (ops : list Operation) (id key : string)
    (store : gmap string LearnerProfile) (k : nat) :
  keyed store ->
  Forall (wrong_attempt_on str_strip str_lower id key) ops ->
  ops <> [] ->
  let before := break_state (topic_or_new (load_learner store id) key) in
  exists ts',
    topics
      (load_learner
         (fst (perform_all str_strip str_lower now_iso fromisoformat
                 rebuild_unified_graph ops (store, k))) id) !! key
    = Some ts' /\
    consecutive_errors (break_state ts')
    = consecutive_errors before + len ops /\
    last_break_suggestion (break_state ts') = last_break_suggestion before.
Proof.
  revert store k. induction ops as [| op ops IH]; intros store k Hk Hall Hne;
    [congruence |].
  apply Forall_cons in Hall as [Hop Hall]. cbv zeta.
  destruct (wrong_attempt_counts op id key store k Hk Hop)
    as (Hk1 & ts1 & Hts1 & Hc1 & Hs1).
  unfold perform_all. cbn [fold_left].
  destruct (perform str_strip str_lower now_iso fromisoformat
              rebuild_unified_graph op (store, k)) as [store1 k1].
  cbn [fst] in Hk1, Hts1.
  destruct ops as [| op2 ops].
  - cbn [fold_left fst]. exists ts1. split; [exact Hts1 |].
    split; [rewrite Hc1; unfold len; cbn [length]; lia | exact Hs1].
  - destruct (IH store1 k1 Hk1 Hall ltac:(discriminate))
      as (ts' & Hts' & Hc & Hs).
    exists ts'. split; [exact Hts' |].
    unfold topic_or_new in Hc, Hs. rewrite Hts1 in Hc, Hs.
    change (default TopicState_default (Some ts1)) with ts1 in Hc, Hs.
    split; [| rewrite Hs; exact Hs1].
    rewrite Hc, Hc1. unfold len. cbn [length]. lia.
Qed.

End WrongAnswers.

Lemma many_errors_take_break (fromisoformat : string -> Res datetime)
    (clock : nat -> Z) (bs : BreakState) (trajectory : string)
    (dominant_error : option string) (mastery : Q)
    (topic_graph : option TopicGraph) (topic : string) (k : nat) :
  last_break_suggestion bs = None ->
  5 <= consecutive_errors bs ->
  exists r,
    compute_recommendation fromisoformat clock trajectory dominant_error
      mastery topic_graph topic (Some bs) k = Ok (r, k) /\
    action r = "take_break" /\ rec_urgency r = Some "high".
Proof.
  intros Hs H5.
  unfold compute_recommendation, check_break_needed, clk_bind, in_cooldown.
  rewrite Hs. cbn [truthy]. unfold clk_ret.
  destruct (String.eqb trajectory "declining"
            && (3 <=? consecutive_errors bs)).
  - eexists. split; [reflexivity |]. split; reflexivity.
  - destruct (Z.leb_spec 5 (consecutive_errors bs)) as [H | H]; [| lia].
    eexists. split; [reflexivity |]. split; reflexivity.
Qed.

(** X25. Five wrong answers in a row bring the recommendation to take a
    break.  On a store whose documents sit under their own identifiers,
    after any sequence of five or more [record_attempt] calls with wrong
    answers for one learner and one topic (however the topic is spelled,
    whatever the error types), [get_assessment] answers take_break with
    urgency high and reports at least five consecutive errors, whatever the
    mastery and the trajectory are; the topic must not carry a suggestion
    time, which no tool writes, and its error counter must not be
    negative. *)
Theorem five_wrong_answers_need_break
    (str_strip str_lower : string -> string) (now_iso : nat -> string)
    (fromisoformat : string -> Res datetime)
    (rebuild_unified_graph : LearnerProfile -> LearnerProfile)
    (clock : nat -> Z)
    (id topic : string) (ops : list Operation)
    (store : gmap string LearnerProfile) (k k2 : nat) :
  keyed store ->
  Forall (wrong_attempt_on str_strip str_lower id
            (_normalize_topic str_strip str_lower topic)) ops ->
  5 <= len ops ->
  0 <= consecutive_errors
         (break_state
            (topic_or_new (load_learner store id)
               (_normalize_topic str_strip str_lower topic))) ->
  last_break_suggestion
    (break_state
       (topic_or_new (load_learner store id)
          (_normalize_topic str_strip str_lower topic))) = None ->
  exists (a : Assessment),
    get_assessment str_strip str_lower fromisoformat clock id topic
      (fst (perform_all str_strip str_lower now_iso fromisoformat
              rebuild_unified_graph ops (store, k))) k2
    = Ok (Assessed a, k2) /\
    action (recommendation a) = "take_break" /\
    rec_urgency (recommendation a) = Some "high" /\
    5 <= as_consecutive_errors a.
Proof.
  intros Hk Hall Hlen Hc0 Hs0.
  assert (Hne : ops <> []) by (intros ->; unfold len in Hlen; cbn in Hlen; lia).
  destruct (wrong_attempts_count str_strip str_lower now_iso fromisoformat
              rebuild_unified_graph ops id _ store k Hk Hall Hne)
    as (ts' & Hts' & Hc & Hs).
  rewrite Hs0 in Hs.
  unfold get_assessment. rewrite Hts'.
  unfold clk_bind at 1. unfold clk_lift.
  destruct (dominant_error_returns (attempt_history ts') 5) as [d ->].
  unfold clk_bind.
  edestruct (many_errors_take_break fromisoformat clock (break_state ts')
               (trajectory ts') d (mastery_level ts')) as (r & -> & Ha & Hu);
    [exact Hs | lia |].
  eexists. split; [reflexivity |].
  cbn [recommendation as_consecutive_errors].
  split; [exact Ha |]. split; [exact Hu | lia].
Qed.

(** X25, on an example. *)
Lemma five_wrong_answers_need_break_witness :
  exists (a : Assessment),
    get_assessment same_string same_string example_times (frozen 0)
      "ann" "set theory"
      (fst (perform_all same_string same_string ten_o_clock example_times
              same_profile five_wrong (∅, 0%nat))) 0%nat
    = Ok (Assessed a, 0%nat) /\
    action (recommendation a) = "take_break" /\
    rec_urgency (recommendation a) = Some "high" /\
    5 <= as_consecutive_errors a.
Proof.
  apply (five_wrong_answers_need_break same_string same_string ten_o_clock
           example_times same_profile (frozen 0) "ann" "set theory"
           five_wrong ∅ 0%nat 0%nat).
  - intros id p H. rewrite lookup_empty in H. discriminate.
  - unfold five_wrong. repeat constructor.
  - unfold five_wrong, len. cbn [length]. lia.
  - unfold topic_or_new, load_learner. rewrite lookup_empty.
    cbn [default LearnerProfile_new topics]. rewrite lookup_empty.
    cbn. lia.
  - unfold topic_or_new, load_learner. rewrite lookup_empty.
    cbn [default LearnerProfile_new topics]. rewrite lookup_empty.
    reflexivity.
Defined.
